(** * Synthetic authentication-log generator

    A shallow embedding of [poc-auth-anomaly/src/generate_synthetic_auth_logs.py]
    and the properties its specification states about it.

    Conventions of the embedding:
    - a Python [float] is a binary64 value: Rocq's primitive [float];
    - a Python [int] is a [Z];
    - a [Dict[str, str]] is a [gmap string string];
    - a timezone-aware UTC [datetime] is the number of microseconds since
      0001-01-01T00:00:00 (a [Z]), a [timedelta] a number of microseconds;
    - the generator threads one [random.Random] object through every call
      and may raise: computations live in a state-and-exception monad over
      the state of the random source. *)

From Stdlib Require Import ZArith Lia PrimFloat Uint63 Ascii.
From stdpp Require Import base option list gmap strings.

(* Decimal literals such as [0.8] denote the nearest binary64 value, as
   they do in Python. *)
#[local] Set Warnings "-inexact-float".

Local Open Scope string_scope.
Local Open Scope list_scope.
Local Open Scope Z_scope.

(* ===================================================================== *)
(** * Exceptions and the generator monad *)
(* ===================================================================== *)

(** The exceptions the modelled code paths can raise. *)
Inductive exn : Type :=
  | ValueError      (* empty randint range, malformed address, bad field *)
  | IndexError      (* choice from an empty sequence, [items[-1]] on [[]] *)
  | OverflowError   (* datetime or timedelta out of range *)
  | OSError.        (* the file system refuses [mkdir], [open] or a write *)

Inductive result (A : Type) : Type :=
  | Ok (a : A)
  | Raise (e : exn).
Arguments Ok {A} a.
Arguments Raise {A} e.

Definition result_bind {A B} (r : result A) (k : A -> result B) : result B :=
  match r with
  | Ok a => k a
  | Raise e => Raise e
  end.

(** A computation that reads and advances the random source [G]. *)
Definition M (G A : Type) : Type := G -> result (A * G).

Definition ret {G A} (a : A) : M G A := fun g => Ok (a, g).

Definition bind {G A B} (m : M G A) (k : A -> M G B) : M G B :=
  fun g => match m g with
           | Ok (a, g') => k a g'
           | Raise e => Raise e
           end.

Definition raise {G A} (e : exn) : M G A := fun _ => Raise e.

(** A computation of [result] that does not touch the random source. *)
Definition lift {G A} (r : result A) : M G A :=
  fun g => match r with
           | Ok a => Ok (a, g)
           | Raise e => Raise e
           end.

Declare Scope gen_scope.
Delimit Scope gen_scope with gen.
Notation "'let*' x ':=' c 'in' k" := (bind c (fun x => k))
  (at level 10, x pattern, c at level 100, k at level 200) : gen_scope.
Local Open Scope gen_scope.

(* ===================================================================== *)
(** * The random source

    [random.Random] belongs to the Python library, not to the repository.
    Its two primitives are taken as an interface: [random()] and the
    internal [_randbelow(n)] on which [randint], [choice] and [shuffle]
    are built.  The laws are the documented ranges of the two. *)
(* ===================================================================== *)

Definition in_unit_interval (u : float) : bool :=
  PrimFloat.leb 0%float u && PrimFloat.ltb u 1%float.

Class RandomSource (G : Type) : Type := {
  (** [random.Random(seed)] *)
  rng_seed : Z -> G;
  (** [rng.random()]: the next float in [0.0, 1.0) *)
  rng_random : G -> float * G;
  (** [rng._randbelow(n)] for [n > 0]: the next integer in [0, n) *)
  rng_randbelow : Z -> G -> Z * G;
  rng_random_unit : forall g, in_unit_interval (fst (rng_random g)) = true;
  rng_randbelow_range : forall n g, 0 < n -> 0 <= fst (rng_randbelow n g) < n
}.

Section RandomMethods.
Context {G : Type} `{RandomSource G}.

Definition random : M G float := fun g => Ok (rng_random g).

(** [randint(a, b)] is [randrange(a, b + 1)]: [a + _randbelow(b + 1 - a)]
    when the range is not empty, [ValueError] otherwise. *)
Definition randint (a b : Z) : M G Z :=
  let width := b + 1 - a in
  if 0 <? width
  then fun g => let (k, g') := rng_randbelow width g in Ok (a + k, g')
  else raise ValueError.

(** [choice(seq)] is [seq[_randbelow(len(seq))]], [IndexError] on an
    empty sequence. *)
Definition choice {A} (seq : list A) : M G A :=
  match seq with
  | [] => raise IndexError
  | _ :: _ =>
      fun g => let (k, g') := rng_randbelow (Z.of_nat (length seq)) g in
               match seq !! Z.to_nat k with
               | Some x => Ok (x, g')
               | None => Raise IndexError
               end
  end.

(** [x[i], x[j] = x[j], x[i]] for indices inside the list. *)
Definition swap {A} (i j : nat) (x : list A) : list A :=
  match x !! i, x !! j with
  | Some xi, Some xj => <[j := xi]> (<[i := xj]> x)
  | _, _ => x
  end.

(** [shuffle(x)]:
    [for i in reversed(range(1, len(x))): j = _randbelow(i + 1); swap].
    [shuffle_from i x] runs the iterations [i, i - 1, ..., 1]. *)
Fixpoint shuffle_from {A} (i : nat) (x : list A) : M G (list A) :=
  match i with
  | O => ret x
  | S i' =>
      fun g => let (j, g') := rng_randbelow (Z.of_nat i + 1) g in
               shuffle_from i' (swap i (Z.to_nat j) x) g'
  end.

Definition shuffle {A} (x : list A) : M G (list A) :=
  shuffle_from (length x - 1) x.
End RandomMethods.

(* ===================================================================== *)
(** * Weighted choice *)
(* ===================================================================== *)

Section WeightedChoice.
Context {G : Type} `{RandomSource G}.

(** The built-in [sum] over the weights.  Its rounding depends on the
    interpreter (plain left-to-right addition before Python 3.12,
    compensated summation from 3.12 on), so it is a parameter. *)
Variable float_sum : list float -> float.

(** The loop of [weighted_choice]: [upto += weight; if upto >= r:
    return item], [None] when the loop falls through. *)
Fixpoint weighted_walk (r upto : float) (items : list (string * float))
  : option string :=
  match items with
  | [] => None
  | (item, weight) :: rest =>
      let upto' := PrimFloat.add upto weight in
      if PrimFloat.leb r upto' then Some item
      else weighted_walk r upto' rest
  end.

Definition weighted_choice (items : list (string * float)) : M G string :=
  let total := float_sum (map snd items) in
  let* u := random in
  let r := PrimFloat.mul u total in
  match weighted_walk r 0%float items with
  | Some item => ret item
  | None =>
      (* return items[-1][0] *)
      match last items with
      | Some (item, _) => ret item
      | None => raise IndexError
      end
  end.
End WeightedChoice.

(** Plain left-to-right summation, [0 + w1 + w2 + ...]. *)
Definition naive_sum (ws : list float) : float :=
  fold_left PrimFloat.add ws 0%float.

(* ===================================================================== *)
(** * Text helpers: [str.split], [int(s, base)], [str(int)], ['%x'] *)
(* ===================================================================== *)

(** [s.split(sep)] for a one-character separator. *)
Fixpoint str_split (sep : ascii) (s : string) : list string :=
  match s with
  | EmptyString => [""]
  | String c rest =>
      if Ascii.eqb c sep then "" :: str_split sep rest
      else match str_split sep rest with
           | hd :: tl => String c hd :: tl
           | [] => [String c ""]
           end
  end.

(** [sep.join(parts)] *)
Fixpoint str_join (sep : string) (parts : list string) : string :=
  match parts with
  | [] => ""
  | [p] => p
  | p :: rest => p +:+ sep +:+ str_join sep rest
  end.

Definition code (c : ascii) : Z := Z.of_N (N_of_ascii c).

Definition digit_value (c : ascii) : option Z :=
  if (48 <=? code c) && (code c <=? 57) then Some (code c - 48) else None.

(** A character of [0123456789abcdefABCDEF]. *)
Definition hex_value (c : ascii) : option Z :=
  if (48 <=? code c) && (code c <=? 57) then Some (code c - 48)
  else if (97 <=? code c) && (code c <=? 102) then Some (code c - 87)
  else if (65 <=? code c) && (code c <=? 70) then Some (code c - 55)
  else None.

(** Reads the digits of [s] in [base]; [None] on a foreign character. *)
Fixpoint parse_digits (value : ascii -> option Z) (base acc : Z) (s : string)
  : option Z :=
  match s with
  | EmptyString => Some acc
  | String c rest =>
      match value c with
      | Some d => parse_digits value base (acc * base + d) rest
      | None => None
      end
  end.

Definition digit_char (d : Z) : ascii :=
  if d <? 10 then ascii_of_N (Z.to_N (48 + d)) else ascii_of_N (Z.to_N (87 + d)).

Fixpoint digits_go (fuel : nat) (base n : Z) (acc : string) : string :=
  match fuel with
  | O => acc
  | S fuel' =>
      let acc' := String (digit_char (n mod base)) acc in
      if n <? base then acc' else digits_go fuel' base (n / base) acc'
  end.

(** [str(n)] for [n >= 0] (base 10) and ['%x' % n] (base 16). *)
Definition str_base (base n : Z) : string :=
  digits_go (S (Z.to_nat (Z.log2 n))) base n "".
Definition str_int : Z -> string := str_base 10.
Definition str_hex : Z -> string := str_base 16.

Fixpoint zeros (n : nat) : string :=
  match n with
  | O => ""
  | S n' => String "0" (zeros n')
  end.

(** ['%0<width>d' % n] for [n >= 0]. *)
Definition zero_padded (width : nat) (n : Z) : string :=
  let s := str_int n in
  zeros (width - String.length s) +:+ s.

Fixpoint contains_char (c : ascii) (s : string) : bool :=
  match s with
  | EmptyString => false
  | String c' rest => Ascii.eqb c c' || contains_char c rest
  end.

(* ===================================================================== *)
(** * The [ipaddress] library: networks and addresses

    Library code, modelled after CPython's [Lib/ipaddress.py]: parsing of
    IPv4 and IPv6 network strings with [strict=False], the integer view of
    a network, and the text of an address built from an integer. *)
(* ===================================================================== *)

Inductive ip_version : Type := V4 | V6.

Definition max_prefixlen (v : ip_version) : Z :=
  match v with V4 => 32 | V6 => 128 end.

Definition all_ones (v : ip_version) : Z := 2 ^ max_prefixlen v - 1.

Record ip_net : Type := IpNet {
  net_version : ip_version;
  network_address : Z;
  prefixlen : Z
}.

Definition netmask (n : ip_net) : Z :=
  Z.lxor (all_ones (net_version n))
         (Z.shiftr (all_ones (net_version n)) (prefixlen n)).

Definition hostmask (n : ip_net) : Z :=
  Z.lxor (netmask n) (all_ones (net_version n)).

Definition broadcast_address (n : ip_net) : Z :=
  Z.lor (network_address n) (hostmask n).

Definition num_addresses (n : ip_net) : Z :=
  broadcast_address n - network_address n + 1.

(** [IPv4Address._parse_octet]: ASCII digits, at most three, no leading
    zero (CPython 3.9.5 and later), at most 255. *)
Definition parse_octet (s : string) : option Z :=
  match s with
  | EmptyString => None
  | String c0 _ =>
      match parse_digits digit_value 10 0 s with
      | None => None
      | Some v =>
          if (3 <? String.length s)%nat then None
          else if negb (String.eqb s "0") && Ascii.eqb c0 "0" then None
          else if 255 <? v then None
          else Some v
      end
  end.

(** [IPv4Address._ip_int_from_string] *)
Definition ipv4_of_string (s : string) : option Z :=
  if String.eqb s "" then None
  else match str_split "." s with
       | [a; b; c; d] =>
           match parse_octet a, parse_octet b, parse_octet c, parse_octet d with
           | Some a, Some b, Some c, Some d =>
               Some (((a * 256 + b) * 256 + c) * 256 + d)
           | _, _, _, _ => None
           end
       | _ => None
       end.

(** [_prefix_from_prefix_string]: ASCII digits giving a length in range. *)
Definition prefix_of_prefix_string (v : ip_version) (s : string) : option Z :=
  match s with
  | EmptyString => None
  | String _ _ =>
      match parse_digits digit_value 10 0 s with
      | Some p => if p <=? max_prefixlen v then Some p else None
      | None => None
      end
  end.

(** [_prefix_from_ip_int]: the length of a mask of leading ones. *)
Definition prefix_of_ip_int (v : ip_version) (mask : Z) : option Z :=
  let candidates := map Z.of_nat (seq 0 (S (Z.to_nat (max_prefixlen v)))) in
  find (fun p => mask =? Z.lxor (all_ones v) (Z.shiftr (all_ones v) p))
       candidates.

(** [IPv4Network._prefix_from_ip_string]: a netmask, else a hostmask. *)
Definition prefix_of_ip_string (s : string) : option Z :=
  match ipv4_of_string s with
  | None => None
  | Some mask =>
      match prefix_of_ip_int V4 mask with
      | Some p => Some p
      | None => prefix_of_ip_int V4 (Z.lxor mask (all_ones V4))
      end
  end.

Definition ipv4_prefix (s : string) : option Z :=
  match prefix_of_prefix_string V4 s with
  | Some p => Some p
  | None => prefix_of_ip_string s
  end.

(** The masking of host bits that [strict=False] performs. *)
Definition masked_net (v : ip_version) (addr p : Z) : ip_net :=
  let shell := IpNet v addr p in
  IpNet v (Z.land addr (netmask shell)) p.

(** [IPv4Network(address, strict=False)] for a string. *)
Definition ipv4_network (cidr : string) : option ip_net :=
  match str_split "/" cidr with
  | [a] =>
      match ipv4_of_string a with
      | Some addr => Some (masked_net V4 addr 32)
      | None => None
      end
  | [a; m] =>
      match ipv4_of_string a, ipv4_prefix m with
      | Some addr, Some p => Some (masked_net V4 addr p)
      | _, _ => None
      end
  | _ => None
  end.

(** [IPv6Address._parse_hextet]: one to four hexadecimal digits. *)
Definition parse_hextet (s : string) : option Z :=
  match s with
  | EmptyString => None
  | String _ _ =>
      match parse_digits hex_value 16 0 s with
      | Some v => if (4 <? String.length s)%nat then None else Some v
      | None => None
      end
  end.

(** Folds hextets into an integer, sixteen bits at a time. *)
Fixpoint hextets_value (acc : Z) (parts : list string) : option Z :=
  match parts with
  | [] => Some acc
  | p :: rest =>
      match parse_hextet p with
      | Some v => hextets_value (Z.lor (Z.shiftl acc 16) v) rest
      | None => None
      end
  end.

(** An IPv4-style last part is replaced by its two hextets. *)
Definition expand_ipv4_suffix (parts : list string) : option (list string) :=
  match last parts with
  | None => None
  | Some tail =>
      if contains_char "." tail then
        match ipv4_of_string tail with
        | Some v =>
            Some (take (length parts - 1) parts
                  ++ [str_hex (Z.land (Z.shiftr v 16) 65535);
                      str_hex (Z.land v 65535)])%list
        | None => None
        end
      else Some parts
  end.

(** The indices strictly inside [parts] that hold an empty part. *)
Definition empty_middle_parts (parts : list string) : list nat :=
  filter (fun i => parts !! i = Some "") (seq 1 (length parts - 2)).

(** [IPv6Address._ip_int_from_string] *)
Definition ipv6_of_string (s : string) : option Z :=
  if String.eqb s "" then None
  else
    let parts0 := str_split ":" s in
    if (length parts0 <? 3)%nat then None
    else
      match expand_ipv4_suffix parts0 with
      | None => None
      | Some parts =>
          if (9 <? length parts)%nat then None
          else
            let first_empty := bool_decide (parts !! 0%nat = Some "") in
            let last_empty := bool_decide (last parts = Some "") in
            match empty_middle_parts parts with
            | [] =>
                if negb (length parts =? 8)%nat || first_empty || last_empty
                then None
                else hextets_value 0 parts
            | [skip_index] =>
                let parts_hi := (if first_empty then skip_index - 1
                                 else skip_index)%nat in
                let parts_lo := (if last_empty
                                 then length parts - skip_index - 1 - 1
                                 else length parts - skip_index - 1)%nat in
                if first_empty && negb (parts_hi =? 0)%nat then None
                else if last_empty && negb (parts_lo =? 0)%nat then None
                else if (8 <? parts_hi + parts_lo + 1)%nat then None
                else
                  let parts_skipped := (8 - (parts_hi + parts_lo))%nat in
                  match hextets_value 0 (take parts_hi parts) with
                  | None => None
                  | Some hi =>
                      hextets_value
                        (Z.shiftl hi (16 * Z.of_nat parts_skipped))
                        (drop (length parts - parts_lo) parts)
                  end
            | _ => None
            end
      end.

(** [IPv6Address._split_scope_id]: drops a non-empty [%scope] suffix. *)
Definition split_scope_id (s : string) : option string :=
  match str_split "%" s with
  | [a] => Some a
  | [a; scope] => if String.eqb scope "" then None else Some a
  | _ => None
  end.

(** [IPv6Network(address, strict=False)] for a string. *)
Definition ipv6_network (cidr : string) : option ip_net :=
  let address a :=
    match split_scope_id a with
    | Some a' => ipv6_of_string a'
    | None => None
    end in
  match str_split "/" cidr with
  | [a] =>
      match address a with
      | Some addr => Some (masked_net V6 addr 128)
      | None => None
      end
  | [a; m] =>
      match address a, prefix_of_prefix_string V6 m with
      | Some addr, Some p => Some (masked_net V6 addr p)
      | _, _ => None
      end
  | _ => None
  end.

(** [ipaddress.ip_network(cidr, strict=False)]: IPv4 first, then IPv6. *)
Definition ip_network (cidr : string) : result ip_net :=
  match ipv4_network cidr with
  | Some n => Ok n
  | None =>
      match ipv6_network cidr with
      | Some n => Ok n
      | None => Raise ValueError
      end
  end.

(** An address object: its version and its integer. *)
Definition ip_addr : Type := ip_version * Z.

(** [ipaddress.ip_address(n)] for an integer: an [IPv4Address] whenever
    the integer fits 32 bits, an [IPv6Address] when it fits 128 bits. *)
Definition ip_address (n : Z) : result ip_addr :=
  if (0 <=? n) && (n <=? all_ones V4) then Ok (V4, n)
  else if (0 <=? n) && (n <=? all_ones V6) then Ok (V6, n)
  else Raise ValueError.

(** [IPv4Address.__str__]: the four bytes in decimal. *)
Definition ipv4_text (n : Z) : string :=
  str_join "." (map (fun k => str_int (Z.land (Z.shiftr n (8 * k)) 255))
                [3; 2; 1; 0]).

(** The scan of [IPv6Address._compress_hextets] for the longest run of
    ["0"] hextets: state is (best start, best length, start, length). *)
Definition zero_run_step (st : Z * Z * Z * Z) (entry : Z * string)
  : Z * Z * Z * Z :=
  let '(best_start, best_len, start, len) := st in
  let '(index, hextet) := entry in
  if String.eqb hextet "0" then
    let len' := len + 1 in
    let start' := if start =? -1 then index else start in
    if best_len <? len' then (start', len', start', len')
    else (best_start, best_len, start', len')
  else (best_start, best_len, -1, 0).

Definition enumerate {A} (l : list A) : list (Z * A) :=
  zip (map Z.of_nat (seq 0 (length l))) l.

Definition compress_hextets (hextets : list string) : list string :=
  let '(best_start, best_len, _, _) :=
    fold_left zero_run_step (enumerate hextets) (-1, 0, -1, 0) in
  if 1 <? best_len then
    let best_end := best_start + best_len in
    let hextets1 :=
      if best_end =? Z.of_nat (length hextets) then (hextets ++ [""])%list
      else hextets in
    let hextets2 :=
      (take (Z.to_nat best_start) hextets1
       ++ [""] ++ drop (Z.to_nat best_end) hextets1)%list in
    if best_start =? 0 then "" :: hextets2 else hextets2
  else hextets.

(** [IPv6Address.__str__] of an address without scope. *)
Definition ipv6_text (n : Z) : string :=
  let hextets :=
    map (fun k => str_hex (Z.land (Z.shiftr n (16 * k)) 65535))
        [7; 6; 5; 4; 3; 2; 1; 0] in
  str_join ":" (compress_hextets hextets).

(** The canonical text of the address [n] of version [v]. *)
Definition ip_text (v : ip_version) (n : Z) : string :=
  match v with
  | V4 => ipv4_text n
  | V6 => ipv6_text n
  end.

Definition str_ip (a : ip_addr) : string := ip_text (fst a) (snd a).

(* ===================================================================== *)
(** * [random_ip_from_cidr] *)
(* ===================================================================== *)

Section RandomIp.
Context {G : Type} `{RandomSource G}.

Definition is_v4 (n : ip_net) : bool :=
  match net_version n with V4 => true | V6 => false end.

(** The sampling range [(first, last)] of a network. *)
Definition sampling_range (net : ip_net) : Z * Z :=
  if is_v4 net && (2 <? num_addresses net)
  then (network_address net + 1, broadcast_address net - 1)
  else (network_address net, network_address net + num_addresses net - 1).

Definition random_ip_from_cidr (cidr : string) : M G string :=
  let* net := lift (ip_network cidr) in
  let '(first, last) := sampling_range net in
  let* n := randint first last in
  let* a := lift (ip_address n) in
  ret (str_ip a).
End RandomIp.

(* ===================================================================== *)
(** * The [datetime] library: instants, spans and their text

    Every [datetime] of the program is aware and carries [timezone.utc],
    so [astimezone(timezone.utc)] returns it unchanged and arithmetic acts
    on the UTC fields.  An instant is its distance in microseconds from
    0001-01-01T00:00:00; the representable instants end with year 9999. *)
(* ===================================================================== *)

Definition US_PER_SECOND : Z := 1000000.
Definition US_PER_DAY : Z := 86400 * US_PER_SECOND.

(** [date.max.toordinal()]: the ordinal of 9999-12-31. *)
Definition MAX_ORDINAL : Z := 3652059.

Definition valid_datetime (t : Z) : bool :=
  (0 <=? t) && (t <? MAX_ORDINAL * US_PER_DAY).

(** [timedelta(days=, hours=, minutes=, seconds=)]: the span in
    microseconds, [OverflowError] beyond 999999999 days. *)
Definition timedelta (days hours minutes seconds : Z) : result Z :=
  let us := (((days * 24 + hours) * 60 + minutes) * 60 + seconds)
            * US_PER_SECOND in
  let norm_days := us / US_PER_DAY in
  if (-999999999 <=? norm_days) && (norm_days <=? 999999999)
  then Ok us else Raise OverflowError.

(** [t + td] and [t - td]: [OverflowError] outside years 1..9999. *)
Definition datetime_add (t td : Z) : result Z :=
  if valid_datetime (t + td) then Ok (t + td) else Raise OverflowError.

Definition datetime_sub (t td : Z) : result Z :=
  if valid_datetime (t - td) then Ok (t - td) else Raise OverflowError.

(** [int((end - start).total_seconds())].  [total_seconds()] is the double
    nearest to the span divided by [10**6] and [int] truncates it; on a
    span of whole seconds, as every window [main] builds is, the division
    is exact in binary64 and the value is this quotient. *)
Definition int_total_seconds (start end_ : Z) : Z :=
  Z.quot (end_ - start) US_PER_SECOND.

(** [t.replace(hour=, minute=, second=)]: same date and microsecond,
    [ValueError] on a field out of range. *)
Definition datetime_replace (t hour minute second : Z) : result Z :=
  if (0 <=? hour) && (hour <=? 23) && (0 <=? minute) && (minute <=? 59)
     && (0 <=? second) && (second <=? 59)
  then Ok (t - t mod US_PER_DAY
           + ((hour * 60 + minute) * 60 + second) * US_PER_SECOND
           + t mod US_PER_SECOND)
  else Raise ValueError.

Definition DI400Y : Z := 146097.
Definition DI100Y : Z := 36524.
Definition DI4Y : Z := 1461.

Definition DAYS_IN_MONTH : list Z :=
  [-1; 31; 28; 31; 30; 31; 30; 31; 31; 30; 31; 30; 31].
Definition DAYS_BEFORE_MONTH : list Z :=
  [-1; 0; 31; 59; 90; 120; 151; 181; 212; 243; 273; 304; 334].

Definition table_at (table : list Z) (i : Z) : Z :=
  default 0 (table !! Z.to_nat i).

Definition flag (b : bool) : Z := if b then 1 else 0.

(** The month and day of the [n]-th day (from 0) of a year, the tail of
    [_ord2ymd]: an estimate of the month that is exact or one too large,
    corrected by the days that precede it. *)
Definition month_day (leapyear : bool) (n : Z) : Z * Z :=
  let month := Z.shiftr (n + 50) 5 in
  let preceding :=
    table_at DAYS_BEFORE_MONTH month + flag ((2 <? month) && leapyear) in
  if n <? preceding then
    let month' := month - 1 in
    let preceding' :=
      preceding
      - (table_at DAYS_IN_MONTH month' + flag ((month' =? 2) && leapyear)) in
    (month', n - preceding' + 1)
  else (month, n - preceding + 1).

(** [_ord2ymd]: the proleptic Gregorian (year, month, day) of an ordinal,
    ordinal 1 being 0001-01-01. *)
Definition ord2ymd (ordinal : Z) : Z * Z * Z :=
  let n := ordinal - 1 in
  let n400 := n / DI400Y in
  let n := n mod DI400Y in
  let year := n400 * 400 + 1 in
  let n100 := n / DI100Y in
  let n := n mod DI100Y in
  let n4 := n / DI4Y in
  let n := n mod DI4Y in
  let n1 := n / 365 in
  let n := n mod 365 in
  let year := year + n100 * 100 + n4 * 4 + n1 in
  if (n1 =? 4) || (n100 =? 4) then (year - 1, 12, 31)
  else
    let leapyear := (n1 =? 3) && (negb (n4 =? 24) || (n100 =? 3)) in
    let '(month, day) := month_day leapyear n in
    (year, month, day).

(** The wall-clock fields (hour, minute, second) of an instant. *)
Definition hms (t : Z) : Z * Z * Z :=
  let s := (t mod US_PER_DAY) / US_PER_SECOND in
  (s / 3600, (s / 60) mod 60, s mod 60).

(** [t.isoformat(timespec="seconds")] of a UTC instant. *)
Definition isoformat_seconds (t : Z) : string :=
  let '(year, month, day) := ord2ymd (t / US_PER_DAY + 1) in
  let '(hour, minute, second) := hms t in
  zero_padded 4 year +:+ "-" +:+ zero_padded 2 month +:+ "-"
  +:+ zero_padded 2 day +:+ "T" +:+ zero_padded 2 hour +:+ ":"
  +:+ zero_padded 2 minute +:+ ":" +:+ zero_padded 2 second +:+ "+00:00".

(** ** Reading a timestamp back

    The text [isoformat(timespec="seconds")] writes for a UTC instant is
    [YYYY-MM-DDTHH:MM:SS+00:00].  [parse_isoformat_seconds] reads exactly
    that form back into the instant it denotes, with the calendar
    arithmetic of [_ymd2ord]. *)

Definition is_leap (year : Z) : bool :=
  (year mod 4 =? 0) && (negb (year mod 100 =? 0) || (year mod 400 =? 0)).

Definition days_before_year (year : Z) : Z :=
  let y := year - 1 in y * 365 + y / 4 - y / 100 + y / 400.

Definition month_length (leap : bool) (month : Z) : Z :=
  if (month =? 2) && leap then 29 else table_at DAYS_IN_MONTH month.

Definition month_offset (leap : bool) (month : Z) : Z :=
  table_at DAYS_BEFORE_MONTH month + flag ((2 <? month) && leap).

Definition days_in_month (year month : Z) : Z :=
  month_length (is_leap year) month.

Definition days_before_month (year month : Z) : Z :=
  month_offset (is_leap year) month.

Definition ymd2ord (year month day : Z) : Z :=
  days_before_year year + days_before_month year month + day.

Fixpoint chars (s : string) : list ascii :=
  match s with
  | EmptyString => []
  | String c rest => c :: chars rest
  end.

Fixpoint of_chars (l : list ascii) : string :=
  match l with
  | [] => EmptyString
  | c :: rest => String c (of_chars rest)
  end.

Definition two_digits (a b : ascii) : option Z :=
  match digit_value a, digit_value b with
  | Some x, Some y => Some (10 * x + y)
  | _, _ => None
  end.

Definition parse_isoformat_seconds (s : string) : option Z :=
  match chars s with
  | [y1; y2; y3; y4; s1; m1; m2; s2; d1; d2; s3; h1; h2; s4; n1; n2; s5;
     c1; c2; p1; p2; p3; p4; p5; p6] =>
      if String.eqb (of_chars [s1; s2; s3; s4; s5])
                    "--T::"
         && String.eqb (of_chars [p1; p2; p3; p4; p5; p6])
                       "+00:00"
      then
        match two_digits y1 y2, two_digits y3 y4, two_digits m1 m2,
              two_digits d1 d2, two_digits h1 h2, two_digits n1 n2,
              two_digits c1 c2 with
        | Some yh, Some yl, Some month, Some day, Some hour, Some minute,
          Some second =>
            let year := 100 * yh + yl in
            if (1 <=? year) && (1 <=? month) && (month <=? 12)
               && (1 <=? day) && (day <=? days_in_month year month)
               && (hour <=? 23) && (minute <=? 59) && (second <=? 59)
            then Some (((ymd2ord year month day - 1) * 86400
                        + (hour * 60 + minute) * 60 + second)
                       * US_PER_SECOND)
            else None
        | _, _, _, _, _, _, _ => None
        end
      else None
  | _ => None
  end.

(* ===================================================================== *)
(** * Profiles and events *)
(* ===================================================================== *)

Record UserProfile : Type := mkUserProfile {
  username : string;
  home_country : string;
  usual_hours : Z * Z;          (* inclusive start hour, inclusive end hour *)
  success_rate : float;
  known_ip_blocks : list string (* CIDR blocks *)
}.

Definition build_user_profiles : list UserProfile :=
  [ mkUserProfile "alice" "US" (8, 17) 0.97%float
      ["10.10.10.0/24"; "192.168.10.0/24"];
    mkUserProfile "bob" "US" (7, 16) 0.96%float
      ["10.10.20.0/24"; "192.168.20.0/24"];
    mkUserProfile "carol" "CA" (9, 18) 0.98%float
      ["10.10.30.0/24"; "192.168.30.0/24"];
    mkUserProfile "dave" "GB" (6, 15) 0.95%float
      ["10.10.40.0/24"; "192.168.40.0/24"];
    mkUserProfile "svc_backup" "US" (0, 23) 0.995%float
      ["10.99.0.0/24"] ].

(** One log row, a [Dict[str, str]]. *)
Abbreviation event := (gmap string string).

(** The dict literal with the eight keys both generators write. *)
Definition new_event
    (timestamp_utc user event_source auth_type source_ip country
     result_ failure_reason : string) : event :=
  <["failure_reason" := failure_reason]>
  (<["result" := result_]>
  (<["country" := country]>
  (<["source_ip" := source_ip]>
  (<["auth_type" := auth_type]>
  (<["event_source" := event_source]>
  (<["username" := user]>
  (<["timestamp_utc" := timestamp_utc]> ∅))))))).

(** [a["is_injected_anomaly"] = value] *)
Definition tag (value : string) (e : event) : event :=
  <["is_injected_anomaly" := value]> e.

(** [row[key]] as the CSV writer reads it: [row.get(key, "")]. *)
Definition field (key : string) (e : event) : string :=
  default "" (e !! key).

Definition auth_types : list (string * float) :=
  [("password", 0.75%float); ("ssh_key", 0.18%float); ("mfa_push", 0.07%float)].
Definition event_sources : list (string * float) :=
  [("linux-sshd", 0.45%float); ("windows-ad", 0.35%float);
   ("vpn-gateway", 0.20%float)].
Definition user_agents : list (string * float) :=
  [("OpenSSH_8.9", 0.35%float); ("Windows10", 0.30%float);
   ("macOS", 0.15%float); ("curl/7.81", 0.05%float); ("unknown", 0.15%float)].

Definition other_countries : list string :=
  ["US"; "CA"; "GB"; "DE"; "FR"; "AU"; "JP"].
Definition failure_reasons : list string :=
  ["bad_password"; "mfa_denied"; "user_not_found"; "expired_password"].
Definition brute_usernames : list string :=
  ["alice"; "bob"; "dave"; "unknown_user"].
Definition brute_countries : list string := ["DE"; "FR"; "RU"; "CN"].

(* ===================================================================== *)
(** * The generators *)
(* ===================================================================== *)

Section Generator.
Context {G : Type} `{RandomSource G}.
Variable float_sum : list float -> float.

(** A [for x in xs:] loop that carries the state [s]. *)
Fixpoint for_each {A S} (xs : list A) (body : A -> S -> M G S) (s : S)
  : M G S :=
  match xs with
  | [] => ret s
  | x :: rest => let* s' := body x s in for_each rest body s'
  end.

(** [range(n)] *)
Definition range (n : Z) : list Z := map Z.of_nat (seq 0 (Z.to_nat n)).

Definition random_timestamp (start end_ : Z) (prefer_hours : option (Z * Z))
  : M G Z :=
  let total_seconds := int_total_seconds start end_ in
  let* offset := randint 0 total_seconds in
  let* span := lift (timedelta 0 0 0 offset) in
  let* base := lift (datetime_add start span) in
  match prefer_hours with
  | None => ret base
  | Some (h_start, h_end) =>
      (* 80% of the time, force hour into the preferred window *)
      let* u := random in
      if PrimFloat.ltb u 0.8%float then
        let* hour := randint h_start h_end in
        let* minute := randint 0 59 in
        let* second := randint 0 59 in
        lift (datetime_replace base hour minute second)
      else ret base
  end.

(** [u.home_country if rng.random() < 0.92 else rng.choice([...])] *)
Definition sample_country (u : UserProfile) : M G string :=
  let* c := random in
  if PrimFloat.ltb c 0.92%float then ret (home_country u)
  else choice other_countries.

(** The body of the loop of [generate_normal_events]. *)
Definition normal_event (users : list UserProfile) (start end_ : Z)
  : M G event :=
  let* u := choice users in
  let* ts := random_timestamp start end_
               (if negb (String.eqb (username u) "svc_backup")
                then Some (usual_hours u) else None) in
  let* src := weighted_choice float_sum event_sources in
  let* auth := weighted_choice float_sum auth_types in
  let* ua := weighted_choice float_sum user_agents in
  let* block := choice (known_ip_blocks u) in
  let* source_ip := random_ip_from_cidr block in
  let* country := sample_country u in
  let* s := random in
  let success := PrimFloat.ltb s (success_rate u) in
  let result_ := if success then "SUCCESS" else "FAILURE" in
  let* failure_reason := (if success then ret ""
                          else choice failure_reasons) in
  ret (new_event (isoformat_seconds ts) (username u) src auth source_ip
                 country result_ failure_reason).

Definition generate_normal_events (users : list UserProfile)
    (start end_ : Z) (n : Z) : M G (list event) :=
  for_each (range n)
    (fun _ results =>
       let* e := normal_event users start end_ in
       ret (results ++ [e]))
    [].

(** Scenario 1, the body of [for user in ["alice", "bob"]]. *)
Definition impossible_travel (start : Z) (user : string)
    (anomalies : list event) : M G (list event) :=
  let* h := randint 10 40 in
  let* dh := lift (timedelta 0 h 0 0) in
  let* t1 := lift (datetime_add start dh) in
  let* m := randint 5 35 in
  let* dm := lift (timedelta 0 0 m 0) in
  let* t2 := lift (datetime_add t1 dm) in
  let* ip1 := random_ip_from_cidr "203.0.113.0/24" in
  let anomalies :=
    anomalies ++ [new_event (isoformat_seconds t1) user "vpn-gateway"
                    "password" ip1 "US" "SUCCESS" ""] in
  let* ip2 := random_ip_from_cidr "198.51.100.0/24" in
  ret (anomalies ++ [new_event (isoformat_seconds t2) user "vpn-gateway"
                       "password" ip2 "JP" "SUCCESS" ""]).

(** Scenario 2, the body of [for i in range(12)]. *)
Definition brute_force_failure (victim : string) (base : Z)
    (brute_ip : string) (i : Z) (anomalies : list event)
  : M G (list event) :=
  let* di := lift (timedelta 0 0 i 0) in
  let* t := lift (datetime_add base di) in
  let* u := random in
  let* user := (if PrimFloat.ltb u 0.7%float then ret victim
                else choice brute_usernames) in
  let* country := choice brute_countries in
  ret (anomalies ++ [new_event (isoformat_seconds t) user "linux-sshd"
                       "password" brute_ip country "FAILURE"
                       "bad_password"]).

(** Scenario 2: brute force, then success. *)
Definition brute_force (start : Z) (anomalies : list event)
  : M G (list event) :=
  let victim := "carol" in
  let* h := randint 60 90 in
  let* dh := lift (timedelta 0 h 0 0) in
  let* base := lift (datetime_add start dh) in
  let* brute_ip := random_ip_from_cidr "45.33.0.0/16" in
  let* anomalies :=
    for_each (range 12) (brute_force_failure victim base brute_ip)
             anomalies in
  let* d13 := lift (timedelta 0 0 13 0) in
  let* t := lift (datetime_add base d13) in
  let* country := choice brute_countries in
  ret (anomalies ++ [new_event (isoformat_seconds t) victim "linux-sshd"
                       "password" brute_ip country "SUCCESS" ""]).

(** Scenario 3: off-hours admin-ish behavior. *)
Definition off_hours (start : Z) (anomalies : list event)
  : M G (list event) :=
  let* m := randint 0 59 in
  let* d := lift (timedelta 2 3 m 0) in
  let* t := lift (datetime_add start d) in
  let* ip := random_ip_from_cidr "198.18.0.0/15" in
  ret (anomalies ++ [new_event (isoformat_seconds t) "dave" "windows-ad"
                       "mfa_push" ip "AU" "SUCCESS" ""]).

(** Scenario 4: service account from a new IP block. *)
Definition service_account (start : Z) (anomalies : list event)
  : M G (list event) :=
  let* m := randint 0 59 in
  let* d := lift (timedelta 1 12 m 0) in
  let* t := lift (datetime_add start d) in
  let* ip := random_ip_from_cidr "172.31.0.0/16" in
  ret (anomalies ++ [new_event (isoformat_seconds t) "svc_backup"
                       "linux-sshd" "ssh_key" ip "US" "SUCCESS" ""]).

(** The four scenarios in order: the list [anomalies] before tagging. *)
Definition build_anomalies (start : Z) : M G (list event) :=
  let* anomalies := for_each ["alice"; "bob"] (impossible_travel start) [] in
  let* anomalies := brute_force start anomalies in
  let* anomalies := off_hours start anomalies in
  service_account start anomalies.

Definition inject_anomalies (events : list event) (start end_ : Z)
  : M G (list event) :=
  let* anomalies := build_anomalies start in
  let anomalies := map (tag "true") anomalies in
  let events := map (tag "false") events in
  let combined := events ++ anomalies in
  shuffle combined.

End Generator.

(* ===================================================================== *)
(** * Serialization and the entry point *)
(* ===================================================================== *)

Definition fieldnames : list string :=
  ["timestamp_utc"; "username"; "event_source"; "auth_type"; "source_ip";
   "country"; "result"; "failure_reason"; "is_injected_anomaly"].

(** What [write_csv] hands to the CSV writer: the header, then, for each
    row, the value of every field name, [""] for a missing key. *)
Definition write_csv (rows : list event) : list (list string) :=
  fieldnames :: map (fun r => map (fun k => field k r) fieldnames) rows.

Record Args : Type := mkArgs {
  rows : Z;
  days : Z;
  seed : Z;
  out : string
}.

(** What [main] reaches outside the program: the clock, the file system
    and the standard output.  A world [W] answers each call and moves
    on; two readings of the clock need not agree, and a write or a
    print can be refused with an exception. *)
Class World (W : Type) : Type := {
  (** [datetime.now(timezone.utc)]: the reading, and the world after it *)
  world_now : W -> Z * W;
  (** The effects of [write_csv(path, rows)]: [mkdir] of the parent,
      [open] of the path and the writes of the table. *)
  world_write : string -> list (list string) -> W -> result (unit * W);
  (** [print(line)] *)
  world_print : string -> W -> result (unit * W);
  (** [Path(s).as_posix()], which depends on the platform's path flavour *)
  world_posix : string -> string
}.

(** What a run that returns has done: the path it reports, the table it
    wrote and the row count it reports. *)
Record Output : Type := mkOutput {
  out_path : string;
  out_table : list (list string);
  out_count : Z
}.

Section Main.
Context {G : Type} `{RandomSource G}.
Variable float_sum : list float -> float.

(** The generation of [main] from the seeded source on: the combined
    dataset, given the instant [now] read from the clock. *)
Definition pipeline (n days_ : Z) (now : Z) : M G (list event) :=
  let end_ := now in
  let* span := lift (timedelta days_ 0 0 0) in
  let* start := lift (datetime_sub end_ span) in
  let users := build_user_profiles in
  let* normal := generate_normal_events float_sum users start end_ n in
  inject_anomalies normal start end_.

(** [rng = random.Random(args.seed)] and the generation that follows,
    for the reading [now] of the clock: the list [combined]. *)
Definition dataset (args : Args) (now : Z) : result (list event) :=
  match pipeline (rows args) (days args) now (rng_seed (seed args)) with
  | Ok (combined, _) => Ok combined
  | Raise e => Raise e
  end.

Context {W : Type} `{World W}.

(** [main]: one reading of the clock, the generation, the write of the
    table under [args.out] and the two closing prints.  (Text is held
    as its UTF-8 bytes.) *)
Definition main (args : Args) : M W Output :=
  let* now := (fun w => Ok (world_now w)) in
  let* combined := lift (dataset args now) in
  let table := write_csv combined in
  let* _ := world_write (out args) table in
  let count := Z.of_nat (length combined) in
  let path := world_posix (out args) in
  let* _ := world_print ("✅ Wrote " +:+ str_int count +:+ " rows to: "
                         +:+ path) in
  let* _ := world_print
              "   (Includes injected anomalies tagged with is_injected_anomaly=true)" in
  ret (mkOutput path table count).
End Main.

(* ===================================================================== *)
(** * A scripted random source

    A concrete source for running the model: it replays a script of
    integers and, once the script is used up, continues with a linear
    congruential sequence from the seed.  A cell [c] gives
    [_randbelow(n) = c mod n] and [random() = (c mod 1000) / 1000]. *)
(* ===================================================================== *)

Record Scripted : Type := mkScripted {
  script : list Z;
  lcg_state : Z
}.

Definition lcg_next (s : Z) : Z := (s * 6364136223846793005 + 1442695040888963407) mod 2 ^ 63.

Definition scripted_next (g : Scripted) : Z * Scripted :=
  match script g with
  | c :: rest => (c, mkScripted rest (lcg_state g))
  | [] => let s := lcg_next (lcg_state g) in (s / 2 ^ 16, mkScripted [] s)
  end.

Definition unit_float (c : Z) : float :=
  let u := PrimFloat.div (PrimFloat.of_uint63 (Uint63.of_Z (c mod 1000)))
                         1000%float in
  if in_unit_interval u then u else 0%float.

Definition scripted_random (g : Scripted) : float * Scripted :=
  let (c, g') := scripted_next g in (unit_float c, g').

Definition scripted_randbelow (n : Z) (g : Scripted) : Z * Scripted :=
  let (c, g') := scripted_next g in (c mod n, g').

#[export] Instance scripted_source : RandomSource Scripted.
Proof.
  refine {| rng_seed s := mkScripted [] s;
            rng_random := scripted_random;
            rng_randbelow := scripted_randbelow |}.
  - intros g. unfold scripted_random.
    destruct (scripted_next g) as [c g']. simpl. unfold unit_float.
    destruct (in_unit_interval (PrimFloat.div _ _)) eqn:E;
      [exact E | reflexivity].
  - intros n g Hn. unfold scripted_randbelow.
    destruct (scripted_next g) as [c g']. simpl.
    apply Z.mod_pos_bound, Hn.
Defined.

(** A source that first replays [cells]. *)
Definition replay (cells : list Z) : Scripted := mkScripted cells 0.

(* ===================================================================== *)
(** * A host to run [main] on

    A concrete world: a clock that moves by a fixed step with every
    reading, a file system that refuses the listed paths and keeps the
    tables written under the others, a standard output that takes every
    line, and paths that are already in POSIX form. *)
(* ===================================================================== *)

Record Host : Type := mkHost {
  host_clock : Z;
  host_step : Z;
  host_refused : list string;
  host_files : list (string * list (list string))
}.

Definition host_now (h : Host) : Z * Host :=
  (host_clock h,
   mkHost (host_clock h + host_step h) (host_step h) (host_refused h)
          (host_files h)).

Definition host_write (path : string) (table : list (list string))
    (h : Host) : result (unit * Host) :=
  if bool_decide (path ∈ host_refused h) then Raise OSError
  else Ok (tt, mkHost (host_clock h) (host_step h) (host_refused h)
                      ((path, table) :: host_files h)).

#[export] Instance host_world : World Host := {|
  world_now := host_now;
  world_write := host_write;
  world_print := fun _ h => Ok (tt, h);
  world_posix := fun s => s
|}.

(* ===================================================================== *)
(** * The vocabulary of the specification

    The predicates and functions the theorems below are stated with. *)
(* ===================================================================== *)

(** Run from the state [g], [m] returns a value and a state that satisfy
    [Q], or it raises and [R] holds. *)
Definition post {G A} (R : Prop) (m : M G A) (Q : A -> G -> Prop) (g : G)
  : Prop :=
  match m g with
  | Ok (a, g') => Q a g'
  | Raise _ => R
  end.

(** The draw that [choice seq] makes from the state [g]. *)
Definition choice_at {G} `{RandomSource G} {A} (seq : list A) (g : G)
  : option A :=
  seq !! Z.to_nat (fst (rng_randbelow (Z.of_nat (length seq)) g)).

(** The cumulative weight after item [i], counted from [upto]. *)
Definition cumulative_from (upto : float) (items : list (string * float))
    (i : nat) : float :=
  fold_left PrimFloat.add (map snd (take (S i) items)) upto.

(** The cumulative weight reached after item [i] of the walk. *)
Definition cumulative (items : list (string * float)) (i : nat) : float :=
  cumulative_from 0%float items i.

(** The sampling range of [cidr] when it names an IPv4 block. *)
Definition v4_block (cidr : string) : option (Z * Z) :=
  match ip_network cidr with
  | Ok net =>
      if is_v4 net && (0 <=? network_address net)
         && (network_address net <=? broadcast_address net)
         && (broadcast_address net <=? all_ones V4)
      then Some (sampling_range net) else None
  | Raise _ => None
  end.

(** [ip] is the text of an address in the sampling range of [cidr]. *)
Definition in_block (cidr ip : string) : Prop :=
  exists lo hi a, v4_block cidr = Some (lo, hi) /\ lo <= a <= hi
                  /\ ip = ipv4_text a.

Definition hours (h : Z) : Z := h * 3600 * US_PER_SECOND.
Definition minutes (m : Z) : Z := m * 60 * US_PER_SECOND.
Definition seconds (s : Z) : Z := s * US_PER_SECOND.

(** The span of a [timedelta] call, in microseconds. *)
Definition span (d h m s : Z) : Z :=
  d * US_PER_DAY + hours h + minutes m + seconds s.

(** Room for every injected row: [start] is a valid instant and the four
    days after it are valid too (the latest injected row is 90 hours and
    13 minutes after [start]). *)
Definition anomalies_fit (start : Z) : Prop :=
  0 <= start /\ start + 4 * US_PER_DAY < MAX_ORDINAL * US_PER_DAY.

Definition travel_rows (start : Z) (user : string) (h m : Z)
    (ip1 ip2 : string) : list event :=
  [ new_event (isoformat_seconds (start + hours h)) user "vpn-gateway"
      "password" ip1 "US" "SUCCESS" "";
    new_event (isoformat_seconds (start + hours h + minutes m)) user
      "vpn-gateway" "password" ip2 "JP" "SUCCESS" "" ].

Definition brute_failure_row (base : Z) (brute_ip : string) (i : Z)
    (f : string * string) : event :=
  new_event (isoformat_seconds (base + minutes i)) (fst f) "linux-sshd"
    "password" brute_ip (snd f) "FAILURE" "bad_password".

Definition brute_success_row (base : Z) (brute_ip country : string) : event :=
  new_event (isoformat_seconds (base + minutes 13)) "carol" "linux-sshd"
    "password" brute_ip country "SUCCESS" "".

Definition off_hours_row (start m : Z) (ip : string) : event :=
  new_event (isoformat_seconds (start + span 2 3 m 0)) "dave" "windows-ad"
    "mfa_push" ip "AU" "SUCCESS" "".

Definition service_account_row (start m : Z) (ip : string) : event :=
  new_event (isoformat_seconds (start + span 1 12 m 0)) "svc_backup"
    "linux-sshd" "ssh_key" ip "US" "SUCCESS" "".

Section RowSpecs.
Context {G : Type} `{RandomSource G}.

(** The username of a brute-force failure, as the draws from the state
    [g] decide it: the victim when [random() < 0.7], else the choice
    among the four other names. *)
Definition brute_username_at (g : G) : option string :=
  if PrimFloat.ltb (fst (rng_random g)) 0.7%float then Some "carol"
  else choice_at brute_usernames (snd (rng_random g)).

(** The country of a normal row of user [u], as the draws from [g]
    decide it: home when [random() < 0.92], else the choice among the
    seven listed codes. *)
Definition country_at (u : UserProfile) (g : G) : option string :=
  if PrimFloat.ltb (fst (rng_random g)) 0.92%float
  then Some (home_country u)
  else choice_at other_countries (snd (rng_random g)).

Definition travel_spec (start : Z) (user : string) (rows : list event)
  : Prop :=
  exists h m ip1 ip2,
    10 <= h <= 40 /\ 5 <= m <= 35
    /\ in_block "203.0.113.0/24" ip1 /\ in_block "198.51.100.0/24" ip2
    /\ rows = travel_rows start user h m ip1 ip2.

(** A brute-force failure [(username, country)] as drawn. *)
Definition brute_failure_drawn (f : string * string) : Prop :=
  (exists g, brute_username_at g = Some (fst f))
  /\ (exists g, choice_at brute_countries g = Some (snd f)).

Definition brute_spec (start : Z) (rows : list event) : Prop :=
  exists h brute_ip fails country,
    60 <= h <= 90
    /\ in_block "45.33.0.0/16" brute_ip
    /\ length fails = 12%nat
    /\ Forall brute_failure_drawn fails
    /\ (exists g, choice_at brute_countries g = Some country)
    /\ rows = zip_with (brute_failure_row (start + hours h) brute_ip)
                       (range 12) fails
              ++ [brute_success_row (start + hours h) brute_ip country].

Definition off_hours_spec (start : Z) (e : event) : Prop :=
  exists m ip, 0 <= m <= 59 /\ in_block "198.18.0.0/15" ip
               /\ e = off_hours_row start m ip.

Definition service_account_spec (start : Z) (e : event) : Prop :=
  exists m ip, 0 <= m <= 59 /\ in_block "172.31.0.0/16" ip
               /\ e = service_account_row start m ip.

(** The list [anomalies] of [inject_anomalies], before tagging. *)
Definition anomalies_spec (start : Z) (anomalies : list event) : Prop :=
  exists alice_rows bob_rows brute_rows off svc,
    travel_spec start "alice" alice_rows
    /\ travel_spec start "bob" bob_rows
    /\ brute_spec start brute_rows
    /\ off_hours_spec start off
    /\ service_account_spec start svc
    /\ anomalies = alice_rows ++ bob_rows ++ brute_rows ++ [off; svc].
End RowSpecs.

(** The built-in profiles are well formed: hours in order within a day,
    at least one block, every block an IPv4 block. *)
Definition profile_check (u : UserProfile) : bool :=
  (0 <=? fst (usual_hours u)) && (fst (usual_hours u) <=? snd (usual_hours u))
  && (snd (usual_hours u) <=? 23)
  && negb (Nat.eqb (length (known_ip_blocks u)) 0)
  && forallb (fun b => bool_decide (is_Some (v4_block b))) (known_ip_blocks u).

Section NormalRows.
Context {G : Type} `{RandomSource G}.
Variable float_sum : list float -> float.

(** The instant [ts] of a normal row of user [u]: a base instant inside
    the window, a whole number of seconds after [start], either kept or
    moved, on its own date, to a drawn time of day within the hours of
    [u]. *)
Definition timestamp_spec (start end_ : Z) (u : UserProfile) (ts : Z)
  : Prop :=
  exists base,
    start <= base <= end_
    /\ (base - start) mod US_PER_SECOND = 0
    /\ ((ts = base
         /\ (username u = "svc_backup"
             \/ exists g : G,
                  PrimFloat.ltb (fst (rng_random g)) 0.8%float = false))
        \/ (username u <> "svc_backup"
            /\ (exists g : G,
                  PrimFloat.ltb (fst (rng_random g)) 0.8%float = true)
            /\ exists hour minute second,
                 fst (usual_hours u) <= hour <= snd (usual_hours u)
                 /\ 0 <= minute <= 59 /\ 0 <= second <= 59
                 /\ ts = base - base mod US_PER_DAY
                         + ((hour * 60 + minute) * 60 + second)
                           * US_PER_SECOND
                         + base mod US_PER_SECOND)).

(** The result and failure reason of a normal row of [u], as the draw
    from a state decides them. *)
Definition outcome_spec (u : UserProfile) (result_ reason : string) : Prop :=
  exists g : G,
    if PrimFloat.ltb (fst (rng_random g)) (success_rate u)
    then result_ = "SUCCESS" /\ reason = ""
    else result_ = "FAILURE" /\ reason ∈ failure_reasons.

Definition normal_row_spec (start end_ : Z) (e : event) : Prop :=
  exists u ts src auth ip country result_ reason,
    u ∈ build_user_profiles
    /\ timestamp_spec start end_ u ts
    /\ src ∈ map fst event_sources
    /\ auth ∈ map fst auth_types
    /\ (exists block, block ∈ known_ip_blocks u /\ in_block block ip)
    /\ (exists g : G, country_at u g = Some country)
    /\ outcome_spec u result_ reason
    /\ e = new_event (isoformat_seconds ts) (username u) src auth ip
                     country result_ reason.

(** The window [start, end_] holds valid instants in order. *)
Definition window_fits (start end_ : Z) : Prop :=
  0 <= start /\ start <= end_ /\ end_ < MAX_ORDINAL * US_PER_DAY.

(** The window is in order, or so much out of order that the first
    [randint] of [random_timestamp] raises. *)
Definition window_decided (start end_ : Z) : Prop :=
  start <= end_ \/ end_ - start <= - US_PER_SECOND.
End NormalRows.

(** The run has room: a window of [days_ >= 0] days ending at [now]
    starts at a valid instant, and the four days after [now] are valid. *)
Definition run_fits (days_ now : Z) : Prop :=
  0 <= days_ /\ 0 <= now - days_ * US_PER_DAY
  /\ now + 4 * US_PER_DAY < MAX_ORDINAL * US_PER_DAY.

(** The number of rows of [out] whose anomaly flag is [value]. *)
Definition flagged (value : string) (out : list event) : Z :=
  Z.of_nat (length (filter (fun e => e !! "is_injected_anomaly" = Some value)
                           out)).

(** A row built by either generator: the eight fields, with a result and
    a failure reason that agree. *)
Definition row_shape (e : event) : Prop :=
  exists ts user src auth ip country result_ reason,
    e = new_event ts user src auth ip country result_ reason
    /\ ((result_ = "SUCCESS" /\ reason = "")
        \/ (result_ = "FAILURE" /\ reason ∈ failure_reasons)).

Section Combined.
Context {G : Type} `{RandomSource G}.

(** The dataset [combined] of a run over the window from [start] to
    [end_] with [n] normal rows: the tagged normal rows and the tagged
    injected rows, in some order. *)
Definition combined_spec (n start end_ : Z) (combined : list event) : Prop :=
  exists normal anomalies,
    length normal = Z.to_nat n
    /\ Forall (normal_row_spec (G := G) start end_) normal
    /\ anomalies_spec (G := G) start anomalies
    /\ combined ≡ₚ map (tag "false") normal ++ map (tag "true") anomalies.
End Combined.

(** The row carries a result and a failure reason, and the reason is
    non-empty exactly on a ["FAILURE"], empty exactly on a ["SUCCESS"]. *)
Definition reason_matches_result (e : event) : Prop :=
  exists result_ reason,
    e !! "result" = Some result_
    /\ e !! "failure_reason" = Some reason
    /\ (reason <> "" <-> result_ = "FAILURE")
    /\ (reason = "" <-> result_ = "SUCCESS").

(** The ["SUCCESS"] rows of [user] in a list of rows, in order. *)
Definition successes_of (user : string) (rows_ : list event) : list event :=
  filter (fun e => e !! "username" = Some user
                   /\ e !! "result" = Some "SUCCESS") rows_.

(** Day [n] of a year falls in a month of the year, on a day of that
    month, after the days that precede the month. *)
Definition month_day_check (leap : bool) (n : Z) : bool :=
  let '(month, day) := month_day leap n in
  (1 <=? month) && (month <=? 12) && (1 <=? day)
  && (day <=? month_length leap month)
  && (month_offset leap month + day =? n + 1).

(** The text of the calendar fields, as [isoformat_seconds] lays it out. *)
Definition render_fields (year month day hour minute second : Z) : string :=
  zero_padded 4 year +:+ "-" +:+ zero_padded 2 month +:+ "-"
  +:+ zero_padded 2 day +:+ "T" +:+ zero_padded 2 hour +:+ ":"
  +:+ zero_padded 2 minute +:+ ":" +:+ zero_padded 2 second +:+ "+00:00".

(** The instant [t] cut to whole seconds. *)
Definition whole_second (t : Z) : Z := t - t mod US_PER_SECOND.

(** The countries of the rows of a list, in order. *)
Definition countries (rows_ : list event) : list string :=
  map (field "country") rows_.

(** 2024-01-15T10:30:45.123456 UTC, a clock reading. *)
Definition sample_now : Z := 63840911445123456.

(** The start of the seven-day window that ends at [sample_now]. *)
Definition sample_start : Z := sample_now - 7 * US_PER_DAY.

(** The computation returned rather than raised. *)
Definition returns {A} (r : result A) : bool :=
  match r with
  | Ok _ => true
  | Raise _ => false
  end.

(** The instant of a row: its timestamp is the text of [t], and reads
    back as [t] cut to whole seconds. *)
Definition stamped (e : event) (t : Z) : Prop :=
  e !! "timestamp_utc" = Some (isoformat_seconds t)
  /\ parse_isoformat_seconds (isoformat_seconds t) = Some (whole_second t).

(** The keys of the row are exactly the nine field names. *)
Definition has_fieldnames (e : event) : Prop :=
  forall k, is_Some (e !! k) <-> k ∈ fieldnames.

(** [name] is the username of one of the built-in profiles. *)
Definition profiled (name : string) : Prop :=
  exists u, u ∈ build_user_profiles /\ username u = name.

(** [ip] is the text of an address in a known block of some profile. *)
Definition known_address (ip : string) : Prop :=
  exists u block,
    u ∈ build_user_profiles /\ block ∈ known_ip_blocks u /\ in_block block ip.

(** The octet check behind the text of an address: the decimal text of
    [o] holds no dot and reads back as the octet [o]. *)
Definition octet_check (o : Z) : bool :=
  negb (contains_char "." (str_int o))
  && bool_decide (parse_octet (str_int o) = Some o).

(** The lines of a table whose anomaly cell, the ninth, is [value]. *)
Definition flagged_lines (value : string) (table : list (list string)) : Z :=
  Z.of_nat (length (filter (fun line => line !! 8%nat = Some value) table)).

(** The masks of a prefix length [p] of an IPv4 network: the host mask
    is the low [32 - p] bits, the net mask the bits above them. *)
Definition mask_check (p : Z) : bool :=
  (Z.shiftr (all_ones V4) p =? Z.ones (32 - p))
  && (Z.lxor (all_ones V4) (Z.ones (32 - p))
      =? Z.land (Z.ones 32) (Z.lnot (Z.ones (32 - p)))).

(** The five blocks the injected rows draw their addresses from. *)
Definition injected_blocks : list string :=
  ["203.0.113.0/24"; "198.51.100.0/24"; "45.33.0.0/16"; "198.18.0.0/15";
   "172.31.0.0/16"].

(** Two IPv4 blocks whose sampling ranges lie within 32 bits and do not
    meet. *)
Definition blocks_apart (b1 b2 : string) : bool :=
  match v4_block b1, v4_block b2 with
  | Some (lo1, hi1), Some (lo2, hi2) =>
      (0 <=? lo1) && (hi1 <=? all_ones V4)
      && (0 <=? lo2) && (hi2 <=? all_ones V4)
      && ((hi1 <? lo2) || (hi2 <? lo1))
  | _, _ => false
  end.

(** Every injected block is apart from every known block of a profile. *)
Definition injected_apart : bool :=
  forallb (fun b =>
             forallb (fun u => forallb (blocks_apart b) (known_ip_blocks u))
                     build_user_profiles)
          injected_blocks.

(** A normal row and an injected row, as a dataset holds them. *)
Definition sample_rows : list event :=
  [ tag "false" (new_event "2024-01-10T09:00:00+00:00" "alice" "linux-sshd"
                   "password" "10.10.10.5" "US" "SUCCESS" "");
    tag "true" (new_event "2024-01-10T03:12:00+00:00" "dave" "windows-ad"
                  "mfa_push" "198.18.0.9" "AU" "SUCCESS" "") ].

(** The arguments of a run of two normal rows over seven days. *)
Definition sample_args : Args :=
  mkArgs 2 7 1337 "out/sample_auth_logs.csv".

(** The six fields of a row beside its timestamp and its address, each
    read from the row. *)
Definition reads (e : event) (user src auth country result_ reason : string)
  : Prop :=
  e !! "username" = Some user
  /\ e !! "event_source" = Some src
  /\ e !! "auth_type" = Some auth
  /\ e !! "country" = Some country
  /\ e !! "result" = Some result_
  /\ e !! "failure_reason" = Some reason.

(** The address of a row: the text read from the row parses as the IPv4
    address [a], and [a] lies in the sampling range of [cidr]. *)
Definition addressed (e : event) (cidr : string) (a : Z) : Prop :=
  exists lo hi ip,
    v4_block cidr = Some (lo, hi) /\ lo <= a <= hi
    /\ e !! "source_ip" = Some ip /\ ipv4_of_string ip = Some a.

(** The instant that the timestamp read from the row parses to. *)
Definition parsed_instant (e : event) : option Z :=
  parse_isoformat_seconds (field "timestamp_utc" e).

Section BruteDraws.
Context {G : Type} `{RandomSource G}.

(** The state of the source once the username of a brute-force failure
    is settled from the state [g]: after [random()], and after the
    choice among the four other names when that draw is not below 0.7. *)
Definition after_username (g : G) : G :=
  if PrimFloat.ltb (fst (rng_random g)) 0.7%float then snd (rng_random g)
  else snd (rng_randbelow (Z.of_nat (length brute_usernames))
              (snd (rng_random g))).

(** The state after the whole failure: the choice of its country
    follows the username. *)
Definition after_failure (g : G) : G :=
  snd (rng_randbelow (Z.of_nat (length brute_countries)) (after_username g)).

(** Brute-force failure number [i], read from the row [e]: stamped
    [base + i] minutes, from the address [a], with the username and the
    country that the draws from the state [g] decide. *)
Definition failure_reads (e : event) (base a i : Z) (g : G) : Prop :=
  exists user country,
    brute_username_at g = Some user
    /\ choice_at brute_countries (after_username g) = Some country
    /\ country ∈ brute_countries
    /\ stamped e (base + minutes i)
    /\ addressed e "45.33.0.0/16" a
    /\ reads e user "linux-sshd" "password" country "FAILURE" "bad_password".
End BruteDraws.

(** Two hosts that read the same instant from the clock first and
    differ in everything else. *)
Definition sample_host : Host := mkHost sample_now 1 [] [].
Definition other_host : Host :=
  mkHost sample_now 86400000000 ["locked.csv"] [("old.csv", [["x"]])].

(** The arguments of [sample_args] with another output path, and with a
    path that [other_host] refuses. *)
Definition other_args : Args := mkArgs 2 7 1337 "elsewhere.csv".
Definition locked_args : Args := mkArgs 2 7 1337 "locked.csv".

(* ===================================================================== *)
(** * Reasoning about computations

    [post R m Q g]: run from the source state [g], the computation [m]
    returns a value and a state that satisfy [Q], or it raises and [R]
    holds.  With [R := False] this is total correctness (the computation
    returns), with [R := True] partial correctness. *)
(* ===================================================================== *)

Section Rules.
Context {G : Type} `{RandomSource G}.
Variable R : Prop.

Lemma post_ret {A} (a : A) (Q : A -> G -> Prop) g :
  Q a g -> post R (ret a) Q g.
Proof. intros HQ. exact HQ. Qed.

Lemma post_raise {A} e (Q : A -> G -> Prop) g :
  R -> post R (raise e) Q g.
Proof. intros HR. exact HR. Qed.

Lemma post_bind {A B} (m : M G A) (k : A -> M G B) (Q : B -> G -> Prop) g :
  post R m (fun a g' => post R (k a) Q g') g -> post R (bind m k) Q g.
Proof.
  unfold post, bind. destruct (m g) as [[a g']|e]; auto.
Qed.

Lemma post_mono {A} (m : M G A) (Q Q' : A -> G -> Prop) g :
  (forall a g', Q a g' -> Q' a g') -> post R m Q g -> post R m Q' g.
Proof.
  unfold post. intros HQ. destruct (m g) as [[a g']|e]; auto.
Qed.

Lemma post_lift {A} (r : result A) (Q : A -> G -> Prop) g :
  match r with Ok a => Q a g | Raise _ => R end -> post R (lift r) Q g.
Proof. unfold post, lift. destruct r; auto. Qed.

Lemma post_random (Q : float -> G -> Prop) g :
  Q (fst (rng_random g)) (snd (rng_random g)) -> post R random Q g.
Proof.
  unfold post, random. destruct (rng_random g); auto.
Qed.

Lemma post_randint a b (Q : Z -> G -> Prop) g :
  (b < a -> R) ->
  (forall x g', a <= x <= b -> Q x g') ->
  post R (randint a b) Q g.
Proof.
  intros Hempty HQ. unfold post, randint.
  destruct (0 <? b + 1 - a) eqn:E.
  - apply Z.ltb_lt in E.
    pose proof (rng_randbelow_range (b + 1 - a) g E) as Hk.
    destruct (rng_randbelow (b + 1 - a) g) as [k g']. simpl in Hk.
    apply HQ. lia.
  - apply Z.ltb_ge in E. apply Hempty. lia.
Qed.

Lemma choice_at_in {A} (seq : list A) g :
  seq <> [] -> exists x, choice_at seq g = Some x /\ x ∈ seq.
Proof.
  intros Hne. unfold choice_at.
  assert (0 < Z.of_nat (length seq)) as Hlen.
  { destruct seq; [congruence | simpl; lia]. }
  pose proof (rng_randbelow_range _ g Hlen) as Hk.
  destruct (lookup_lt_is_Some_2 seq
              (Z.to_nat (fst (rng_randbelow (Z.of_nat (length seq)) g))))
    as [x Hx]; [lia |].
  exists x. split; [exact Hx |]. eapply list_elem_of_lookup_2, Hx.
Qed.

Lemma post_choice {A} (seq : list A) (Q : A -> G -> Prop) g :
  (seq = [] -> R) ->
  (forall x, choice_at seq g = Some x -> x ∈ seq ->
             Q x (snd (rng_randbelow (Z.of_nat (length seq)) g))) ->
  post R (choice seq) Q g.
Proof.
  intros Hempty HQ. unfold post, choice.
  destruct seq as [|a seq'] eqn:Eseq; [apply Hempty; reflexivity |].
  rewrite <- Eseq in *.
  destruct (choice_at_in seq g) as (x & Hx & Hin); [subst; discriminate |].
  specialize (HQ x Hx Hin). unfold choice_at in Hx.
  destruct (rng_randbelow (Z.of_nat (length seq)) g) as [k g'].
  simpl in *. rewrite Hx. exact HQ.
Qed.

(** A loop establishes [I] of the whole list when each iteration moves
    [I] from the items already visited to one more. *)
Lemma post_for_each {A S} (body : A -> S -> M G S)
    (I : list A -> S -> Prop) (xs : list A) :
  forall (done : list A) (s : S) g,
    I done s ->
    (forall done' x s' g', x ∈ xs -> I done' s' ->
       post R (body x s') (fun s'' _ => I (done' ++ [x]) s'') g') ->
    post R (for_each xs body s) (fun s' _ => I (done ++ xs) s') g.
Proof.
  induction xs as [|x xs IH]; intros done s g HI Hbody; simpl.
  - apply post_ret. rewrite app_nil_r. exact HI.
  - apply post_bind.
    eapply post_mono; [| apply (Hbody done x s g); [left | exact HI]].
    intros s' g' HI'. simpl.
    replace (done ++ x :: xs) with ((done ++ [x]) ++ xs)
      by (rewrite <- app_assoc; reflexivity).
    apply IH; [assumption |].
    intros done' x' s'' g'' Hin. apply Hbody. right. exact Hin.
Qed.
End Rules.

(* ===================================================================== *)
(** * Weighted choice: the first label whose cumulative weight reaches
      the draw *)
(* ===================================================================== *)

Lemma weighted_walk_spec items : forall r upto,
  match weighted_walk r upto items with
  | Some label =>
      exists i w, items !! i = Some (label, w)
        /\ PrimFloat.leb r (cumulative_from upto items i) = true
        /\ forall j, (j < i)%nat ->
             PrimFloat.leb r (cumulative_from upto items j) = false
  | None =>
      forall j, (j < length items)%nat ->
        PrimFloat.leb r (cumulative_from upto items j) = false
  end.
Proof.
  induction items as [|[item weight] rest IH]; intros r upto; simpl.
  - intros j Hj. inversion Hj.
  - destruct (PrimFloat.leb r (PrimFloat.add upto weight)) eqn:E.
    + exists 0%nat, weight. repeat split; [exact E |].
      intros j Hj. inversion Hj.
    + specialize (IH r (PrimFloat.add upto weight)).
      destruct (weighted_walk r (PrimFloat.add upto weight) rest) as [label|].
      * destruct IH as (i & w & Hi & Hreach & Hbefore).
        exists (S i), w. repeat split; [exact Hi | exact Hreach |].
        intros [|j] Hj; [exact E |]. apply Hbefore. lia.
      * intros [|j] Hj; [exact E |]. apply IH. simpl in Hj. lia.
  Qed.

Lemma last_map_fst {A B} (l : list (A * B)) a b :
  last l = Some (a, b) -> last (map fst l) = Some a.
Proof.
  intros Hl. rewrite last_lookup in Hl. rewrite last_lookup, length_map.
  rewrite list_lookup_fmap, Hl. reflexivity.
Qed.

Section WeightedChoiceSpec.
Context {G : Type} `{RandomSource G}.
Variable float_sum : list float -> float.

(** C4: on a non-empty list, [weighted_choice] returns a label of the
    list and consumes one [random()] draw [u]; with [r = u * total], the
    label is that of the first item, in iteration order, whose
    cumulative weight is [>= r], and the last label when no cumulative
    weight is [>= r]. *)
Theorem weighted_choice_first_reaching (items : list (string * float)) (g : G) :
  items <> [] ->
  let r := PrimFloat.mul (fst (rng_random g)) (float_sum (map snd items)) in
  exists label,
    weighted_choice float_sum items g = Ok (label, snd (rng_random g))
    /\ label ∈ map fst items
    /\ ((exists i w, items !! i = Some (label, w)
           /\ PrimFloat.leb r (cumulative items i) = true
           /\ forall j, (j < i)%nat ->
                PrimFloat.leb r (cumulative items j) = false)
        \/ ((forall j, (j < length items)%nat ->
               PrimFloat.leb r (cumulative items j) = false)
            /\ last (map fst items) = Some label)).
Proof.
  intros Hne r. unfold weighted_choice, bind, random.
  destruct (rng_random g) as [u g'] eqn:Edraw. simpl in r. subst r.
  pose proof (weighted_walk_spec items
                (PrimFloat.mul u (float_sum (map snd items))) 0%float)
    as Hwalk.
  destruct (weighted_walk _ _ items) as [label|].
  - destruct Hwalk as (i & w & Hi & Hreach & Hbefore).
    exists label. split; [reflexivity |]. split.
    + apply list_elem_of_fmap. exists (label, w). split; [reflexivity |].
      eapply list_elem_of_lookup_2, Hi.
    + left. exists i, w. auto.
  - destruct (last items) as [[label w]|] eqn:Elast.
    + exists label. split; [reflexivity |]. split.
      * apply list_elem_of_fmap. exists (label, w). split; [reflexivity |].
        rewrite last_lookup in Elast. eapply list_elem_of_lookup_2, Elast.
      * right. split; [exact Hwalk |]. eapply last_map_fst, Elast.
    + apply last_None in Elast. contradiction.
Qed.
End WeightedChoiceSpec.

(* ===================================================================== *)
(** * Shuffling permutes *)
(* ===================================================================== *)

Lemma insert_head_perm {A} (t : list A) : forall k (xi xj : A),
  t !! k = Some xj -> xj :: <[k := xi]> t ≡ₚ xi :: t.
Proof.
  induction t as [|y t IH]; intros [|k] xi xj Hk; simpl in *;
    try discriminate.
  - injection Hk as ->. apply Permutation_swap.
  - rewrite (Permutation_swap y xj), (IH k xi xj Hk).
    apply Permutation_swap.
Qed.

Lemma swap_ordered_perm {A} (l : list A) : forall i j (xi xj : A),
  (i < j)%nat -> l !! i = Some xi -> l !! j = Some xj ->
  <[j := xi]> (<[i := xj]> l) ≡ₚ l.
Proof.
  induction l as [|y l IH]; intros i j xi xj Hij Hi Hj;
    [discriminate |].
  destruct j as [|j]; [lia |]. destruct i as [|i]; simpl in *.
  - injection Hi as ->. apply insert_head_perm, Hj.
  - f_equiv. apply IH; [lia | assumption | assumption].
Qed.

Lemma swap_perm {A} (i j : nat) (x : list A) : swap i j x ≡ₚ x.
Proof.
  unfold swap.
  destruct (x !! i) as [xi|] eqn:Hi; [| reflexivity].
  destruct (x !! j) as [xj|] eqn:Hj; [| reflexivity].
  destruct (Nat.lt_trichotomy i j) as [Hlt | [-> | Hgt]].
  - apply swap_ordered_perm; assumption.
  - rewrite Hi in Hj. injection Hj as ->.
    rewrite list_insert_insert_eq, list_insert_id; [reflexivity | exact Hi].
  - rewrite list_insert_insert_ne by lia.
    apply swap_ordered_perm; assumption.
Qed.

Section ShuffleSpec.
Context {G : Type} `{RandomSource G}.

Lemma shuffle_from_perm {A} (i : nat) : forall (x : list A) (g : G),
  exists y g', shuffle_from i x g = Ok (y, g') /\ y ≡ₚ x.
Proof.
  induction i as [|i IH]; intros x g; simpl.
  - exists x, g. split; reflexivity.
  - destruct (rng_randbelow _ g) as [j g'].
    destruct (IH (swap (S i) (Z.to_nat j) x) g') as (y & g'' & Hrun & Hperm).
    exists y, g''. split; [exact Hrun |].
    rewrite Hperm. apply swap_perm.
Qed.

Lemma post_shuffle {A} R (x : list A) (Q : list A -> G -> Prop) g :
  (forall y g', y ≡ₚ x -> Q y g') -> post R (shuffle x) Q g.
Proof.
  intros HQ. unfold post, shuffle.
  destruct (shuffle_from_perm (length x - 1) x g) as (y & g' & -> & Hperm).
  apply HQ, Hperm.
Qed.
End ShuffleSpec.

(* ===================================================================== *)
(** * Sampling an address from a block *)
(* ===================================================================== *)

Lemma sampling_range_inhabited net :
  network_address net <= broadcast_address net ->
  fst (sampling_range net) <= snd (sampling_range net).
Proof.
  intros Hle. unfold sampling_range, num_addresses.
  destruct (is_v4 net && _) eqn:E; simpl; [| lia].
  apply andb_true_iff in E as [_ E]. apply Z.ltb_lt in E.
  unfold num_addresses in E. lia.
Qed.

Lemma sampling_range_inside net :
  network_address net <= broadcast_address net ->
  network_address net <= fst (sampling_range net)
  /\ snd (sampling_range net) <= broadcast_address net.
Proof.
  intros Hle. unfold sampling_range, num_addresses.
  destruct (is_v4 net && _); simpl; lia.
Qed.

Section RandomIpSpec.
Context {G : Type} `{RandomSource G}.

Lemma post_random_ip R cidr lo hi (Q : string -> G -> Prop) g :
  v4_block cidr = Some (lo, hi) ->
  (forall a g', lo <= a <= hi -> Q (ipv4_text a) g') ->
  post R (random_ip_from_cidr cidr) Q g.
Proof.
  unfold v4_block. intros Hblock HQ.
  destruct (ip_network cidr) as [net|] eqn:Enet; [| discriminate].
  destruct (is_v4 net && _ && _ && _) eqn:Echecks; [| discriminate].
  injection Hblock as Hrange.
  repeat (apply andb_true_iff in Echecks as [Echecks ?]).
  repeat match goal with
         | E : (_ <=? _) = true |- _ => apply Z.leb_le in E
         end.
  pose proof (sampling_range_inhabited net ltac:(assumption)) as Hne.
  pose proof (sampling_range_inside net ltac:(assumption)) as [Hlo Hhi].
  rewrite Hrange in Hne, Hlo, Hhi. simpl in Hne, Hlo, Hhi.
  unfold random_ip_from_cidr. apply post_bind, post_lift.
  rewrite Enet, Hrange.
  apply post_bind, post_randint; [lia |].
  intros a g' Ha. apply post_bind, post_lift.
  unfold ip_address.
  replace ((0 <=? a) && (a <=? all_ones V4)) with true
    by (symmetry; apply andb_true_iff; split; apply Z.leb_le; lia).
  apply post_ret. simpl. apply HQ, Ha.
Qed.

(** For a block that [ip_network] reads as an IPv4 network within 32
    bits, the address returned lies in the block, and strictly between
    the network and the broadcast address when the block has more than
    two addresses. *)
Lemma random_ip_v4_inside cidr net (g : G) :
  ip_network cidr = Ok net ->
  is_v4 net = true ->
  0 <= network_address net <= broadcast_address net ->
  broadcast_address net <= all_ones V4 ->
  exists a g',
    random_ip_from_cidr cidr g = Ok (ipv4_text a, g')
    /\ network_address net <= a <= broadcast_address net
    /\ (2 < num_addresses net ->
        network_address net < a < broadcast_address net).
Proof.
  intros Hnet Hv4 [H0 Hle] Hmax.
  assert (v4_block cidr = Some (sampling_range net)) as Hblock.
  { unfold v4_block. rewrite Hnet, Hv4.
    replace (0 <=? network_address net) with true
      by (symmetry; apply Z.leb_le; lia).
    replace (network_address net <=? broadcast_address net) with true
      by (symmetry; apply Z.leb_le; lia).
    replace (broadcast_address net <=? all_ones V4) with true
      by (symmetry; apply Z.leb_le; lia).
    reflexivity. }
  destruct (sampling_range net) as [lo hi] eqn:Erange.
  pose proof (post_random_ip False cidr lo hi
                (fun ip _ => exists a, ip = ipv4_text a /\ lo <= a <= hi) g
                Hblock) as Hpost.
  unfold post in Hpost.
  destruct (random_ip_from_cidr cidr g) as [[ip g']|e].
  - destruct Hpost as (a & -> & Ha); [intros a ? Ha; exists a; auto |].
    exists a, g'. split; [reflexivity |].
    pose proof (sampling_range_inside net Hle) as [Hlo Hhi].
    rewrite Erange in Hlo, Hhi. simpl in Hlo, Hhi. split; [lia |].
    intros Hmany. unfold sampling_range in Erange. rewrite Hv4 in Erange.
    apply Z.ltb_lt in Hmany. rewrite Hmany in Erange. simpl in Erange.
    injection Erange as <- <-. lia.
  - exfalso. apply Hpost. intros a ? Ha. exists a. auto.
Qed.
End RandomIpSpec.

(* ===================================================================== *)
(** * Instants: spans, validity, fields *)
(* ===================================================================== *)

Lemma timedelta_ok d h m s :
  - 999999999 * US_PER_DAY <= span d h m s < 1000000000 * US_PER_DAY ->
  timedelta d h m s = Ok (span d h m s).
Proof.
  unfold timedelta, span, hours, minutes, seconds, US_PER_DAY, US_PER_SECOND.
  intros Hspan.
  replace ((((d * 24 + h) * 60 + m) * 60 + s) * 1000000)
    with (d * (86400 * 1000000) + h * 3600 * 1000000 + m * 60 * 1000000
          + s * 1000000) by ring.
  set (us := d * (86400 * 1000000) + h * 3600 * 1000000 + m * 60 * 1000000
             + s * 1000000) in *.
  assert (-999999999 <= us / (86400 * 1000000)) as Hlow
    by (apply Z.div_le_lower_bound; lia).
  assert (us / (86400 * 1000000) < 1000000000) as Hhigh
    by (apply Z.div_lt_upper_bound; lia).
  destruct (_ && _) eqn:E; [reflexivity |].
  apply andb_false_iff in E as [E | E]; apply Z.leb_gt in E; lia.
Qed.

Lemma span_hours h : span 0 h 0 0 = hours h.
Proof. unfold span, hours, minutes, seconds. lia. Qed.

Lemma span_minutes m : span 0 0 m 0 = minutes m.
Proof. unfold span, hours, minutes, seconds. lia. Qed.

Lemma span_seconds s : span 0 0 0 s = seconds s.
Proof. unfold span, hours, minutes, seconds. lia. Qed.

Lemma valid_datetime_iff t :
  valid_datetime t = true <-> 0 <= t < MAX_ORDINAL * US_PER_DAY.
Proof.
  unfold valid_datetime. rewrite andb_true_iff, Z.leb_le, Z.ltb_lt. tauto.
Qed.

(* ===================================================================== *)
(** * What the generators produce *)
(* ===================================================================== *)

Lemma v4_block_travel_us :
  v4_block "203.0.113.0/24" = Some (3405803777, 3405804030).
Proof. vm_compute. reflexivity. Qed.

Lemma v4_block_travel_jp :
  v4_block "198.51.100.0/24" = Some (3325256705, 3325256958).
Proof. vm_compute. reflexivity. Qed.

Lemma v4_block_brute : v4_block "45.33.0.0/16" = Some (757137409, 757202942).
Proof. vm_compute. reflexivity. Qed.

Lemma v4_block_off_hours :
  v4_block "198.18.0.0/15" = Some (3323068417, 3323199486).
Proof. vm_compute. reflexivity. Qed.

Lemma v4_block_service :
  v4_block "172.31.0.0/16" = Some (2887712769, 2887778302).
Proof. vm_compute. reflexivity. Qed.

Lemma in_block_intro cidr lo hi a :
  v4_block cidr = Some (lo, hi) -> lo <= a <= hi ->
  in_block cidr (ipv4_text a).
Proof. intros Hb Ha. exists lo, hi, a. auto. Qed.

(** The steps every scenario repeats. *)
Ltac span_bounds :=
  unfold anomalies_fit, span, hours, minutes, seconds, MAX_ORDINAL,
    US_PER_DAY, US_PER_SECOND in *; lia.

Ltac step_randint x Hx :=
  apply post_bind, post_randint; [intros; lia | intros x ? Hx].

Ltac step_timedelta :=
  apply post_bind, post_lift; rewrite timedelta_ok by span_bounds;
  rewrite ?span_hours, ?span_minutes, ?span_seconds.

Ltac step_datetime_add Hfit :=
  apply post_bind, post_lift; unfold datetime_add at 1;
  match goal with
  | |- context [valid_datetime ?t] =>
      let E := fresh "E" in
      destruct (valid_datetime t) eqn:E;
      [ clear E
      | destruct Hfit as [Hfit | Hfit]; [| exact Hfit];
        exfalso; apply not_true_iff_false in E; apply E;
        apply valid_datetime_iff; span_bounds ]
  end.

Ltac step_random_ip Hblock ip Hip :=
  apply post_bind, (post_random_ip _ _ _ _ _ _ Hblock);
  let a := fresh "a" in
  let Ha := fresh "Ha" in
  intros a ? Ha;
  pose proof (in_block_intro _ _ _ a Hblock Ha) as Hip;
  set (ip := ipv4_text a) in *; clearbody ip; clear a Ha.

Section ScenarioSpecs.
Context {G : Type} `{RandomSource G}.
Variable R : Prop.

Lemma post_impossible_travel start user anomalies g :
  anomalies_fit start \/ R ->
  post R (impossible_travel start user anomalies)
    (fun out _ => exists rows, travel_spec start user rows
                               /\ out = anomalies ++ rows) g.
Proof.
  intros Hfit. unfold impossible_travel.
  step_randint h Hh. step_timedelta. step_datetime_add Hfit.
  step_randint m Hm. step_timedelta. step_datetime_add Hfit.
  step_random_ip v4_block_travel_us ip1 Hip1.
  step_random_ip v4_block_travel_jp ip2 Hip2.
  apply post_ret.
  exists (travel_rows start user h m ip1 ip2). split.
  - exists h, m, ip1, ip2. auto.
  - rewrite <- app_assoc. reflexivity.
Qed.

Lemma post_brute_force_failure base brute_ip i anomalies g :
  0 <= i <= 11 ->
  (0 <= base /\ base + minutes 13 < MAX_ORDINAL * US_PER_DAY) \/ R ->
  post R (brute_force_failure "carol" base brute_ip i anomalies)
    (fun out _ => exists f, brute_failure_drawn (G := G) f
                   /\ out = anomalies ++ [brute_failure_row base brute_ip i f])
    g.
Proof.
  intros Hi Hfit. unfold brute_force_failure.
  step_timedelta. step_datetime_add Hfit.
  apply post_bind, post_random.
  assert (forall user g', brute_username_at g = Some user ->
            post R (let* country := choice brute_countries in
                    ret (anomalies
                         ++ [new_event (isoformat_seconds (base + minutes i))
                               user "linux-sshd" "password" brute_ip country
                               "FAILURE" "bad_password"]))
              (fun out _ => exists f, brute_failure_drawn f
                 /\ out = anomalies ++ [brute_failure_row base brute_ip i f])
              g') as Hrest.
  { intros user g' Huser. apply post_bind, post_choice; [discriminate |].
    intros country Hcountry _. apply post_ret.
    exists (user, country). split; [| reflexivity].
    split; [exists g; exact Huser | exists g'; exact Hcountry]. }
  unfold brute_username_at in Hrest.
  destruct (PrimFloat.ltb (fst (rng_random g)) 0.7%float).
  - apply post_bind, post_ret. apply Hrest. reflexivity.
  - apply post_bind, post_choice; [discriminate |].
    intros user Huser _. apply Hrest. exact Huser.
Qed.

Lemma post_brute_force start anomalies g :
  anomalies_fit start \/ R ->
  post R (brute_force start anomalies)
    (fun out _ => exists rows, brute_spec (G := G) start rows
                               /\ out = anomalies ++ rows) g.
Proof.
  intros Hfit. unfold brute_force.
  step_randint h Hh. step_timedelta. step_datetime_add Hfit.
  step_random_ip v4_block_brute brute_ip Hip.
  set (base := start + hours h).
  assert ((0 <= base /\ base + minutes 13 < MAX_ORDINAL * US_PER_DAY) \/ R)
    as Hbase.
  { destruct Hfit as [Hfit | HR]; [left | right; exact HR].
    subst base. span_bounds. }
  apply post_bind.
  pose (I := fun (done : list Z) (out : list event) =>
               exists fails, length fails = length done
                 /\ Forall (brute_failure_drawn (G := G)) fails
                 /\ out = anomalies
                          ++ zip_with (brute_failure_row base brute_ip)
                                      done fails).
  eapply post_mono;
    [| apply (post_for_each R _ I (range 12) [] anomalies)].
  - intros out gl HI. destruct HI as (fails & Hlen & Hdrawn & ->).
    simpl in Hlen.
    step_timedelta. step_datetime_add Hbase.
    apply post_bind, post_choice; [discriminate |].
    intros country Hcountry _. apply post_ret.
    eexists. split; [| rewrite <- app_assoc; reflexivity].
    exists h, brute_ip, fails, country.
    repeat split; try assumption; try lia. exists gl. exact Hcountry.
  - exists []. repeat split; [constructor |].
    rewrite app_nil_r. reflexivity.
  - intros done x out gi Hx HI. destruct HI as (fails & Hlen & Hdrawn & ->).
    assert (0 <= x <= 11) as Hx'.
    { unfold range in Hx. apply list_elem_of_fmap in Hx as (k & -> & Hk).
      apply elem_of_seq in Hk. simpl in Hk. lia. }
    eapply post_mono;
      [| apply (post_brute_force_failure base brute_ip x _ gi Hx' Hbase)].
    intros out ? (f & Hf & ->). exists (fails ++ [f]).
    rewrite !length_app, Hlen. split; [reflexivity |]. split.
    + apply Forall_app. split; [exact Hdrawn |].
      constructor; [exact Hf | constructor].
    + rewrite zip_with_app by (symmetry; exact Hlen).
      rewrite <- app_assoc. reflexivity.
Qed.

Lemma post_off_hours start anomalies g :
  anomalies_fit start \/ R ->
  post R (off_hours start anomalies)
    (fun out _ => exists e, off_hours_spec start e
                            /\ out = anomalies ++ [e]) g.
Proof.
  intros Hfit. unfold off_hours.
  step_randint m Hm.
  apply post_bind, post_lift; rewrite timedelta_ok by span_bounds.
  step_datetime_add Hfit.
  step_random_ip v4_block_off_hours ip Hip.
  apply post_ret. eexists. split; [| reflexivity].
  exists m, ip. auto.
Qed.

Lemma post_service_account start anomalies g :
  anomalies_fit start \/ R ->
  post R (service_account start anomalies)
    (fun out _ => exists e, service_account_spec start e
                            /\ out = anomalies ++ [e]) g.
Proof.
  intros Hfit. unfold service_account.
  step_randint m Hm.
  apply post_bind, post_lift; rewrite timedelta_ok by span_bounds.
  step_datetime_add Hfit.
  step_random_ip v4_block_service ip Hip.
  apply post_ret. eexists. split; [| reflexivity].
  exists m, ip. auto.
Qed.

Lemma post_build_anomalies start g :
  anomalies_fit start \/ R ->
  post R (build_anomalies start)
    (fun anomalies _ => anomalies_spec (G := G) start anomalies) g.
Proof.
  intros Hfit. unfold build_anomalies. simpl for_each.
  apply post_bind, post_bind.
  eapply post_mono; [| apply post_impossible_travel, Hfit].
  intros ? g1 (alice_rows & Halice & ->). simpl.
  apply post_bind.
  eapply post_mono; [| apply post_impossible_travel, Hfit].
  intros ? g2 (bob_rows & Hbob & ->). apply post_ret.
  apply post_bind.
  eapply post_mono; [| apply post_brute_force, Hfit].
  intros ? g3 (brute_rows & Hbrute & ->).
  apply post_bind.
  eapply post_mono; [| apply post_off_hours, Hfit].
  intros ? g4 (off & Hoff & ->).
  eapply post_mono; [| apply post_service_account, Hfit].
  intros ? g5 (svc & Hsvc & ->).
  exists alice_rows, bob_rows, brute_rows, off, svc.
  repeat split; try assumption.
  rewrite <- !app_assoc. reflexivity.
Qed.
End ScenarioSpecs.

(* ===================================================================== *)
(** * What a normal row is *)
(* ===================================================================== *)

Lemma profiles_checked : forallb profile_check build_user_profiles = true.
Proof. vm_compute. reflexivity. Qed.

Lemma profile_ok u :
  u ∈ build_user_profiles ->
  0 <= fst (usual_hours u) <= snd (usual_hours u)
  /\ snd (usual_hours u) <= 23
  /\ known_ip_blocks u <> []
  /\ forall b, b ∈ known_ip_blocks u -> exists lo hi, v4_block b = Some (lo, hi).
Proof.
  intros Hu. apply list_elem_of_In in Hu.
  pose proof (proj1 (forallb_forall _ _) profiles_checked u Hu) as Hc.
  unfold profile_check in Hc.
  repeat (apply andb_true_iff in Hc as [Hc ?]).
  repeat match goal with
         | E : (_ <=? _) = true |- _ => apply Z.leb_le in E
         end.
  repeat split; try lia.
  - intros Hnil. rewrite Hnil in *. discriminate.
  - intros b Hb. apply list_elem_of_In in Hb.
    match goal with
    | E : forallb _ _ = true |- _ =>
        pose proof (proj1 (forallb_forall _ _) E b Hb) as Hblock
    end.
    apply bool_decide_eq_true in Hblock as [[lo hi] Hblock]. eauto.
Qed.

Lemma timedelta_inv d h m s td :
  timedelta d h m s = Ok td -> td = span d h m s.
Proof.
  unfold timedelta, span, hours, minutes, seconds, US_PER_DAY, US_PER_SECOND.
  destruct (_ && _); [| discriminate]. intros [= <-]. ring.
Qed.

Section LibraryRules.
Context {G : Type} `{RandomSource G}.
Variable R : Prop.

Lemma post_timedelta d h m s (Q : Z -> G -> Prop) g :
  (- 999999999 * US_PER_DAY <= span d h m s < 1000000000 * US_PER_DAY) \/ R ->
  Q (span d h m s) g ->
  post R (lift (timedelta d h m s)) Q g.
Proof.
  intros Hfit HQ. apply post_lift.
  destruct (timedelta d h m s) as [td|] eqn:E.
  - apply timedelta_inv in E. subst td. exact HQ.
  - destruct Hfit as [Hfit | HR]; [| exact HR].
    rewrite timedelta_ok in E by exact Hfit. discriminate.
Qed.

Lemma post_datetime_add t td (Q : Z -> G -> Prop) g :
  (0 <= t + td < MAX_ORDINAL * US_PER_DAY) \/ R ->
  Q (t + td) g ->
  post R (lift (datetime_add t td)) Q g.
Proof.
  intros Hfit HQ. apply post_lift. unfold datetime_add.
  destruct (valid_datetime (t + td)) eqn:E; [exact HQ |].
  destruct Hfit as [Hfit | HR]; [| exact HR].
  apply valid_datetime_iff in Hfit. congruence.
Qed.

Lemma post_datetime_sub t td (Q : Z -> G -> Prop) g :
  (0 <= t - td < MAX_ORDINAL * US_PER_DAY) \/ R ->
  Q (t - td) g ->
  post R (lift (datetime_sub t td)) Q g.
Proof.
  intros Hfit HQ. apply post_lift. unfold datetime_sub.
  destruct (valid_datetime (t - td)) eqn:E; [exact HQ |].
  destruct Hfit as [Hfit | HR]; [| exact HR].
  apply valid_datetime_iff in Hfit. congruence.
Qed.

Lemma post_weighted_choice float_sum items (Q : string -> G -> Prop) g :
  items <> [] ->
  (forall label g', label ∈ map fst items -> Q label g') ->
  post R (weighted_choice float_sum items) Q g.
Proof.
  intros Hne HQ. unfold weighted_choice.
  apply post_bind, post_random.
  pose proof (weighted_walk_spec items
                (PrimFloat.mul (fst (rng_random g))
                               (float_sum (map snd items))) 0%float) as Hwalk.
  destruct (weighted_walk _ _ items) as [label|].
  - destruct Hwalk as (i & w & Hi & _). apply post_ret, HQ.
    apply list_elem_of_fmap. exists (label, w). split; [reflexivity |].
    eapply list_elem_of_lookup_2, Hi.
  - destruct (last items) as [[label w]|] eqn:Elast.
    + apply post_ret, HQ. apply list_elem_of_fmap. exists (label, w).
      split; [reflexivity |].
      rewrite last_lookup in Elast. eapply list_elem_of_lookup_2, Elast.
    + apply last_None in Elast. contradiction.
Qed.
End LibraryRules.

Lemma whole_seconds_within (start end_ offset : Z) :
  start <= end_ \/ end_ - start <= - US_PER_SECOND ->
  0 <= offset <= int_total_seconds start end_ ->
  start <= start + seconds offset <= end_.
Proof.
  unfold int_total_seconds, seconds, US_PER_SECOND. intros Hwin Hoff.
  destruct Hwin as [Hle | Hfar].
  - rewrite Z.quot_div_nonneg in Hoff by lia.
    pose proof (Z.mul_div_le (end_ - start) 1000000 ltac:(lia)). lia.
  - exfalso.
    assert (1 <= (start - end_) ÷ 1000000) as Hq
      by (apply Z.quot_le_lower_bound; lia).
    replace (end_ - start) with (- (start - end_)) in Hoff by ring.
    rewrite Z.quot_opp_l in Hoff by lia. lia.
Qed.

Section NormalRowRules.
Context {G : Type} `{RandomSource G}.
Variable float_sum : list float -> float.
Variable R : Prop.

Lemma post_random_timestamp start end_ (u : UserProfile) g :
  u ∈ build_user_profiles ->
  window_decided start end_ ->
  window_fits start end_ \/ R ->
  post R (random_timestamp start end_
            (if negb (String.eqb (username u) "svc_backup")
             then Some (usual_hours u) else None))
    (fun ts _ => timestamp_spec (G := G) start end_ u ts) g.
Proof.
  intros Hu Hwin Hfit. unfold random_timestamp.
  apply post_bind, post_randint.
  { intros Hneg. destruct Hfit as [(H0 & Hle & Hmax) | HR]; [| exact HR].
    exfalso. unfold int_total_seconds, US_PER_SECOND in Hneg.
    pose proof (Z.quot_pos (end_ - start) 1000000 ltac:(lia) ltac:(lia)).
    lia. }
  intros offset g1 Hoff.
  pose proof (whole_seconds_within start end_ offset Hwin Hoff) as Hbase.
  apply post_bind, post_timedelta.
  { destruct Hfit as [(H0 & Hle & Hmax) | HR]; [left | right; exact HR].
    rewrite span_seconds. revert Hbase H0 Hmax.
    unfold seconds, MAX_ORDINAL, US_PER_DAY, US_PER_SECOND. lia. }
  rewrite span_seconds.
  apply post_bind, post_datetime_add.
  { destruct Hfit as [(H0 & Hle & Hmax) | HR]; [left | right; exact HR].
    lia. }
  set (base := start + seconds offset) in *.
  assert ((base - start) mod US_PER_SECOND = 0) as Hwhole.
  { subst base. unfold seconds.
    replace (start + offset * US_PER_SECOND - start)
      with (offset * US_PER_SECOND) by ring.
    apply Z.mod_mul. unfold US_PER_SECOND. lia. }
  destruct (String.eqb (username u) "svc_backup") eqn:Esvc; simpl.
  - apply String.eqb_eq in Esvc. apply post_ret.
    exists base. split; [exact Hbase |]. split; [exact Hwhole |].
    left. split; [reflexivity | left; exact Esvc].
  - apply String.eqb_neq in Esvc.
    destruct (profile_ok u Hu) as (Hhours & H23 & _).
    destruct (usual_hours u) as [h_start h_end] eqn:Ehours.
    simpl in Hhours, H23.
    apply post_bind, post_random.
    destruct (PrimFloat.ltb (fst (rng_random g1)) 0.8%float) eqn:Edraw.
    + apply post_bind, post_randint; [lia |]. intros hour g2 Hhour.
      apply post_bind, post_randint; [lia |]. intros minute g3 Hminute.
      apply post_bind, post_randint; [lia |]. intros second g4 Hsecond.
      apply post_lift. unfold datetime_replace.
      replace ((0 <=? hour) && (hour <=? 23) && (0 <=? minute)
               && (minute <=? 59) && (0 <=? second) && (second <=? 59))
        with true
        by (symmetry; repeat (apply andb_true_iff; split);
            apply Z.leb_le; lia).
      exists base. split; [exact Hbase |]. split; [exact Hwhole |].
      right. split; [exact Esvc |]. split; [exists g1; exact Edraw |].
      exists hour, minute, second. rewrite Ehours. simpl. auto.
    + apply post_ret.
      exists base. split; [exact Hbase |]. split; [exact Hwhole |].
      left. split; [reflexivity | right; exists g1; exact Edraw].
Qed.

Lemma post_sample_country u (Q : string -> G -> Prop) g :
  (forall country g', country_at u g = Some country -> Q country g') ->
  post R (sample_country u) Q g.
Proof.
  intros HQ. unfold sample_country. apply post_bind, post_random.
  unfold country_at in HQ.
  destruct (PrimFloat.ltb (fst (rng_random g)) 0.92%float).
  - apply post_ret, HQ. reflexivity.
  - apply post_choice; [discriminate |].
    intros country Hcountry _. apply HQ, Hcountry.
Qed.

Lemma post_normal_event start end_ g :
  window_decided start end_ ->
  window_fits start end_ \/ R ->
  post R (normal_event float_sum build_user_profiles start end_)
    (fun e _ => normal_row_spec (G := G) start end_ e) g.
Proof.
  intros Hwin Hfit. unfold normal_event.
  apply post_bind, post_choice; [discriminate |]. intros u _ Hu.
  destruct (profile_ok u Hu) as (_ & _ & Hblocks & Hv4).
  apply post_bind.
  eapply post_mono; [| apply (post_random_timestamp _ _ _ _ Hu Hwin Hfit)].
  intros ts g1 Hts. cbv beta in Hts |- *.
  apply post_bind, post_weighted_choice; [discriminate |].
  intros src g2 Hsrc.
  apply post_bind, post_weighted_choice; [discriminate |].
  intros auth g3 Hauth.
  apply post_bind, post_weighted_choice; [discriminate |].
  intros ua g4 _.
  apply post_bind, post_choice; [intros E; contradiction |].
  intros block _ Hblock.
  destruct (Hv4 block Hblock) as (lo & hi & Hrange).
  apply post_bind, (post_random_ip _ _ _ _ _ _ Hrange).
  intros a g5 Ha.
  apply post_bind, post_sample_country. intros country gc Hcountry.
  apply post_bind, post_random.
  assert (forall result_ reason,
            (if PrimFloat.ltb (fst (rng_random gc)) (success_rate u)
             then result_ = "SUCCESS" /\ reason = ""
             else result_ = "FAILURE" /\ reason ∈ failure_reasons) ->
            normal_row_spec start end_
              (new_event (isoformat_seconds ts) (username u) src auth
                 (ipv4_text a) country result_ reason)) as Hrow.
  { intros result_ reason Hout.
    exists u, ts, src, auth, (ipv4_text a), country, result_, reason.
    repeat split; try assumption.
    - exists block. split; [exact Hblock |].
      eapply in_block_intro; eassumption.
    - exists g5. exact Hcountry.
    - exists gc. exact Hout. }
  destruct (PrimFloat.ltb (fst (rng_random gc)) (success_rate u)).
  - apply post_bind, post_ret, post_ret. apply Hrow. auto.
  - apply post_bind, post_choice; [discriminate |].
    intros reason _ Hreason. apply post_ret. apply Hrow. auto.
Qed.

Lemma post_generate_normal_events start end_ n g :
  window_decided start end_ ->
  window_fits start end_ \/ R ->
  post R (generate_normal_events float_sum build_user_profiles start end_ n)
    (fun events _ => length events = Z.to_nat n
                     /\ Forall (normal_row_spec (G := G) start end_) events)
    g.
Proof.
  intros Hwin Hfit. unfold generate_normal_events.
  pose (I := fun (done : list Z) (results : list event) =>
               length results = length done
               /\ Forall (normal_row_spec (G := G) start end_) results).
  eapply post_mono; [| apply (post_for_each R _ I (range n) [] [])].
  - intros events g' HI. destruct HI as [Hlen Hrows].
    split; [| exact Hrows].
    rewrite Hlen. simpl. unfold range. rewrite length_map, length_seq.
    reflexivity.
  - split; [reflexivity | constructor].
  - intros done x results g' _ HI. destruct HI as [Hlen Hrows].
    apply post_bind.
    eapply post_mono; [| apply (post_normal_event _ _ _ Hwin Hfit)].
    intros e g'' He. apply post_ret. split.
    + rewrite !length_app, Hlen. reflexivity.
    + apply Forall_app. split; [exact Hrows |].
      constructor; [exact He | constructor].
Qed.
End NormalRowRules.

(* ===================================================================== *)
(** * The combined dataset *)
(* ===================================================================== *)

Lemma post_total {G A} (m : M G A) (Q : A -> G -> Prop) g :
  post False m Q g -> exists a g', m g = Ok (a, g') /\ Q a g'.
Proof.
  unfold post. destruct (m g) as [[a g']|e]; [eauto | contradiction].
Qed.

Lemma post_partial {G A} (m : M G A) (Q : A -> G -> Prop) g :
  post True m Q g -> forall a g', m g = Ok (a, g') -> Q a g'.
Proof.
  unfold post. intros HQ a g' E. rewrite E in HQ. exact HQ.
Qed.

Section CombinedRules.
Context {G : Type} `{RandomSource G}.
Variable float_sum : list float -> float.
Variable R : Prop.

Lemma post_inject_anomalies events start end_ g :
  anomalies_fit start \/ R ->
  post R (inject_anomalies events start end_)
    (fun combined _ =>
       exists anomalies,
         anomalies_spec (G := G) start anomalies
         /\ combined ≡ₚ map (tag "false") events
                        ++ map (tag "true") anomalies) g.
Proof.
  intros Hfit. unfold inject_anomalies. apply post_bind.
  eapply post_mono; [| apply post_build_anomalies, Hfit].
  intros anomalies g1 Hspec. cbv beta in Hspec |- *.
  apply post_shuffle. intros combined g2 Hperm.
  exists anomalies. split; assumption.
Qed.

Lemma post_pipeline n days_ now g :
  run_fits days_ now \/ R ->
  post R (pipeline float_sum n days_ now)
    (fun combined _ =>
       combined_spec (G := G) n (now - days_ * US_PER_DAY) now combined) g.
Proof.
  intros Hfit. unfold pipeline.
  assert (span days_ 0 0 0 = days_ * US_PER_DAY) as Hspan
    by (unfold span, hours, minutes, seconds; lia).
  apply post_bind, post_timedelta.
  { destruct Hfit as [Hfit | HR]; [left | right; exact HR].
    rewrite Hspan. revert Hfit.
    unfold run_fits, MAX_ORDINAL, US_PER_DAY, US_PER_SECOND. lia. }
  rewrite Hspan. set (start := now - days_ * US_PER_DAY).
  apply post_bind, post_datetime_sub.
  { destruct Hfit as [Hfit | HR]; [left | right; exact HR].
    revert Hfit. unfold run_fits, MAX_ORDINAL, US_PER_DAY, US_PER_SECOND.
    lia. }
  fold start.
  assert (window_decided start now) as Hwin.
  { unfold window_decided. subst start. unfold US_PER_DAY, US_PER_SECOND.
    lia. }
  assert (window_fits start now \/ R) as Hwfit.
  { destruct Hfit as [Hfit | HR]; [left | right; exact HR].
    revert Hfit. unfold run_fits, window_fits. subst start.
    unfold MAX_ORDINAL, US_PER_DAY, US_PER_SECOND. lia. }
  assert (anomalies_fit start \/ R) as Hafit.
  { destruct Hfit as [Hfit | HR]; [left | right; exact HR].
    revert Hfit. unfold run_fits, anomalies_fit. subst start.
    unfold MAX_ORDINAL, US_PER_DAY, US_PER_SECOND. lia. }
  apply post_bind.
  eapply post_mono;
    [| apply (post_generate_normal_events float_sum R _ _ n _ Hwin Hwfit)].
  intros normal g1 [Hlen Hrows].
  eapply post_mono; [| apply post_inject_anomalies, Hafit].
  intros combined g2 (anomalies & Hspec & Hperm).
  exists normal, anomalies. auto.
Qed.
End CombinedRules.

(* ===================================================================== *)
(** * Row counts and the anomaly flag *)
(* ===================================================================== *)

Lemma Forall_zip_with_intro {A B C} (P : C -> Prop) (f : A -> B -> C) l :
  forall k, (forall x y, P (f x y)) -> Forall P (zip_with f l k).
Proof.
  induction l as [|x l IH]; intros [|y k] HP; simpl; constructor; auto.
Qed.

Lemma flagged_permutation value (l k : list event) :
  l ≡ₚ k -> flagged value l = flagged value k.
Proof. intros Hperm. unfold flagged. rewrite Hperm. reflexivity. Qed.

Lemma flagged_app value (l k : list event) :
  flagged value (l ++ k) = flagged value l + flagged value k.
Proof. unfold flagged. rewrite filter_app, length_app. lia. Qed.

Lemma flagged_tagged value value' (l : list event) :
  flagged value (map (tag value') l)
  = if String.eqb value' value then Z.of_nat (length l) else 0.
Proof.
  unfold flagged.
  destruct (String.eqb value' value) eqn:E.
  - apply String.eqb_eq in E. subst value'. f_equal.
    induction l as [|e l IH]; [reflexivity |]. simpl.
    rewrite filter_cons_True; [simpl; f_equal; exact IH |].
    unfold tag. apply lookup_insert_eq.
  - apply String.eqb_neq in E.
    induction l as [|e l IH]; [reflexivity |]. simpl.
    rewrite filter_cons_False; [exact IH |].
    unfold tag. rewrite lookup_insert_eq. congruence.
Qed.

Section Counts.
Context {G : Type} `{RandomSource G}.

Lemma anomalies_length start (anomalies : list event) :
  anomalies_spec (G := G) start anomalies -> length anomalies = 19%nat.
Proof.
  intros (alice_rows & bob_rows & brute_rows & off & svc
          & Halice & Hbob & Hbrute & _ & _ & ->).
  destruct Halice as (? & ? & ? & ? & _ & _ & _ & _ & ->).
  destruct Hbob as (? & ? & ? & ? & _ & _ & _ & _ & ->).
  destruct Hbrute as (? & ? & fails & ? & _ & _ & Hlen & _ & _ & ->).
  rewrite !length_app, length_zip_with, Hlen. reflexivity.
Qed.

Lemma combined_counts n start end_ (combined : list event) :
  0 <= n ->
  combined_spec (G := G) n start end_ combined ->
  Z.of_nat (length combined) = n + 19
  /\ flagged "true" combined = 19
  /\ flagged "false" combined = n.
Proof.
  intros Hn (normal & anomalies & Hlen & _ & Hspec & Hperm).
  apply anomalies_length in Hspec.
  rewrite !(flagged_permutation _ _ _ Hperm), !flagged_app, !flagged_tagged.
  rewrite Hperm, length_app, !length_map, Hlen, Hspec. simpl. lia.
Qed.
End Counts.

Section RowCountClaim.
Context {G : Type} `{RandomSource G}.
Variable float_sum : list float -> float.

(** C1: for every row count [n >= 0], whenever the run yields a
    combined dataset it holds exactly [n + 19] rows, 19 of them flagged
    ["true"] and [n] flagged ["false"]; and the run does yield one
    whenever the window and the injected rows fit the calendar. *)
Theorem pipeline_row_count (n days_ now : Z) (g : G) :
  0 <= n ->
  (run_fits days_ now ->
   exists combined g', pipeline float_sum n days_ now g = Ok (combined, g'))
  /\ (forall combined g',
        pipeline float_sum n days_ now g = Ok (combined, g') ->
        Z.of_nat (length combined) = n + 19
        /\ flagged "true" combined = 19
        /\ flagged "false" combined = n).
Proof.
  intros Hn. split.
  - intros Hfit.
    destruct (post_total _ _ g
                (post_pipeline float_sum False n days_ now g (or_introl Hfit)))
      as (combined & g' & Hrun & _).
    exists combined, g'. exact Hrun.
  - intros combined g' Hrun.
    apply (combined_counts n (now - days_ * US_PER_DAY) now combined Hn).
    apply (post_partial _ _ g
             (post_pipeline float_sum True n days_ now g (or_intror I))
             combined g' Hrun).
Qed.
End RowCountClaim.

(* ===================================================================== *)
(** * The failure reason agrees with the result *)
(* ===================================================================== *)

Lemma failure_reasons_nonempty reason :
  reason ∈ failure_reasons -> reason <> "".
Proof.
  unfold failure_reasons. intros Hin ->.
  repeat (apply elem_of_cons in Hin as [Hin | Hin]; [discriminate |]).
  inversion Hin.
Qed.

Lemma row_shape_matches value e :
  row_shape e -> reason_matches_result (tag value e).
Proof.
  intros (ts & user & src & auth & ip & country & result_ & reason & -> & Hout).
  exists result_, reason.
  split; [reflexivity |]. split; [reflexivity |].
  destruct Hout as [[-> ->] | [-> Hreason]].
  - split; split; intros Hx;
      first [reflexivity | discriminate | exfalso; apply Hx; reflexivity].
  - apply failure_reasons_nonempty in Hreason.
    split; split; intros Hx;
      first [reflexivity | discriminate | contradiction | exact Hreason].
Qed.

Lemma success_shape ts user src auth ip country :
  row_shape (new_event ts user src auth ip country "SUCCESS" "").
Proof.
  exists ts, user, src, auth, ip, country, "SUCCESS", "". auto.
Qed.

Lemma bad_password_shape ts user src auth ip country :
  row_shape (new_event ts user src auth ip country "FAILURE" "bad_password").
Proof.
  exists ts, user, src, auth, ip, country, "FAILURE", "bad_password".
  split; [reflexivity |]. right. split; [reflexivity |].
  unfold failure_reasons. apply elem_of_cons. left. reflexivity.
Qed.

Ltac success_rows :=
  repeat first [ apply Forall_nil_2
               | apply Forall_cons_2; [apply success_shape |] ].

Section Shapes.
Context {G : Type} `{RandomSource G}.

Lemma normal_row_shape start end_ e :
  normal_row_spec (G := G) start end_ e -> row_shape e.
Proof.
  intros (u & ts & src & auth & ip & country & result_ & reason
          & _ & _ & _ & _ & _ & _ & [g Hout] & ->).
  exists (isoformat_seconds ts), (username u), src, auth, ip, country,
    result_, reason.
  split; [reflexivity |].
  destruct (PrimFloat.ltb _ _); [left | right]; exact Hout.
Qed.

Lemma anomalies_shape start (anomalies : list event) :
  anomalies_spec (G := G) start anomalies -> Forall row_shape anomalies.
Proof.
  intros (alice_rows & bob_rows & brute_rows & off & svc
          & Halice & Hbob & Hbrute & Hoff & Hsvc & ->).
  destruct Halice as (? & ? & ? & ? & _ & _ & _ & _ & ->).
  destruct Hbob as (? & ? & ? & ? & _ & _ & _ & _ & ->).
  destruct Hbrute as (? & ? & fails & ? & _ & _ & _ & _ & _ & ->).
  destruct Hoff as (? & ? & _ & _ & ->).
  destruct Hsvc as (? & ? & _ & _ & ->).
  unfold travel_rows, brute_success_row, off_hours_row, service_account_row.
  apply Forall_app_2; [success_rows |].
  apply Forall_app_2; [success_rows |].
  apply Forall_app_2; [| success_rows].
  apply Forall_app_2; [| success_rows].
  apply Forall_zip_with_intro. intros i f. unfold brute_failure_row.
  apply bad_password_shape.
Qed.

Lemma combined_rows_match n start end_ (combined : list event) :
  combined_spec (G := G) n start end_ combined ->
  Forall reason_matches_result combined.
Proof.
  intros (normal & anomalies & _ & Hrows & Hspec & Hperm).
  rewrite Hperm. apply Forall_app. split; apply Forall_fmap.
  - eapply Forall_impl; [exact Hrows |].
    intros e He. apply row_shape_matches, (normal_row_shape _ _ _ He).
  - eapply Forall_impl; [apply (anomalies_shape _ _ Hspec) |].
    intros e He. apply row_shape_matches, He.
Qed.
End Shapes.

Section ReasonClaim.
Context {G : Type} `{RandomSource G}.
Variable float_sum : list float -> float.

(** C2: in every row of the combined dataset of a run, normal or
    injected, [failure_reason] is a non-empty string if and only if
    [result] is ["FAILURE"], and the empty string if and only if
    [result] is ["SUCCESS"]. *)
Theorem failure_reason_iff_failure (n days_ now : Z) (g : G)
    (combined : list event) (g' : G) :
  pipeline float_sum n days_ now g = Ok (combined, g') ->
  Forall reason_matches_result combined.
Proof.
  intros Hrun.
  apply (combined_rows_match n (now - days_ * US_PER_DAY) now).
  apply (post_partial _ _ g
           (post_pipeline float_sum True n days_ now g (or_intror I))
           combined g' Hrun).
Qed.
End ReasonClaim.

(* ===================================================================== *)
(** * The injected scenarios *)
(* ===================================================================== *)

Section EventFields.
Variables ts user src auth ip country result_ reason : string.
Let e := new_event ts user src auth ip country result_ reason.

Lemma new_event_timestamp : e !! "timestamp_utc" = Some ts.
Proof. reflexivity. Qed.
Lemma new_event_username : e !! "username" = Some user.
Proof. reflexivity. Qed.
Lemma new_event_source_ip : e !! "source_ip" = Some ip.
Proof. reflexivity. Qed.
Lemma new_event_country : e !! "country" = Some country.
Proof. reflexivity. Qed.
Lemma new_event_result : e !! "result" = Some result_.
Proof. reflexivity. Qed.
Lemma new_event_failure_reason : e !! "failure_reason" = Some reason.
Proof. reflexivity. Qed.
End EventFields.

Lemma filter_none {A} (P : A -> Prop) `{forall x, Decision (P x)} (l : list A) :
  Forall (fun x => ~ P x) l -> filter P l = [].
Proof.
  induction 1 as [|x l Hx _ IH]; [reflexivity |].
  rewrite filter_cons_False by exact Hx. exact IH.
Qed.

Lemma successes_of_failures user base brute_ip indices fails :
  successes_of user (zip_with (brute_failure_row base brute_ip) indices fails)
  = [].
Proof.
  apply filter_none, Forall_zip_with_intro.
  intros i f [_ Hres]. unfold brute_failure_row in Hres.
  rewrite new_event_result in Hres. discriminate Hres.
Qed.

Lemma successes_of_other user ts other src auth ip country result_ reason rest :
  other <> user ->
  successes_of user
    (new_event ts other src auth ip country result_ reason :: rest)
  = successes_of user rest.
Proof.
  intros Hne. unfold successes_of. apply filter_cons_False.
  intros [Huser _]. rewrite new_event_username in Huser.
  injection Huser as Huser. contradiction.
Qed.

Lemma successes_of_own user ts src auth ip country rest :
  successes_of user
    (new_event ts user src auth ip country "SUCCESS" "" :: rest)
  = new_event ts user src auth ip country "SUCCESS" ""
    :: successes_of user rest.
Proof.
  unfold successes_of. apply filter_cons_True. split; reflexivity.
Qed.


(* ===================================================================== *)
(** * Timestamps read back as the instant they were written from *)
(* ===================================================================== *)

Lemma forallb_range (f : Z -> bool) (n : Z) :
  forallb f (range n) = true -> forall x, 0 <= x < n -> f x = true.
Proof.
  intros Hall x Hx. apply (proj1 (forallb_forall _ _) Hall).
  unfold range. apply in_map_iff. exists (Z.to_nat x).
  split; [lia |]. apply in_seq. lia.
Qed.

Lemma month_day_checked leap :
  forallb (month_day_check leap) (range 365) = true.
Proof. destruct leap; vm_compute; reflexivity. Qed.

Lemma month_day_spec leap n month day :
  0 <= n < 365 ->
  month_day leap n = (month, day) ->
  1 <= month <= 12 /\ 1 <= day <= month_length leap month
  /\ month_offset leap month + day = n + 1.
Proof.
  intros Hn E.
  pose proof (forallb_range _ _ (month_day_checked leap) n Hn) as Hc.
  unfold month_day_check in Hc. rewrite E in Hc.
  repeat (apply andb_true_iff in Hc as [Hc ?]).
  repeat match goal with
         | E : (_ <=? _) = true |- _ => apply Z.leb_le in E
         | E : (_ =? _) = true |- _ => apply Z.eqb_eq in E
         end.
  lia.
Qed.

(** Linear arithmetic with division and remainder by constants. *)
Ltac div_lia := Z.div_mod_to_equations; lia.

Lemma ord2ymd_spec (ordinal : Z) :
  1 <= ordinal <= MAX_ORDINAL ->
  let '(year, month, day) := ord2ymd ordinal in
  1 <= year <= 9999 /\ 1 <= month <= 12
  /\ 1 <= day <= days_in_month year month
  /\ ymd2ord year month day = ordinal.
Proof.
  unfold MAX_ORDINAL. intros Hord. unfold ord2ymd.
  unfold DI400Y, DI100Y, DI4Y.
  set (n0 := ordinal - 1).
  pose proof (Z.div_mod n0 146097 ltac:(lia)) as E400.
  pose proof (Z.mod_pos_bound n0 146097 ltac:(lia)) as B400.
  set (n400 := n0 / 146097) in *. set (r400 := n0 mod 146097) in *.
  pose proof (Z.div_mod r400 36524 ltac:(lia)) as E100.
  pose proof (Z.mod_pos_bound r400 36524 ltac:(lia)) as B100.
  set (n100 := r400 / 36524) in *. set (r100 := r400 mod 36524) in *.
  pose proof (Z.div_mod r100 1461 ltac:(lia)) as E4.
  pose proof (Z.mod_pos_bound r100 1461 ltac:(lia)) as B4.
  set (n4 := r100 / 1461) in *. set (r4 := r100 mod 1461) in *.
  pose proof (Z.div_mod r4 365 ltac:(lia)) as E1.
  pose proof (Z.mod_pos_bound r4 365 ltac:(lia)) as B1.
  set (n1 := r4 / 365) in *. set (r1 := r4 mod 365) in *.
  assert (n0 = ordinal - 1) as En0 by reflexivity.
  clearbody n1 r1 n4 r4 n100 r100 n400 r400 n0.
  assert (0 <= n400 <= 24 /\ 0 <= n100 <= 4 /\ 0 <= n4 <= 24 /\ 0 <= n1 <= 4)
    as Hbounds by lia.
  remember (n400 * 400 + 1 + n100 * 100 + n4 * 4 + n1) as y eqn:Ey.
  destruct ((n1 =? 4) || (n100 =? 4)) eqn:Elast.
  - (* the last day of a leap year *)
    assert (n1 = 4 /\ n4 <= 23 /\ n100 <= 3 \/ n100 = 4 /\ n4 = 0 /\ n1 = 0)
      as Hcase.
    { apply orb_true_iff in Elast.
      destruct Elast as [E | E]; apply Z.eqb_eq in E; lia. }
    assert (is_leap (y - 1) = true) as Hleap.
    { unfold is_leap.
      assert ((y - 1) mod 4 = 0) as -> by div_lia.
      assert ((y - 1) mod 100 <> 0 \/ (y - 1) mod 400 = 0) as [Hne | ->]
        by div_lia.
      - apply Z.eqb_neq in Hne. rewrite Hne. reflexivity.
      - rewrite orb_true_r. reflexivity. }
    unfold days_in_month, ymd2ord, days_before_month, days_before_year.
    rewrite Hleap. unfold month_length, month_offset.
    change (table_at DAYS_IN_MONTH 12) with 31.
    change (table_at DAYS_BEFORE_MONTH 12) with 334.
    change (flag ((2 <? 12) && true)) with 1.
    change ((12 =? 2) && true) with false. cbv iota.
    repeat split; try lia. div_lia.
  - apply orb_false_iff in Elast as [En1 En100].
    apply Z.eqb_neq in En1, En100.
    assert (n1 <= 3 /\ n100 <= 3) as [? ?] by lia.
    set (leapyear := (n1 =? 3) && (negb (n4 =? 24) || (n100 =? 3))).
    assert (is_leap y = leapyear) as Hleap.
    { unfold is_leap, leapyear.
      destruct (n1 =? 3) eqn:E3; [apply Z.eqb_eq in E3 | apply Z.eqb_neq in E3].
      - assert (y mod 4 = 0) as -> by div_lia. simpl.
        destruct (n4 =? 24) eqn:E24;
          [apply Z.eqb_eq in E24 | apply Z.eqb_neq in E24]; simpl.
        + assert (y mod 100 = 0) as -> by div_lia. simpl.
          destruct (n100 =? 3) eqn:E100';
            [apply Z.eqb_eq in E100' | apply Z.eqb_neq in E100'].
          * assert (y mod 400 = 0) as -> by div_lia. reflexivity.
          * assert (y mod 400 <> 0) as Hne by div_lia.
            apply Z.eqb_neq in Hne. rewrite Hne. reflexivity.
        + assert (y mod 100 <> 0) as Hne by div_lia.
          apply Z.eqb_neq in Hne. rewrite Hne. reflexivity.
      - assert (y mod 4 <> 0) as Hne by div_lia.
        apply Z.eqb_neq in Hne. rewrite Hne. reflexivity. }
    destruct (month_day leapyear r1) as [month day] eqn:Emd.
    destruct (month_day_spec leapyear r1 month day B1 Emd)
      as (Hmonth & Hday & Hoffset).
    unfold days_in_month, ymd2ord, days_before_month, days_before_year.
    rewrite Hleap.
    repeat split; try lia. div_lia.
Qed.

Lemma digit_value_char k :
  0 <= k <= 9 -> digit_value (digit_char k) = Some k.
Proof.
  intros Hk.
  assert (forallb (fun k => bool_decide (digit_value (digit_char k) = Some k))
                  (range 10) = true) as Hall by (vm_compute; reflexivity).
  pose proof (forallb_range _ _ Hall k ltac:(lia)) as Hc.
  apply bool_decide_eq_true in Hc. exact Hc.
Qed.

Lemma two_digits_chars a b :
  0 <= a <= 9 -> 0 <= b <= 9 ->
  two_digits (digit_char a) (digit_char b) = Some (10 * a + b).
Proof.
  intros Ha Hb. unfold two_digits.
  rewrite !digit_value_char by assumption. reflexivity.
Qed.

Lemma zero_padded_2 x :
  0 <= x < 100 ->
  zero_padded 2 x
  = String (digit_char (x / 10)) (String (digit_char (x mod 10)) "").
Proof.
  intros Hx.
  assert (forallb
            (fun x => String.eqb (zero_padded 2 x)
                        (String (digit_char (x / 10))
                                (String (digit_char (x mod 10)) "")))
            (range 100) = true) as Hall by (vm_compute; reflexivity).
  apply String.eqb_eq. apply (forallb_range _ _ Hall x Hx).
Qed.

Lemma zero_padded_4 x :
  0 <= x < 10000 ->
  zero_padded 4 x
  = String (digit_char (x / 1000))
      (String (digit_char (x / 100 mod 10))
         (String (digit_char (x / 10 mod 10))
            (String (digit_char (x mod 10)) ""))).
Proof.
  intros Hx.
  assert (forallb
            (fun x => String.eqb (zero_padded 4 x)
                        (String (digit_char (x / 1000))
                           (String (digit_char (x / 100 mod 10))
                              (String (digit_char (x / 10 mod 10))
                                 (String (digit_char (x mod 10)) "")))))
            (range 10000) = true) as Hall by (vm_compute; reflexivity).
  apply String.eqb_eq. apply (forallb_range _ _ Hall x Hx).
Qed.

Lemma parse_rendered year month day hour minute second :
  1 <= year <= 9999 -> 1 <= month <= 12 ->
  1 <= day <= days_in_month year month ->
  0 <= hour <= 23 -> 0 <= minute <= 59 -> 0 <= second <= 59 ->
  parse_isoformat_seconds
    (render_fields year month day hour minute second)
  = Some (((ymd2ord year month day - 1) * 86400
           + (hour * 60 + minute) * 60 + second) * US_PER_SECOND).
Proof.
  intros Hy Hm Hd Hh Hn Hs.
  assert (day <= 31) as Hd31.
  { destruct Hd as [_ Hd]. revert Hd. unfold days_in_month, month_length.
    assert (forallb (fun m => table_at DAYS_IN_MONTH m <=? 31) (range 13)
            = true) as Hall by (vm_compute; reflexivity).
    pose proof (forallb_range _ _ Hall month ltac:(lia)) as Hle.
    apply Z.leb_le in Hle. destruct (_ && _); lia. }
  unfold render_fields.
  rewrite (zero_padded_4 year), !zero_padded_2 by lia.
  remember (digit_char (year / 1000)) as y1 eqn:Ey1.
  remember (digit_char (year / 100 mod 10)) as y2 eqn:Ey2.
  remember (digit_char (year / 10 mod 10)) as y3 eqn:Ey3.
  remember (digit_char (year mod 10)) as y4 eqn:Ey4.
  remember (digit_char (month / 10)) as m1 eqn:Em1.
  remember (digit_char (month mod 10)) as m2 eqn:Em2.
  remember (digit_char (day / 10)) as d1 eqn:Ed1.
  remember (digit_char (day mod 10)) as d2 eqn:Ed2.
  remember (digit_char (hour / 10)) as h1 eqn:Eh1.
  remember (digit_char (hour mod 10)) as h2 eqn:Eh2.
  remember (digit_char (minute / 10)) as n1 eqn:En1.
  remember (digit_char (minute mod 10)) as n2 eqn:En2.
  remember (digit_char (second / 10)) as c1 eqn:Ec1.
  remember (digit_char (second mod 10)) as c2 eqn:Ec2.
  unfold parse_isoformat_seconds.
  cbv beta iota zeta delta [String.append chars of_chars].
  change (String.eqb "--T::" "--T::" && String.eqb "+00:00" "+00:00")
    with true. cbv iota.
  subst.
  rewrite !two_digits_chars by div_lia.
  replace (100 * (10 * (year / 1000) + year / 100 mod 10)
           + (10 * (year / 10 mod 10) + year mod 10)) with year by div_lia.
  replace (10 * (month / 10) + month mod 10) with month by div_lia.
  replace (10 * (day / 10) + day mod 10) with day by div_lia.
  replace (10 * (hour / 10) + hour mod 10) with hour by div_lia.
  replace (10 * (minute / 10) + minute mod 10) with minute by div_lia.
  replace (10 * (second / 10) + second mod 10) with second by div_lia.
  replace ((1 <=? year) && (1 <=? month) && (month <=? 12) && (1 <=? day)
           && (day <=? days_in_month year month) && (hour <=? 23)
           && (minute <=? 59) && (second <=? 59)) with true; [reflexivity |].
  symmetry. repeat (apply andb_true_iff; split); apply Z.leb_le; lia.
Qed.

Lemma isoformat_seconds_fields t :
  isoformat_seconds t
  = let '(year, month, day) := ord2ymd (t / US_PER_DAY + 1) in
    let '(hour, minute, second) := hms t in
    render_fields year month day hour minute second.
Proof. reflexivity. Qed.

(** The text written for a valid instant reads back as that instant cut
    to whole seconds. *)
Lemma parse_isoformat_seconds_written t :
  valid_datetime t = true ->
  parse_isoformat_seconds (isoformat_seconds t) = Some (whole_second t).
Proof.
  intros Hvalid. apply valid_datetime_iff in Hvalid.
  unfold MAX_ORDINAL, US_PER_DAY, US_PER_SECOND in Hvalid.
  rewrite isoformat_seconds_fields.
  assert (1 <= t / US_PER_DAY + 1 <= MAX_ORDINAL) as Hord
    by (unfold MAX_ORDINAL, US_PER_DAY, US_PER_SECOND; div_lia).
  pose proof (ord2ymd_spec _ Hord) as Hymd.
  destruct (ord2ymd (t / US_PER_DAY + 1)) as [[year month] day].
  destruct Hymd as (Hy & Hm & Hd & Hback).
  unfold hms.
  set (s := t mod US_PER_DAY / US_PER_SECOND).
  assert (0 <= s < 86400) as Hs
    by (subst s; unfold US_PER_DAY, US_PER_SECOND; div_lia).
  rewrite parse_rendered by (try assumption; div_lia).
  f_equal. rewrite Hback. unfold whole_second. subst s.
  unfold US_PER_DAY, US_PER_SECOND in *. div_lia.
Qed.

(* ===================================================================== *)
(** * Where the timestamp of a normal row lies *)
(* ===================================================================== *)

Section TimestampClaim.
Context {G : Type} `{RandomSource G}.
Variable float_sum : list float -> float.

Lemma timestamp_spec_days start end_ u ts :
  u ∈ build_user_profiles ->
  window_fits start end_ ->
  timestamp_spec (G := G) start end_ u ts ->
  valid_datetime ts = true
  /\ start - start mod US_PER_DAY <= ts
  /\ ts < end_ - end_ mod US_PER_DAY + US_PER_DAY.
Proof.
  intros Hu (H0 & Hle & Hmax) (base & Hbase & _ & Hts).
  destruct (profile_ok u Hu) as (Hhours & H23 & _).
  rewrite valid_datetime_iff.
  unfold MAX_ORDINAL, US_PER_DAY, US_PER_SECOND in *.
  destruct Hts as [[-> _] | (_ & _ & hour & minute & second
                             & Hhour & Hminute & Hsecond & ->)];
    div_lia.
Qed.

(** C3, as the code has it: with a window of valid instants,
    [start <= end_], a whole number of seconds apart, every normal row
    carries the text of an instant [ts] that reads back as [ts] cut to
    whole seconds.  [ts] is a base instant of [start, end_], kept as it
    is for svc_backup and when the [random()] draw is not below 0.8,
    and otherwise moved, on its own UTC date, to a drawn hour of the
    user's usual hours and a drawn minute and second; so [ts] lies
    within the UTC dates the window touches, not always within
    [start, end_]. *)
Theorem normal_timestamp_reads_back (start end_ n : Z) (g : G) :
  window_fits start end_ ->
  (end_ - start) mod US_PER_SECOND = 0 ->
  exists events g',
    generate_normal_events float_sum build_user_profiles start end_ n g
    = Ok (events, g')
    /\ Forall
         (fun e =>
            exists u ts,
              u ∈ build_user_profiles
              /\ e !! "username" = Some (username u)
              /\ e !! "timestamp_utc" = Some (isoformat_seconds ts)
              /\ parse_isoformat_seconds (isoformat_seconds ts)
                 = Some (whole_second ts)
              /\ timestamp_spec (G := G) start end_ u ts
              /\ start - start mod US_PER_DAY <= ts
                 < end_ - end_ mod US_PER_DAY + US_PER_DAY)
         events.
Proof.
  intros Hfit _.
  assert (window_decided start end_) as Hwin
    by (left; destruct Hfit as (_ & Hle & _); exact Hle).
  destruct (post_total _ _ g
              (post_generate_normal_events float_sum False start end_ n g
                 Hwin (or_introl Hfit)))
    as (events & g' & Hrun & _ & Hrows).
  exists events, g'. split; [exact Hrun |].
  eapply Forall_impl; [exact Hrows |].
  intros e (u & ts & src & auth & ip & country & result_ & reason
            & Hu & Hts & _ & _ & _ & _ & _ & ->).
  destruct (timestamp_spec_days start end_ u ts Hu Hfit Hts)
    as (Hvalid & Hlow & Hhigh).
  exists u, ts. split; [exact Hu |].
  split; [reflexivity |]. split; [reflexivity |].
  split; [apply parse_isoformat_seconds_written, Hvalid |].
  split; [exact Hts | lia].
Qed.
End TimestampClaim.

(* ===================================================================== *)
(** * The country of a normal row *)
(* ===================================================================== *)

Section CountryClaim.
Context {G : Type} `{RandomSource G}.
Variable float_sum : list float -> float.

Lemma home_countries_listed u :
  u ∈ build_user_profiles -> home_country u ∈ other_countries.
Proof.
  intros Hu. apply list_elem_of_In in Hu.
  assert (forallb (fun u => bool_decide (home_country u ∈ other_countries))
                  build_user_profiles = true) as Hall
    by (vm_compute; reflexivity).
  pose proof (proj1 (forallb_forall _ _) Hall u Hu) as Hc.
  apply bool_decide_eq_true in Hc. exact Hc.
Qed.

(** C9, as the code has it: the country of every normal row is decided
    by the draws of [sample_country] from some state [g0] of the run:
    the home country of the row's user when the [random()] draw is
    below 0.92, and else the entry of the fixed list of seven codes at
    the drawn index.  That list holds the home country of every
    profile, so the entry drawn may be the home country again. *)
Theorem normal_country_drawn (start end_ n : Z) (g : G) :
  window_fits start end_ ->
  (end_ - start) mod US_PER_SECOND = 0 ->
  exists events g',
    generate_normal_events float_sum build_user_profiles start end_ n g
    = Ok (events, g')
    /\ Forall
         (fun e =>
            exists u country (g0 : G),
              u ∈ build_user_profiles
              /\ e !! "username" = Some (username u)
              /\ e !! "country" = Some country
              /\ (if PrimFloat.ltb (fst (rng_random g0)) 0.92%float
                  then country = home_country u
                  else choice_at other_countries (snd (rng_random g0))
                       = Some country)
              /\ country ∈ other_countries
              /\ home_country u ∈ other_countries)
         events
    /\ length other_countries = 7%nat.
Proof.
  intros Hfit _.
  assert (window_decided start end_) as Hwin
    by (left; destruct Hfit as (_ & Hle & _); exact Hle).
  destruct (post_total _ _ g
              (post_generate_normal_events float_sum False start end_ n g
                 Hwin (or_introl Hfit)))
    as (events & g' & Hrun & _ & Hrows).
  exists events, g'. split; [exact Hrun |]. split; [| reflexivity].
  eapply Forall_impl; [exact Hrows |].
  intros e (u & ts & src & auth & ip & country & result_ & reason
            & Hu & _ & _ & _ & _ & [g0 Hcountry] & _ & ->).
  pose proof (home_countries_listed u Hu) as Hhome.
  exists u, country, g0. split; [exact Hu |].
  split; [reflexivity |]. split; [reflexivity |].
  unfold country_at in Hcountry.
  destruct (PrimFloat.ltb (fst (rng_random g0)) 0.92%float).
  - injection Hcountry as <-. auto.
  - split; [exact Hcountry |]. split; [| exact Hhome].
    eapply list_elem_of_lookup_2, Hcountry.
Qed.
End CountryClaim.

(* ===================================================================== *)
(** * The country of the brute-force success *)
(* ===================================================================== *)

Lemma post_skip {G A B} (m : M G A) (k : A -> M G B) (Q : B -> G -> Prop) g :
  (forall a g1, post True (k a) Q g1) -> post True (bind m k) Q g.
Proof.
  intros Hk. unfold post, bind. destruct (m g) as [[a g1]|e]; [| exact I].
  apply Hk.
Qed.

(** C10: the row that closes the brute-force scenario is a ["SUCCESS"]
    whose country is the entry of DE, FR, RU, CN at the index drawn by
    the last draw of the scenario, a draw of its own; a run exists whose
    twelve failures all carry DE while the success carries FR. *)
Theorem brute_success_country_fresh :
  (forall (G : Type) (RS : RandomSource G) start anomalies (g : G) out g',
      brute_force start anomalies g = Ok (out, g') ->
      exists e gc country,
        last out = Some e
        /\ e !! "result" = Some "SUCCESS"
        /\ e !! "country" = Some country
        /\ choice_at brute_countries gc = Some country
        /\ country ∈ brute_countries
        /\ g' = snd (rng_randbelow (Z.of_nat (length brute_countries)) gc))
  /\ (exists out g',
        brute_force 63840306645123456 []
          (replay [0; 0;
                   0; 0; 0; 0; 0; 0; 0; 0; 0; 0; 0; 0;
                   0; 0; 0; 0; 0; 0; 0; 0; 0; 0; 0; 0;
                   1])
        = Ok (out, g')
        /\ countries out = replicate 12 "DE" ++ ["FR"]).
Proof.
  split.
  - intros G RS start anomalies g out g' Hrun.
    apply (post_partial (brute_force start anomalies)
             (fun out g' =>
                exists e gc country,
                  last out = Some e
                  /\ e !! "result" = Some "SUCCESS"
                  /\ e !! "country" = Some country
                  /\ choice_at brute_countries gc = Some country
                  /\ country ∈ brute_countries
                  /\ g' = snd (rng_randbelow
                                 (Z.of_nat (length brute_countries)) gc))
             g); [| exact Hrun].
    unfold brute_force.
    do 5 (apply post_skip; intros ? ?).
    do 2 (apply post_skip; intros ? ?).
    apply post_bind, post_choice; [trivial |].
    intros country Hcountry Hin. apply post_ret.
    eexists _, _, country. split; [apply last_snoc |].
    split; [apply new_event_result |]. split; [apply new_event_country |].
    split; [exact Hcountry |]. split; [exact Hin | reflexivity].
  - match goal with
    | |- exists out g', ?run = Ok (out, g') /\ _ =>
        assert (match run with
                | Ok (out, _) => countries out = replicate 12 "DE" ++ ["FR"]
                | Raise _ => False
                end) as Hc by (vm_compute; reflexivity);
        destruct run as [[out g']|]; [| contradiction]
    end.
    exists out, g'. split; [reflexivity | exact Hc].
Qed.

(* ===================================================================== *)
(** * An IPv6 block below 2^32 *)
(* ===================================================================== *)

Section LowIpv6Block.
Context {G : Type} `{RandomSource G}.

(** C7, at the block [::1/128]: the network is the IPv6 network of the
    one address 1, whose text is ["::1"], and [random_ip_from_cidr]
    returns ["0.0.0.1"], the text of the IPv4 address 1, because
    [ip_address] reads an integer below [2**32] as IPv4. *)
Theorem random_ip_ipv6_loopback (g : G) :
  ip_network "::1/128" = Ok (IpNet V6 1 128)
  /\ sampling_range (IpNet V6 1 128) = (1, 1)
  /\ ip_text V6 1 = "::1"
  /\ random_ip_from_cidr "::1/128" g
     = Ok ("0.0.0.1", snd (rng_randbelow 1 g)).
Proof.
  split; [vm_compute; reflexivity |].
  split; [vm_compute; reflexivity |].
  split; [vm_compute; reflexivity |].
  unfold random_ip_from_cidr, bind, lift.
  replace (ip_network "::1/128") with (Ok (IpNet V6 1 128))
    by (vm_compute; reflexivity).
  replace (sampling_range (IpNet V6 1 128)) with (1, 1)
    by (vm_compute; reflexivity).
  unfold randint. change (0 <? 1 + 1 - 1) with true.
  change (1 + 1 - 1) with 1. cbv beta iota.
  pose proof (rng_randbelow_range 1 g ltac:(lia)) as Hk.
  destruct (rng_randbelow 1 g) as [k g']. simpl in Hk.
  assert (k = 0) as -> by lia. reflexivity.
Qed.
End LowIpv6Block.

(* ===================================================================== *)
(** * Runs of the model *)
(* ===================================================================== *)

(** The calendar bounds of a concrete run, by evaluation. *)
Ltac calendar_bounds :=
  unfold window_fits, anomalies_fit, run_fits, sample_start, sample_now,
    MAX_ORDINAL, US_PER_DAY, US_PER_SECOND; lia.

Lemma pipeline_row_count_witness :
  0 <= 2 /\ run_fits 7 sample_now
  /\ exists combined g',
       pipeline naive_sum 2 7 sample_now (replay []) = Ok (combined, g')
       /\ Z.of_nat (length combined) = 2 + 19
       /\ flagged "true" combined = 19
       /\ flagged "false" combined = 2.
Proof.
  assert (0 <= 2) as Hn by lia.
  assert (run_fits 7 sample_now) as Hfit by calendar_bounds.
  split; [exact Hn |]. split; [exact Hfit |].
  destruct (pipeline_row_count naive_sum 2 7 sample_now (replay []) Hn)
    as [Htotal Hcounts].
  destruct (Htotal Hfit) as (combined & g' & Hrun).
  exists combined, g'. split; [exact Hrun |].
  exact (Hcounts combined g' Hrun).
Defined.

Lemma failure_reason_iff_failure_witness :
  exists combined g',
    pipeline naive_sum 2 7 sample_now (replay []) = Ok (combined, g')
    /\ Forall reason_matches_result combined.
Proof.
  assert (returns (pipeline naive_sum 2 7 sample_now (replay [])) = true)
    as Hok by (vm_compute; reflexivity).
  destruct (pipeline naive_sum 2 7 sample_now (replay []))
    as [[combined g']|e] eqn:Hrun; [| discriminate Hok].
  exists combined, g'. split; [reflexivity |].
  exact (failure_reason_iff_failure naive_sum 2 7 sample_now (replay [])
           combined g' Hrun).
Defined.

Lemma normal_timestamp_reads_back_witness :
  window_fits sample_start sample_now
  /\ (sample_now - sample_start) mod US_PER_SECOND = 0
  /\ exists events g',
       generate_normal_events naive_sum build_user_profiles sample_start
         sample_now 3 (replay []) = Ok (events, g')
       /\ Forall
            (fun e =>
               exists u ts,
                 u ∈ build_user_profiles
                 /\ e !! "username" = Some (username u)
                 /\ e !! "timestamp_utc" = Some (isoformat_seconds ts)
                 /\ parse_isoformat_seconds (isoformat_seconds ts)
                    = Some (whole_second ts)
                 /\ timestamp_spec (G := Scripted) sample_start sample_now u ts
                 /\ sample_start - sample_start mod US_PER_DAY <= ts
                    < sample_now - sample_now mod US_PER_DAY + US_PER_DAY)
            events.
Proof.
  assert (window_fits sample_start sample_now) as Hfit by calendar_bounds.
  assert ((sample_now - sample_start) mod US_PER_SECOND = 0) as Hwhole
    by (vm_compute; reflexivity).
  split; [exact Hfit |]. split; [exact Hwhole |].
  exact (normal_timestamp_reads_back naive_sum sample_start sample_now 3
           (replay []) Hfit Hwhole).
Defined.

Lemma weighted_choice_first_reaching_witness :
  event_sources <> []
  /\ exists label,
       weighted_choice naive_sum event_sources (replay [500])
       = Ok (label, snd (rng_random (replay [500])))
       /\ label ∈ map fst event_sources.
Proof.
  assert (event_sources <> []) as Hne by discriminate.
  split; [exact Hne |].
  destruct (weighted_choice_first_reaching naive_sum event_sources
              (replay [500]) Hne) as (label & Hrun & Hin & _).
  exists label. split; [exact Hrun | exact Hin].
Defined.

Lemma normal_country_drawn_witness :
  window_fits sample_start sample_now
  /\ (sample_now - sample_start) mod US_PER_SECOND = 0
  /\ exists events g',
       generate_normal_events naive_sum build_user_profiles sample_start
         sample_now 3 (replay []) = Ok (events, g')
       /\ Forall (fun e => exists country,
                     e !! "country" = Some country
                     /\ country ∈ other_countries) events.
Proof.
  assert (window_fits sample_start sample_now) as Hfit by calendar_bounds.
  assert ((sample_now - sample_start) mod US_PER_SECOND = 0) as Hwhole
    by (vm_compute; reflexivity).
  split; [exact Hfit |]. split; [exact Hwhole |].
  destruct (normal_country_drawn naive_sum sample_start sample_now 3
              (replay []) Hfit Hwhole)
    as (events & g' & Hrun & Hrows & _).
  exists events, g'. split; [exact Hrun |].
  eapply Forall_impl; [exact Hrows |].
  intros e (u & country & g0 & _ & _ & Hc & _ & Hin & _).
  exists country. split; [exact Hc | exact Hin].
Defined.

(** A normal row written before the window opens: the base instant is
    [start] itself, 2024-01-08T10:30:45, and the override moves it to
    08:00:00 of that date. *)
Lemma normal_timestamp_before_window :
  sample_start <= sample_now
  /\ match generate_normal_events naive_sum build_user_profiles sample_start
             sample_now 1 (replay [0; 0; 0; 0; 0; 0]) with
     | Ok ([e], _) =>
         e !! "username" = Some "alice"
         /\ e !! "timestamp_utc" = Some "2024-01-08T08:00:00+00:00"
     | _ => False
     end
  /\ parse_isoformat_seconds "2024-01-08T08:00:00+00:00"
     = Some 63840297600000000
  /\ ~ (sample_start <= 63840297600000000 <= sample_now).
Proof.
  split; [vm_compute; discriminate |].
  split; [vm_compute; split; reflexivity |].
  split; [vm_compute; reflexivity |].
  intros [Hlow _]. vm_compute in Hlow. apply Hlow. reflexivity.
Qed.

(** The draw 0.95 is not below 0.92, the choice that follows takes the
    first listed code, "US", and that is the home country of alice; the
    same draws inside a run give a normal row of alice with country "US". *)
Lemma country_fallback_is_home :
  let alice := mkUserProfile "alice" "US" (8, 17) 0.97%float
                 ["10.10.10.0/24"; "192.168.10.0/24"] in
  alice ∈ build_user_profiles
  /\ PrimFloat.ltb (fst (rng_random (replay [950; 0]))) 0.92%float = false
  /\ sample_country alice (replay [950; 0]) = Ok (home_country alice, replay [])
  /\ match generate_normal_events naive_sum build_user_profiles sample_start
             sample_now 1 (replay [0; 0; 900; 0; 0; 0; 0; 0; 950; 0; 0]) with
     | Ok ([e], _) =>
         e !! "username" = Some "alice" /\ e !! "country" = Some "US"
     | _ => False
     end.
Proof.
  cbv zeta. split; [apply elem_of_cons; left; reflexivity |].
  split; [vm_compute; reflexivity |].
  split; [vm_compute; reflexivity |].
  vm_compute. split; reflexivity.
Qed.

(* ===================================================================== *)
(** * Edges of the sampling primitives *)
(* ===================================================================== *)

Lemma bind_ok {G A B} (m : M G A) (k : A -> M G B) g a g' :
  m g = Ok (a, g') -> bind m k g = k a g'.
Proof. intros E. unfold bind. rewrite E. reflexivity. Qed.

Lemma bind_raise {G A B} (m : M G A) (k : A -> M G B) g e :
  m g = Raise e -> bind m k g = Raise e.
Proof. intros E. unfold bind. rewrite E. reflexivity. Qed.

Lemma reversed_window_seconds start end_ :
  end_ - start <= - US_PER_SECOND -> int_total_seconds start end_ < 0.
Proof.
  unfold int_total_seconds, US_PER_SECOND. intros Hfar.
  assert (1 <= (start - end_) ÷ 1000000) as Hq
    by (apply Z.quot_le_lower_bound; lia).
  replace (end_ - start) with (- (start - end_)) by ring.
  rewrite Z.quot_opp_l by lia. lia.
Qed.

(** Where [replace(hour=, minute=, second=)] puts an instant: on the same
    date, at the given time of day, with the same microsecond. *)
Lemma replaced_fields base hour minute second :
  0 <= hour <= 23 -> 0 <= minute <= 59 -> 0 <= second <= 59 ->
  let ts := base - base mod US_PER_DAY
            + ((hour * 60 + minute) * 60 + second) * US_PER_SECOND
            + base mod US_PER_SECOND in
  ts / US_PER_DAY = base / US_PER_DAY
  /\ hms ts = (hour, minute, second)
  /\ ts mod US_PER_SECOND = base mod US_PER_SECOND.
Proof.
  intros Hh Hm Hs ts.
  set (tod := (hour * 60 + minute) * 60 + second) in *.
  assert (0 <= tod < 86400) as Htod by (subst tod; lia).
  set (us := base mod US_PER_SECOND) in *.
  assert (0 <= us < 1000000) as Hus
    by (subst us; unfold US_PER_SECOND; div_lia).
  set (day := base / US_PER_DAY).
  assert (base - base mod US_PER_DAY = day * US_PER_DAY) as Hday
    by (subst day; unfold US_PER_DAY, US_PER_SECOND; div_lia).
  assert (ts = day * US_PER_DAY + (tod * US_PER_SECOND + us)) as Ets
    by (subst ts; lia).
  assert (tod = (hour * 60 + minute) * 60 + second) as Etod by reflexivity.
  clearbody ts us day tod.
  assert (ts / US_PER_DAY = day) as Hdate
    by (unfold US_PER_DAY, US_PER_SECOND in *; div_lia).
  assert (ts mod US_PER_DAY / US_PER_SECOND = tod) as Htime
    by (unfold US_PER_DAY, US_PER_SECOND in *; div_lia).
  split; [exact Hdate |]. split.
  - unfold hms. rewrite Htime, Etod.
    f_equal; [f_equal |]; div_lia.
  - unfold US_PER_DAY, US_PER_SECOND in *. div_lia.
Qed.

Section SamplingEdges.
Context {G : Type} `{RandomSource G}.
Variable float_sum : list float -> float.

Lemma randint_empty a b (g : G) :
  b < a -> randint a b g = Raise ValueError.
Proof.
  intros Hlt. unfold randint.
  replace (0 <? b + 1 - a) with false by (symmetry; apply Z.ltb_ge; lia).
  reflexivity.
Qed.

Lemma choice_returns {A} (seq : list A) (g : G) :
  seq <> [] -> exists x g', choice seq g = Ok (x, g') /\ x ∈ seq.
Proof.
  intros Hne.
  apply (post_total (choice seq) (fun x _ => x ∈ seq) g).
  apply post_choice; [intros E; contradiction | auto].
Qed.

(** [weighted_choice] on the empty list raises [IndexError], from
    [items[-1]], whatever the draw. *)
Lemma weighted_choice_empty (g : G) :
  weighted_choice float_sum [] g = Raise IndexError.
Proof.
  unfold weighted_choice, bind, random.
  destruct (rng_random g) as [u g']. reflexivity.
Qed.

(** X1: when [end_] lies a second or more before [start],
    [random_timestamp] raises [ValueError] at its first draw, with or
    without preferred hours; nothing checks the order of the window
    before. *)
Theorem random_timestamp_reversed_window start end_ prefer (g : G) :
  end_ - start <= - US_PER_SECOND ->
  random_timestamp start end_ prefer g = Raise ValueError.
Proof.
  intros Hfar. unfold random_timestamp. apply bind_raise.
  apply randint_empty. apply reversed_window_seconds in Hfar. lia.
Qed.

(** X2: on a window of valid instants a whole number of seconds long,
    with preferred hours (if any) in order within a day,
    [random_timestamp] returns an instant on the UTC date of a base
    instant of [start, end_]: the base instant itself, always so without
    preferred hours, or an instant whose hour of day is within the
    preferred hours. *)
Theorem random_timestamp_keeps_date start end_ prefer (g : G) :
  window_fits start end_ ->
  (end_ - start) mod US_PER_SECOND = 0 ->
  (forall h_start h_end, prefer = Some (h_start, h_end) ->
                         0 <= h_start <= h_end /\ h_end <= 23) ->
  exists ts g' base,
    random_timestamp start end_ prefer g = Ok (ts, g')
    /\ start <= base <= end_
    /\ ts / US_PER_DAY = base / US_PER_DAY
    /\ ts mod US_PER_SECOND = base mod US_PER_SECOND
    /\ (ts = base
        \/ exists h_start h_end,
             prefer = Some (h_start, h_end)
             /\ h_start <= fst (fst (hms ts)) <= h_end)
    /\ (prefer = None -> ts = base).
Proof.
  intros (H0 & Hle & Hmax) _ Hprefer.
  assert (start <= end_ \/ end_ - start <= - US_PER_SECOND) as Hwin
    by (left; exact Hle).
  cut (post False (random_timestamp start end_ prefer)
         (fun ts _ =>
            exists base,
              start <= base <= end_
              /\ ts / US_PER_DAY = base / US_PER_DAY
              /\ ts mod US_PER_SECOND = base mod US_PER_SECOND
              /\ (ts = base
                  \/ exists h_start h_end,
                       prefer = Some (h_start, h_end)
                       /\ h_start <= fst (fst (hms ts)) <= h_end)
              /\ (prefer = None -> ts = base)) g).
  { intros Hpost. apply post_total in Hpost
      as (ts & g' & Hrun & base & Hpost).
    exists ts, g', base. split; [exact Hrun | exact Hpost]. }
  unfold random_timestamp.
  apply post_bind, post_randint.
  { intros Hneg. unfold int_total_seconds, US_PER_SECOND in Hneg.
    pose proof (Z.quot_pos (end_ - start) 1000000 ltac:(lia) ltac:(lia)).
    lia. }
  intros offset g1 Hoff.
  pose proof (whole_seconds_within start end_ offset Hwin Hoff) as Hbase.
  apply post_bind, post_timedelta.
  { left. rewrite span_seconds. revert Hbase H0 Hmax.
    unfold seconds, MAX_ORDINAL, US_PER_DAY, US_PER_SECOND. lia. }
  rewrite span_seconds.
  apply post_bind, post_datetime_add; [left; lia |].
  set (base := start + seconds offset) in *.
  destruct prefer as [[h_start h_end]|].
  - destruct (Hprefer h_start h_end eq_refl) as [Hhours H23].
    apply post_bind, post_random.
    destruct (PrimFloat.ltb (fst (rng_random g1)) 0.8%float).
    + apply post_bind, post_randint; [lia |]. intros hour g2 Hhour.
      apply post_bind, post_randint; [lia |]. intros minute g3 Hminute.
      apply post_bind, post_randint; [lia |]. intros second g4 Hsecond.
      apply post_lift. unfold datetime_replace.
      replace ((0 <=? hour) && (hour <=? 23) && (0 <=? minute)
               && (minute <=? 59) && (0 <=? second) && (second <=? 59))
        with true
        by (symmetry; repeat (apply andb_true_iff; split);
            apply Z.leb_le; lia).
      destruct (replaced_fields base hour minute second
                  ltac:(lia) Hminute Hsecond) as (Hdate & Hhms & Hus).
      exists base. split; [exact Hbase |]. split; [exact Hdate |].
      split; [exact Hus |]. split; [| discriminate].
      right. exists h_start, h_end. split; [reflexivity |].
      rewrite Hhms. simpl. exact Hhour.
    + apply post_ret. exists base. repeat split; auto; lia.
  - apply post_ret. exists base. repeat split; auto; lia.
Qed.
End SamplingEdges.

(* ===================================================================== *)
(** * Arguments nothing validates *)
(* ===================================================================== *)

Lemma range_nonpositive n : n <= 0 -> range n = [].
Proof.
  intros Hn. unfold range.
  replace (Z.to_nat n) with 0%nat by lia. reflexivity.
Qed.

Lemma range_positive n : 1 <= n -> exists rest, range n = 0 :: rest.
Proof.
  intros Hn. unfold range.
  destruct (Z.to_nat n) as [|k] eqn:E; [lia |].
  simpl. eexists. reflexivity.
Qed.

Section UncheckedArguments.
Context {G : Type} `{RandomSource G}.
Variable float_sum : list float -> float.

(** X3: with one row or more to generate and a negative [days], the run
    ends in [ValueError]: the window is reversed and the first timestamp
    draw has an empty range.  (The instants involved are taken within
    the calendar, so that no [OverflowError] comes first.) *)
Theorem pipeline_negative_days (n days_ now : Z) (g : G) :
  1 <= n ->
  days_ < 0 ->
  0 <= now ->
  now - days_ * US_PER_DAY < MAX_ORDINAL * US_PER_DAY ->
  pipeline float_sum n days_ now g = Raise ValueError.
Proof.
  intros Hn Hdays Hnow Hmax. unfold pipeline.
  assert (span days_ 0 0 0 = days_ * US_PER_DAY) as Hspan
    by (unfold span, hours, minutes, seconds; lia).
  assert (timedelta days_ 0 0 0 = Ok (days_ * US_PER_DAY)) as Htd.
  { rewrite <- Hspan. apply timedelta_ok. rewrite Hspan.
    revert Hmax Hnow Hdays.
    unfold MAX_ORDINAL, US_PER_DAY, US_PER_SECOND. lia. }
  assert (datetime_sub now (days_ * US_PER_DAY)
          = Ok (now - days_ * US_PER_DAY)) as Hsub.
  { unfold datetime_sub.
    replace (valid_datetime (now - days_ * US_PER_DAY)) with true;
      [reflexivity |].
    symmetry. apply valid_datetime_iff. revert Hmax Hnow Hdays.
    unfold MAX_ORDINAL, US_PER_DAY, US_PER_SECOND. lia. }
  rewrite (bind_ok _ _ g (days_ * US_PER_DAY) g)
    by (unfold lift; rewrite Htd; reflexivity).
  rewrite (bind_ok _ _ g (now - days_ * US_PER_DAY) g)
    by (unfold lift; rewrite Hsub; reflexivity).
  apply bind_raise. unfold generate_normal_events.
  destruct (range_positive n Hn) as [rest ->]. simpl for_each.
  apply bind_raise, bind_raise. unfold normal_event.
  destruct (choice_returns build_user_profiles g ltac:(discriminate))
    as (u & g1 & Hchoice & _).
  rewrite (bind_ok _ _ g u g1 Hchoice).
  apply bind_raise. unfold random_timestamp.
  apply bind_raise, randint_empty.
  assert (now - (now - days_ * US_PER_DAY) <= - US_PER_SECOND) as Hfar
    by (revert Hdays; unfold US_PER_DAY, US_PER_SECOND; lia).
  apply reversed_window_seconds in Hfar. lia.
Qed.

Lemma post_pipeline_no_rows R n days_ now (g : G) :
  n <= 0 ->
  (0 <= now < MAX_ORDINAL * US_PER_DAY
   /\ anomalies_fit (now - days_ * US_PER_DAY)) \/ R ->
  post R (pipeline float_sum n days_ now)
    (fun combined _ =>
       exists anomalies,
         anomalies_spec (G := G) (now - days_ * US_PER_DAY) anomalies
         /\ combined ≡ₚ map (tag "true") anomalies) g.
Proof.
  intros Hn Hfit. unfold pipeline.
  assert (span days_ 0 0 0 = days_ * US_PER_DAY) as Hspan
    by (unfold span, hours, minutes, seconds; lia).
  apply post_bind, post_timedelta.
  { destruct Hfit as [[Hnow Hfit] | HR]; [left | right; exact HR].
    rewrite Hspan. revert Hnow Hfit.
    unfold anomalies_fit, MAX_ORDINAL, US_PER_DAY, US_PER_SECOND. lia. }
  rewrite Hspan.
  apply post_bind, post_datetime_sub.
  { destruct Hfit as [[Hnow Hfit] | HR]; [left | right; exact HR].
    revert Hnow Hfit.
    unfold anomalies_fit, MAX_ORDINAL, US_PER_DAY, US_PER_SECOND. lia. }
  unfold generate_normal_events. rewrite (range_nonpositive n Hn).
  simpl for_each. apply post_bind, post_ret.
  eapply post_mono; [| apply post_inject_anomalies].
  - intros combined g' (anomalies & Hspec & Hperm).
    exists anomalies. split; [exact Hspec | exact Hperm].
  - destruct Hfit as [[_ Hfit] | HR]; [left; exact Hfit | right; exact HR].
Qed.

(** X4: with [rows <= 0] no normal row is generated and the dataset is
    the 19 injected rows alone, all flagged ["true"]; the order of the
    window is then never looked at, so the run returns for a negative
    [days] as well, as long as the injected rows fit the calendar. *)
Theorem pipeline_no_rows (n days_ now : Z) (g : G) :
  n <= 0 ->
  (0 <= now < MAX_ORDINAL * US_PER_DAY ->
   anomalies_fit (now - days_ * US_PER_DAY) ->
   exists combined g', pipeline float_sum n days_ now g = Ok (combined, g'))
  /\ (forall combined g',
        pipeline float_sum n days_ now g = Ok (combined, g') ->
        length combined = 19%nat
        /\ flagged "true" combined = 19
        /\ flagged "false" combined = 0).
Proof.
  intros Hn. split.
  - intros Hnow Hfit.
    destruct (post_total _ _ g
                (post_pipeline_no_rows False n days_ now g Hn
                   (or_introl (conj Hnow Hfit))))
      as (combined & g' & Hrun & _).
    exists combined, g'. exact Hrun.
  - intros combined g' Hrun.
    destruct (post_partial _ _ g
                (post_pipeline_no_rows True n days_ now g Hn (or_intror I))
                combined g' Hrun) as (anomalies & Hspec & Hperm).
    apply anomalies_length in Hspec.
    rewrite !(flagged_permutation _ _ _ Hperm), !flagged_tagged.
    rewrite Hperm, length_map, Hspec. simpl. auto.
Qed.

End UncheckedArguments.

(* ===================================================================== *)
(** * The other injected scenarios and the instants of all of them *)
(* ===================================================================== *)

Lemma hour_after_three_hours start m :
  0 <= m <= 59 ->
  3 * 3600 <= start mod US_PER_DAY / US_PER_SECOND < 12 * 3600 ->
  6 <= fst (fst (hms (start + span 2 3 m 0))) <= 15.
Proof.
  intros Hm Htod. unfold hms, span, hours, minutes, seconds. simpl fst.
  unfold US_PER_DAY, US_PER_SECOND in *.
  set (tod := start mod (86400 * 1000000) / 1000000) in *.
  assert (exists day us, start = day * (86400 * 1000000) + tod * 1000000 + us
                         /\ 0 <= us < 1000000) as (day & us & Estart & Hus).
  { exists (start / (86400 * 1000000)), (start mod 1000000).
    subst tod. div_lia. }
  clearbody tod.
  assert ((start + (2 * (86400 * 1000000) + 3 * 3600 * 1000000
                    + m * 60 * 1000000 + 0 * 1000000))
            mod (86400 * 1000000) / 1000000
          = tod + 3 * 3600 + m * 60) as -> by div_lia.
  div_lia.
Qed.

Section OtherScenarios.
Context {G : Type} `{RandomSource G}.

Lemma stamped_new_event t user src auth ip country result_ reason :
  valid_datetime t = true ->
  stamped (new_event (isoformat_seconds t) user src auth ip country result_
             reason) t.
Proof.
  intros Hvalid. split; [reflexivity |].
  apply parse_isoformat_seconds_written, Hvalid.
Qed.

(** X9: each of the 19 injected rows is stamped with an instant from 10
    hours to 90 hours and 13 minutes after [start], whatever the length
    of the window: with a window shorter than that, injected rows fall
    after its end. *)
Theorem injected_instants (start : Z) (g : G) :
  anomalies_fit start ->
  exists anomalies g',
    build_anomalies start g = Ok (anomalies, g')
    /\ length anomalies = 19%nat
    /\ Forall (fun e => exists t,
                 stamped e t
                 /\ start + hours 10 <= t <= start + hours 90 + minutes 13)
              anomalies.
Proof.
  intros Hfit.
  destruct (post_total _ _ g
              (post_build_anomalies False start g (or_introl Hfit)))
    as (anomalies & g' & Hrun & Hspec).
  exists anomalies, g'. split; [exact Hrun |].
  split; [exact (anomalies_length _ _ Hspec) |].
  assert (forall t user src auth ip country result_ reason,
            start + hours 10 <= t <= start + hours 90 + minutes 13 ->
            exists t',
              stamped (new_event (isoformat_seconds t) user src auth ip
                         country result_ reason) t'
              /\ start + hours 10 <= t' <= start + hours 90 + minutes 13)
    as Hrow.
  { intros t user src auth ip country result_ reason Ht.
    exists t. split; [| exact Ht].
    apply stamped_new_event, valid_datetime_iff.
    revert Hfit Ht.
    unfold anomalies_fit, hours, minutes, MAX_ORDINAL, US_PER_DAY,
      US_PER_SECOND. lia. }
  destruct Hspec as (alice_rows & bob_rows & brute_rows & off & svc
                     & Halice & Hbob & Hbrute & Hoff & Hsvc & ->).
  destruct Halice as (ha & ma & ? & ? & Hha & Hma & _ & _ & ->).
  destruct Hbob as (hb & mb & ? & ? & Hhb & Hmb & _ & _ & ->).
  destruct Hbrute as (h & ? & fails & ? & Hh & _ & Hlen & _ & _ & ->).
  destruct Hoff as (mo & ? & Hmo & _ & ->).
  destruct Hsvc as (ms & ? & Hms & _ & ->).
  unfold travel_rows, brute_success_row, off_hours_row, service_account_row.
  repeat first
    [ apply Forall_app_2
    | apply Forall_nil_2
    | apply Forall_cons_2;
      [ apply Hrow;
        unfold span, hours, minutes, seconds, US_PER_DAY, US_PER_SECOND; lia
      | ] ].
  apply Forall_forall. intros e He.
  apply elem_of_lookup_zip_with in He as (k & i & f & -> & Hi & _).
  unfold brute_failure_row. apply Hrow.
  assert (0 <= i <= 11) as Hi'.
  { apply list_elem_of_lookup_2 in Hi. unfold range in Hi.
    apply list_elem_of_fmap in Hi as (j & -> & Hj).
    apply elem_of_seq in Hj. simpl in Hj. lia. }
  unfold hours, minutes, US_PER_SECOND. lia.
Qed.
End OtherScenarios.

(* ===================================================================== *)
(** * The rows of a dataset and the table written from them *)
(* ===================================================================== *)

Lemma tagged_fieldnames value ts user src auth ip country result_ reason :
  has_fieldnames
    (tag value (new_event ts user src auth ip country result_ reason)).
Proof.
  intros k. unfold tag, new_event, fieldnames.
  rewrite !lookup_insert_is_Some, lookup_empty, !elem_of_cons, elem_of_nil.
  split.
  - intros Hk.
    repeat (destruct Hk as [<- | [_ Hk]]; [tauto |]).
    destruct Hk as [? Hk]. discriminate Hk.
  - intros Hk.
    destruct (decide ("is_injected_anomaly" = k)); [left; assumption |].
    right. split; [assumption |].
    destruct (decide ("failure_reason" = k)); [left; assumption |].
    right. split; [assumption |].
    destruct (decide ("result" = k)); [left; assumption |].
    right. split; [assumption |].
    destruct (decide ("country" = k)); [left; assumption |].
    right. split; [assumption |].
    destruct (decide ("source_ip" = k)); [left; assumption |].
    right. split; [assumption |].
    destruct (decide ("auth_type" = k)); [left; assumption |].
    right. split; [assumption |].
    destruct (decide ("event_source" = k)); [left; assumption |].
    right. split; [assumption |].
    destruct (decide ("username" = k)); [left; assumption |].
    right. split; [assumption |].
    destruct (decide ("timestamp_utc" = k)); [left; assumption |].
    exfalso. intuition auto.
Qed.

Lemma shaped_fieldnames value e :
  row_shape e -> has_fieldnames (tag value e).
Proof.
  intros (ts & user & src & auth & ip & country & result_ & reason & -> & _).
  apply tagged_fieldnames.
Qed.

Section DatasetRows.
Context {G : Type} `{RandomSource G}.

Lemma combined_fieldnames n start end_ (combined : list event) :
  combined_spec (G := G) n start end_ combined ->
  Forall has_fieldnames combined.
Proof.
  intros (normal & anomalies & _ & Hrows & Hspec & Hperm).
  rewrite Hperm. apply Forall_app. split; apply Forall_fmap.
  - eapply Forall_impl; [exact Hrows |].
    intros e He. apply shaped_fieldnames, (normal_row_shape _ _ _ He).
  - eapply Forall_impl; [apply (anomalies_shape _ _ Hspec) |].
    intros e He. apply shaped_fieldnames, He.
Qed.
End DatasetRows.

Lemma fieldnames_line (r1 r2 : event) :
  has_fieldnames r1 -> has_fieldnames r2 ->
  map (fun k => field k r1) fieldnames = map (fun k => field k r2) fieldnames ->
  r1 = r2.
Proof.
  intros H1 H2 Hline. apply map_eq. intros k.
  destruct (decide (k ∈ fieldnames)) as [Hk | Hk].
  - assert (field k r1 = field k r2) as Hfield.
    { clear H1 H2. revert Hline Hk. generalize fieldnames.
      intros names. induction names as [|k' names IH]; intros Hline Hk.
      - inversion Hk.
      - injection Hline as Hhead Htail.
        apply elem_of_cons in Hk as [-> | Hk]; [exact Hhead | auto]. }
    destruct (proj2 (H1 k) Hk) as [v1 E1].
    destruct (proj2 (H2 k) Hk) as [v2 E2].
    unfold field in Hfield. rewrite E1, E2 in Hfield |- *.
    simpl in Hfield. rewrite Hfield. reflexivity.
  - destruct (r1 !! k) as [v1|] eqn:E1.
    { exfalso. apply Hk, H1. rewrite E1. eauto. }
    destruct (r2 !! k) as [v2|] eqn:E2.
    { exfalso. apply Hk, H2. rewrite E2. eauto. }
    reflexivity.
Qed.

(** X10: the table written from rows that carry exactly the nine field
    names determines the rows: two such lists of rows that write the
    same table are equal, so nothing of a dataset is lost on writing. *)
Theorem write_csv_lossless (rows1 rows2 : list event) :
  Forall has_fieldnames rows1 ->
  Forall has_fieldnames rows2 ->
  write_csv rows1 = write_csv rows2 ->
  rows1 = rows2.
Proof.
  unfold write_csv. intros H1 H2 Htable.
  remember (fun r : event => map (fun k => field k r) fieldnames) as line
    eqn:Eline.
  injection Htable as Hlines.
  revert rows2 H2 Hlines.
  induction H1 as [|r1 rows1 Hr1 _ IH]; intros rows2 H2 Hlines.
  - destruct rows2; [reflexivity | discriminate Hlines].
  - destruct H2 as [|r2 rows2 Hr2 H2]; [discriminate Hlines |].
    cbn [map] in Hlines. injection Hlines as Hline Hlines.
    f_equal; [| apply IH; assumption].
    rewrite Eline in Hline. apply fieldnames_line; assumption.
Qed.

Lemma written_line_count (rows_ : list event) :
  length (write_csv rows_) = S (length rows_)
  /\ head (write_csv rows_) = Some fieldnames
  /\ Forall (fun line => length line = 9%nat) (write_csv rows_).
Proof.
  unfold write_csv. split; [simpl; rewrite length_map; reflexivity |].
  split; [reflexivity |].
  apply Forall_cons_2; [reflexivity |].
  apply Forall_forall. intros line Hline.
  apply list_elem_of_fmap in Hline as (r & -> & _). reflexivity.
Qed.

Lemma flagged_lines_written value (rows_ : list event) :
  value <> "is_injected_anomaly" ->
  Forall has_fieldnames rows_ ->
  flagged_lines value (write_csv rows_) = flagged value rows_.
Proof.
  intros Hvalue Hrows. unfold flagged_lines, flagged, write_csv.
  rewrite filter_cons_False.
  2: { intros Hcell. injection Hcell as Hcell. symmetry in Hcell.
       contradiction. }
  f_equal.
  induction Hrows as [|r rows_ Hr _ IH]; [reflexivity |].
  cbn [map].
  assert (is_Some (r !! "is_injected_anomaly")) as [v Hv].
  { apply Hr. unfold fieldnames. rewrite !elem_of_cons. tauto. }
  rewrite !filter_cons.
  assert (map (fun k => field k r) fieldnames !! 8%nat = Some v) as Hcell.
  { unfold fieldnames, field. simpl. rewrite Hv. reflexivity. }
  destruct (decide (map (fun k => field k r) fieldnames !! 8%nat
                    = Some value)) as [E1 | E1];
    destruct (decide (r !! "is_injected_anomaly" = Some value)) as [E2 | E2];
    cbn [length]; rewrite ?IH; try reflexivity; exfalso;
    rewrite Hcell in E1; rewrite Hv in E2; contradiction.
Qed.

Lemma profiled_iff name :
  profiled name <-> name ∈ ["alice"; "bob"; "carol"; "dave"; "svc_backup"].
Proof.
  change ["alice"; "bob"; "carol"; "dave"; "svc_backup"]
    with (username <$> build_user_profiles).
  rewrite list_elem_of_fmap. unfold profiled.
  split; intros (u & Hu & Hname); exists u; split; auto.
Qed.

Section DatasetClaims.
Context {G : Type} `{RandomSource G}.
Variable float_sum : list float -> float.

(** X11: every row of the dataset of a run carries exactly the nine
    field names of the table: the user agent drawn for a normal row is
    not part of it, and [setdefault] in [write_csv] has nothing to add. *)
Theorem dataset_rows_have_fieldnames (n days_ now : Z) (g : G)
    (combined : list event) (g' : G) :
  pipeline float_sum n days_ now g = Ok (combined, g') ->
  Forall has_fieldnames combined.
Proof.
  intros Hrun.
  apply (combined_fieldnames n (now - days_ * US_PER_DAY) now).
  apply (post_partial _ _ g
           (post_pipeline float_sum True n days_ now g (or_intror I))
           combined g' Hrun).
Qed.

(** X13: every row of the dataset flagged ["false"] belongs to one of
    the five profiles: its username is the profile's, its address lies
    in one of the known blocks of that profile, and its event source
    and authentication type are among the three labels of each kind. *)
Theorem normal_rows_follow_profile (n days_ now : Z) (g : G)
    (combined : list event) (g' : G) :
  pipeline float_sum n days_ now g = Ok (combined, g') ->
  forall e, e ∈ combined ->
    e !! "is_injected_anomaly" = Some "false" ->
    exists u block,
      u ∈ build_user_profiles
      /\ block ∈ known_ip_blocks u
      /\ e !! "username" = Some (username u)
      /\ in_block block (field "source_ip" e)
      /\ field "event_source" e ∈ ["linux-sshd"; "windows-ad"; "vpn-gateway"]
      /\ field "auth_type" e ∈ ["password"; "ssh_key"; "mfa_push"].
Proof.
  intros Hrun e He Hflag.
  pose proof (post_partial _ _ g
                (post_pipeline float_sum True n days_ now g (or_intror I))
                combined g' Hrun) as Hspec.
  destruct Hspec as (normal & anomalies & _ & Hrows & _ & Hperm).
  rewrite Hperm in He. apply elem_of_app in He as [He | He];
    apply list_elem_of_fmap in He as (r & -> & Hr).
  - rewrite Forall_forall in Hrows.
    destruct (Hrows r Hr)
      as (u & ts & src & auth & ip & country & result_ & reason
          & Hu & _ & Hsrc & Hauth & (block & Hblock & Hip) & _ & _ & ->).
    exists u, block. repeat split; assumption.
  - unfold tag in Hflag. rewrite lookup_insert_eq in Hflag.
    discriminate Hflag.
Qed.

End DatasetClaims.

(* ===================================================================== *)
(** * The text of an address and the blocks it can come from *)
(* ===================================================================== *)

Lemma str_split_no_sep sep s :
  contains_char sep s = false -> str_split sep s = [s].
Proof.
  induction s as [|c s IH]; [reflexivity |]. simpl.
  intros Hc. apply orb_false_iff in Hc as [Hsep Hc].
  rewrite Ascii.eqb_sym, Hsep, (IH Hc). reflexivity.
Qed.

Lemma str_split_append sep s t :
  contains_char sep s = false ->
  str_split sep (s +:+ String sep t) = s :: str_split sep t.
Proof.
  induction s as [|c s IH]; simpl.
  - intros _. rewrite Ascii.eqb_refl. reflexivity.
  - intros Hc. apply orb_false_iff in Hc as [Hsep Hc].
    rewrite Ascii.eqb_sym, Hsep, (IH Hc). reflexivity.
Qed.

Lemma octets_checked : forallb octet_check (range 256) = true.
Proof. vm_compute. reflexivity. Qed.

Lemma octet_text o :
  0 <= o < 256 ->
  contains_char "." (str_int o) = false
  /\ parse_octet (str_int o) = Some o.
Proof.
  intros Ho. pose proof (forallb_range _ _ octets_checked o Ho) as Hc.
  unfold octet_check in Hc. apply andb_true_iff in Hc as [Hdot Hparse].
  apply negb_true_iff in Hdot. apply bool_decide_eq_true in Hparse.
  auto.
Qed.

Lemma octet_of_address a k :
  0 <= k ->
  Z.land (Z.shiftr a (8 * k)) 255 = a / 2 ^ (8 * k) mod 256.
Proof.
  intros Hk. change 255 with (Z.ones 8).
  rewrite Z.land_ones, Z.shiftr_div_pow2 by lia. reflexivity.
Qed.

Lemma ipv4_text_parsed a :
  0 <= a <= all_ones V4 -> ipv4_of_string (ipv4_text a) = Some a.
Proof.
  intros Ha. unfold all_ones in Ha. simpl in Ha.
  unfold ipv4_text. cbn [map str_join].
  rewrite !octet_of_address by lia.
  change (2 ^ (8 * 3)) with 16777216. change (2 ^ (8 * 2)) with 65536.
  change (2 ^ (8 * 1)) with 256. change (2 ^ (8 * 0)) with 1.
  set (o3 := a / 16777216 mod 256). set (o2 := a / 65536 mod 256).
  set (o1 := a / 256 mod 256). set (o0 := a / 1 mod 256).
  assert (0 <= o3 < 256) as H3 by (subst o3; apply Z.mod_pos_bound; lia).
  assert (0 <= o2 < 256) as H2 by (subst o2; apply Z.mod_pos_bound; lia).
  assert (0 <= o1 < 256) as H1 by (subst o1; apply Z.mod_pos_bound; lia).
  assert (0 <= o0 < 256) as H0 by (subst o0; apply Z.mod_pos_bound; lia).
  assert (((o3 * 256 + o2) * 256 + o1) * 256 + o0 = a) as Hvalue
    by (subst o3 o2 o1 o0; div_lia).
  destruct (octet_text o3 H3) as [D3 P3]. destruct (octet_text o2 H2) as [D2 P2].
  destruct (octet_text o1 H1) as [D1 P1]. destruct (octet_text o0 H0) as [D0 P0].
  clearbody o3 o2 o1 o0.
  unfold ipv4_of_string.
  assert (forall s, "." +:+ s = String "." s) as Hdot by reflexivity.
  rewrite !Hdot.
  assert (forall s t, String.eqb (s +:+ String "." t) "" = false) as Hne
    by (intros [|c s] t; reflexivity).
  rewrite Hne.
  rewrite !(str_split_append "."), (str_split_no_sep ".") by assumption.
  rewrite P3, P2, P1, P0, Hvalue. reflexivity.
Qed.

Lemma land_le_r x y : 0 <= y -> Z.land x y <= y.
Proof.
  intros Hy. pose proof (Z.sub_land_same_l y x) as E.
  assert (0 <= Z.land y (Z.lnot x)) by (apply Z.land_nonneg; left; exact Hy).
  rewrite (Z.land_comm x y). lia.
Qed.

Lemma masks_checked : forallb mask_check (range 33) = true.
Proof. vm_compute. reflexivity. Qed.

(** The network that [strict=False] makes of an address and a prefix
    length: the address with its low [32 - p] bits cleared, and the
    broadcast address with these bits set. *)
Lemma masked_net_v4 addr p :
  0 <= addr <= all_ones V4 -> 0 <= p <= 32 ->
  let net := masked_net V4 addr p in
  let size := 2 ^ (32 - p) in
  network_address net = addr - addr mod size
  /\ broadcast_address net = network_address net + size - 1.
Proof.
  intros Haddr Hp. cbv zeta.
  pose proof (forallb_range _ _ masks_checked p ltac:(lia)) as Hc.
  unfold mask_check in Hc. apply andb_true_iff in Hc as [Hshift Hxor].
  apply Z.eqb_eq in Hshift, Hxor.
  assert (0 < 2 ^ (32 - p)) as Hsize by (apply Z.pow_pos_nonneg; lia).
  unfold all_ones in Haddr. simpl in Haddr.
  assert (Z.land addr (Z.lxor (all_ones V4) (Z.ones (32 - p)))
          = addr - addr mod 2 ^ (32 - p)) as Hnet.
  { rewrite Hxor, Z.land_assoc, (Z.land_ones addr 32) by lia.
    rewrite (Z.mod_small addr) by lia.
    rewrite <- (Z.land_ones addr (32 - p)) by lia.
    symmetry. apply Z.sub_land_same_l. }
  unfold masked_net. unfold broadcast_address, hostmask, netmask.
  cbn [net_version network_address prefixlen].
  rewrite !Hshift, !Hnet. split; [reflexivity |].
  rewrite Z.lxor_assoc, (Z.lxor_comm (Z.ones _)), <- Z.lxor_assoc.
  rewrite Z.lxor_nilpotent, Z.lxor_0_l.
  pose proof (Z.add_lor_land (addr - addr mod 2 ^ (32 - p)) (Z.ones (32 - p)))
    as Hadd.
  rewrite (Z.land_ones _ (32 - p)) in Hadd by lia.
  rewrite Z.ones_equiv in Hadd |- *.
  assert ((addr - addr mod 2 ^ (32 - p)) mod 2 ^ (32 - p) = 0) as Hzero.
  { rewrite Zminus_mod, Z.mod_mod, Z.sub_diag by lia. apply Z.mod_0_l. lia. }
  lia.
Qed.

Lemma parse_digits_nonneg value base s : forall acc v,
  (forall c d, value c = Some d -> 0 <= d) ->
  0 <= base -> 0 <= acc ->
  parse_digits value base acc s = Some v -> 0 <= v.
Proof.
  induction s as [|c s IH]; simpl; intros acc v Hvalue Hbase Hacc Hparse.
  - injection Hparse as <-. exact Hacc.
  - destruct (value c) as [d|] eqn:Ed; [| discriminate Hparse].
    apply (IH (acc * base + d) v Hvalue Hbase); [| exact Hparse].
    pose proof (Hvalue c d Ed). nia.
Qed.

Lemma digit_value_nonneg c d : digit_value c = Some d -> 0 <= d.
Proof.
  unfold digit_value. destruct (_ && _) eqn:E; [| discriminate].
  intros Hd. injection Hd as <-.
  apply andb_true_iff in E as [E _]. apply Z.leb_le in E. lia.
Qed.

Lemma parse_octet_range s v : parse_octet s = Some v -> 0 <= v <= 255.
Proof.
  unfold parse_octet. destruct s as [|c0 s]; [discriminate |].
  destruct (parse_digits _ _ _ _) as [w|] eqn:Ew; [| discriminate].
  destruct (_ <? _)%nat; [discriminate |].
  destruct (_ && _); [discriminate |].
  destruct (255 <? w) eqn:E; [discriminate |].
  intros Hv. injection Hv as <-. apply Z.ltb_ge in E.
  split; [| exact E].
  eapply (parse_digits_nonneg digit_value 10 _ 0);
    [apply digit_value_nonneg | lia | lia | exact Ew].
Qed.

Lemma ipv4_of_string_range s a :
  ipv4_of_string s = Some a -> 0 <= a <= all_ones V4.
Proof.
  unfold ipv4_of_string. destruct (String.eqb s ""); [discriminate |].
  destruct (str_split "." s) as [|a3 [|a2 [|a1 [|a0 [|? ?]]]]];
    try discriminate.
  destruct (parse_octet a3) as [o3|] eqn:E3; [| discriminate].
  destruct (parse_octet a2) as [o2|] eqn:E2; [| discriminate].
  destruct (parse_octet a1) as [o1|] eqn:E1; [| discriminate].
  destruct (parse_octet a0) as [o0|] eqn:E0; [| discriminate].
  apply parse_octet_range in E3, E2, E1, E0.
  intros Ha. injection Ha as <-. unfold all_ones. simpl. lia.
Qed.

Lemma prefix_of_ip_int_range mask p :
  prefix_of_ip_int V4 mask = Some p -> 0 <= p <= 32.
Proof.
  unfold prefix_of_ip_int. intros Hfind.
  apply find_some in Hfind as [Hin _].
  apply in_map_iff in Hin as (k & <- & Hk). apply in_seq in Hk.
  simpl in Hk. lia.
Qed.

Lemma ipv4_prefix_range s p : ipv4_prefix s = Some p -> 0 <= p <= 32.
Proof.
  unfold ipv4_prefix, prefix_of_prefix_string, prefix_of_ip_string.
  destruct s as [|c s].
  - destruct (ipv4_of_string "") as [mask|]; [| discriminate].
    destruct (prefix_of_ip_int V4 mask) as [q|] eqn:Eq.
    + intros Hp. injection Hp as <-. exact (prefix_of_ip_int_range _ _ Eq).
    + apply prefix_of_ip_int_range.
  - destruct (parse_digits digit_value 10 0 (String c s)) as [q|] eqn:Eq.
    + destruct (q <=? max_prefixlen V4) eqn:Ele.
      * intros Hp. injection Hp as <-. apply Z.leb_le in Ele.
        simpl in Ele. split; [| exact Ele].
        eapply (parse_digits_nonneg digit_value 10 _ 0);
          [apply digit_value_nonneg | lia | lia | exact Eq].
      * destruct (ipv4_of_string (String c s)) as [mask|]; [| discriminate].
        destruct (prefix_of_ip_int V4 mask) as [r|] eqn:Er.
        -- intros Hp. injection Hp as <-.
           exact (prefix_of_ip_int_range _ _ Er).
        -- apply prefix_of_ip_int_range.
    + destruct (ipv4_of_string (String c s)) as [mask|]; [| discriminate].
      destruct (prefix_of_ip_int V4 mask) as [r|] eqn:Er.
      * intros Hp. injection Hp as <-.
        exact (prefix_of_ip_int_range _ _ Er).
      * apply prefix_of_ip_int_range.
Qed.

Lemma ipv4_network_masked cidr net :
  ipv4_network cidr = Some net ->
  exists addr p,
    0 <= addr <= all_ones V4 /\ 0 <= p <= 32 /\ net = masked_net V4 addr p.
Proof.
  unfold ipv4_network.
  destruct (str_split "/" cidr) as [|a [|m [|? ?]]]; try discriminate.
  - destruct (ipv4_of_string a) as [addr|] eqn:Ea; [| discriminate].
    intros Hnet. injection Hnet as <-. exists addr, 32.
    split; [exact (ipv4_of_string_range _ _ Ea) |]. split; [lia | reflexivity].
  - destruct (ipv4_of_string a) as [addr|] eqn:Ea; [| discriminate].
    destruct (ipv4_prefix m) as [p|] eqn:Ep; [| discriminate].
    intros Hnet. injection Hnet as <-. exists addr, p.
    split; [exact (ipv4_of_string_range _ _ Ea) |].
    split; [exact (ipv4_prefix_range _ _ Ep) | reflexivity].
Qed.

Lemma ipv6_network_version cidr net :
  ipv6_network cidr = Some net -> is_v4 net = false.
Proof.
  unfold ipv6_network.
  destruct (str_split "/" cidr) as [|a [|m [|? ?]]]; try discriminate.
  - destruct (match split_scope_id a with Some _ => _ | None => _ end);
      [| discriminate].
    intros Hnet. injection Hnet as <-. reflexivity.
  - destruct (match split_scope_id a with Some _ => _ | None => _ end);
      [| discriminate].
    destruct (prefix_of_prefix_string V6 m); [| discriminate].
    intros Hnet. injection Hnet as <-. reflexivity.
Qed.

Lemma ip_network_v4 cidr net :
  ip_network cidr = Ok net -> is_v4 net = true ->
  exists addr p,
    0 <= addr <= all_ones V4 /\ 0 <= p <= 32 /\ net = masked_net V4 addr p.
Proof.
  unfold ip_network. intros Hnet Hv4.
  destruct (ipv4_network cidr) as [n|] eqn:E4.
  - injection Hnet as <-. exact (ipv4_network_masked _ _ E4).
  - destruct (ipv6_network cidr) as [n|] eqn:E6; [| discriminate Hnet].
    injection Hnet as <-. apply ipv6_network_version in E6.
    rewrite E6 in Hv4. discriminate Hv4.
Qed.

Section AnyBlock.
Context {G : Type} `{RandomSource G}.

(** X15: for every text that [ip_network] reads as an IPv4 network, of
    prefix length [p], the network is aligned to its size [2^(32-p)]
    and lies within 32 bits, and [random_ip_from_cidr] returns the
    dotted text of an address of that network, other than the network
    and the broadcast address when the size is above 2; the text
    parses back to the address. *)
Theorem random_ip_any_v4_block (cidr : string) (net : ip_net) (g : G) :
  ip_network cidr = Ok net ->
  is_v4 net = true ->
  let size := 2 ^ (32 - prefixlen net) in
  0 <= prefixlen net <= 32
  /\ network_address net mod size = 0
  /\ 0 <= network_address net /\ network_address net + size <= 2 ^ 32
  /\ exists a g',
       random_ip_from_cidr cidr g = Ok (ipv4_text a, g')
       /\ network_address net <= a < network_address net + size
       /\ (2 < size ->
           network_address net < a < network_address net + size - 1)
       /\ ipv4_of_string (ipv4_text a) = Some a.
Proof.
  intros Hnet Hv4. cbv zeta.
  destruct (ip_network_v4 _ _ Hnet Hv4) as (addr & p & Haddr & Hp & Enet).
  destruct (masked_net_v4 addr p Haddr Hp) as [Hlow Hhigh].
  rewrite <- Enet in Hlow, Hhigh.
  assert (prefixlen net = p) as Hlen by (rewrite Enet; reflexivity).
  rewrite Hlen.
  assert (0 < 2 ^ (32 - p)) as Hsize by (apply Z.pow_pos_nonneg; lia).
  assert (2 ^ 32 = 2 ^ p * 2 ^ (32 - p)) as Hsplit
    by (rewrite <- Z.pow_add_r by lia; f_equal; lia).
  assert (0 < 2 ^ p) as Hpow by (apply Z.pow_pos_nonneg; lia).
  unfold all_ones in Haddr. simpl max_prefixlen in Haddr.
  set (size := 2 ^ (32 - p)) in *.
  pose proof (Z.mod_pos_bound addr size Hsize) as Hmod.
  pose proof (Z.div_mod addr size ltac:(lia)) as Hdiv.
  assert (network_address net = size * (addr / size)) as Hmul by lia.
  assert (addr / size < 2 ^ p) as Hquot.
  { apply Z.div_lt_upper_bound; lia. }
  assert (0 <= addr / size) as Hquot0 by (apply Z.div_pos; lia).
  split; [exact Hp |]. split.
  { rewrite Hmul, Z.mul_comm. apply Z.mod_mul. lia. }
  split; [nia |]. split; [nia |].
  destruct (random_ip_v4_inside cidr net g Hnet Hv4)
    as (a & g' & Hrun & Ha & Hstrict).
  { rewrite Hhigh. nia. }
  { rewrite Hhigh. unfold all_ones. simpl max_prefixlen. nia. }
  exists a, g'. split; [exact Hrun |].
  split; [rewrite Hhigh in Ha; lia |]. split.
  - intros Hmany. unfold num_addresses in Hstrict. rewrite Hhigh in Hstrict.
    lia.
  - apply ipv4_text_parsed. rewrite Hhigh in Ha. unfold all_ones.
    simpl max_prefixlen. nia.
Qed.
End AnyBlock.

Lemma blocks_apart_sound b1 b2 ip :
  blocks_apart b1 b2 = true -> in_block b1 ip -> in_block b2 ip -> False.
Proof.
  unfold blocks_apart.
  intros Hapart (lo1 & hi1 & a1 & E1 & Ha1 & ->) (lo2 & hi2 & a2 & E2 & Ha2 & Htext).
  rewrite E1, E2 in Hapart.
  apply andb_true_iff in Hapart as [Hapart Hor].
  repeat (apply andb_true_iff in Hapart as [Hapart ?]).
  repeat match goal with
         | E : (_ <=? _) = true |- _ => apply Z.leb_le in E
         end.
  assert (Some a1 = Some a2) as Heq.
  { rewrite <- (ipv4_text_parsed a1), <- (ipv4_text_parsed a2) by lia.
    rewrite Htext. reflexivity. }
  injection Heq as Heq.
  apply orb_true_iff in Hor as [Hlt | Hlt]; apply Z.ltb_lt in Hlt; lia.
Qed.

Lemma injected_blocks_apart : injected_apart = true.
Proof. vm_compute. reflexivity. Qed.

Lemma injected_block_unknown b ip :
  b ∈ injected_blocks -> in_block b ip -> ~ known_address ip.
Proof.
  intros Hb Hip (u & block & Hu & Hblock & Hknown).
  apply list_elem_of_In in Hb, Hu, Hblock.
  pose proof injected_blocks_apart as Hall. unfold injected_apart in Hall.
  pose proof (proj1 (forallb_forall _ _) Hall b Hb) as Hb'.
  pose proof (proj1 (forallb_forall _ _) Hb' u Hu) as Hu'.
  pose proof (proj1 (forallb_forall _ _) Hu' block Hblock) as Hapart.
  exact (blocks_apart_sound _ _ _ Hapart Hip Hknown).
Qed.

Section InjectedAddresses.
Context {G : Type} `{RandomSource G}.
Variable float_sum : list float -> float.

Lemma anomalies_blocks start (anomalies : list event) :
  anomalies_spec (G := G) start anomalies ->
  Forall (fun e => exists b, b ∈ injected_blocks
                             /\ in_block b (field "source_ip" e)) anomalies.
Proof.
  intros (alice_rows & bob_rows & brute_rows & off & svc
          & Halice & Hbob & Hbrute & Hoff & Hsvc & ->).
  destruct Halice as (? & ? & ? & ? & _ & _ & Ha1 & Ha2 & ->).
  destruct Hbob as (? & ? & ? & ? & _ & _ & Hb1 & Hb2 & ->).
  destruct Hbrute as (? & ? & fails & ? & _ & Hbrute & _ & _ & _ & ->).
  destruct Hoff as (? & ? & _ & Hoff & ->).
  destruct Hsvc as (? & ? & _ & Hsvc & ->).
  assert (forall b ts user src auth ip country result_ reason,
            b ∈ injected_blocks -> in_block b ip ->
            exists b', b' ∈ injected_blocks
                       /\ in_block b'
                            (field "source_ip"
                               (new_event ts user src auth ip country result_
                                  reason))) as Hrow.
  { intros b ts user src auth ip country result_ reason Hb Hip.
    exists b. split; [exact Hb | exact Hip]. }
  unfold travel_rows, brute_success_row, off_hours_row, service_account_row.
  repeat first
    [ apply Forall_app_2
    | apply Forall_nil_2
    | apply Forall_cons_2;
      [ eapply Hrow; [| eassumption];
        unfold injected_blocks; rewrite !elem_of_cons; tauto
      | ] ].
  apply Forall_zip_with_intro. intros i f. unfold brute_failure_row.
  eapply Hrow; [| eassumption].
  unfold injected_blocks; rewrite !elem_of_cons; tauto.
Qed.

(** X16: every row of the dataset flagged ["true"] carries an address
    of one of the five injected blocks, and such an address lies in no
    known block of any profile. *)
Theorem injected_addresses_unknown (n days_ now : Z) (g : G)
    (combined : list event) (g' : G) :
  pipeline float_sum n days_ now g = Ok (combined, g') ->
  forall e, e ∈ combined ->
    e !! "is_injected_anomaly" = Some "true" ->
    (exists b, b ∈ injected_blocks /\ in_block b (field "source_ip" e))
    /\ ~ known_address (field "source_ip" e).
Proof.
  intros Hrun e He Hflag.
  pose proof (post_partial _ _ g
                (post_pipeline float_sum True n days_ now g (or_intror I))
                combined g' Hrun) as Hspec.
  destruct Hspec as (normal & anomalies & _ & _ & Hspec & Hperm).
  rewrite Hperm in He. apply elem_of_app in He as [He | He];
    apply list_elem_of_fmap in He as (r & -> & Hr).
  - unfold tag in Hflag. rewrite lookup_insert_eq in Hflag.
    discriminate Hflag.
  - pose proof (anomalies_blocks _ _ Hspec) as Hblocks.
    rewrite Forall_forall in Hblocks.
    destruct (Hblocks r Hr) as (b & Hb & Hip).
    assert (field "source_ip" (tag "true" r) = field "source_ip" r) as ->.
    { unfold field, tag. rewrite lookup_insert_ne by discriminate.
      reflexivity. }
    split; [exists b; auto |]. exact (injected_block_unknown _ _ Hb Hip).
Qed.
End InjectedAddresses.

(* ===================================================================== *)
(** * A window that starts before the calendar does *)
(* ===================================================================== *)

Section WindowOverflow.
Context {G : Type} `{RandomSource G}.
Variable float_sum : list float -> float.

(** X17: when [days] reaches back before 0001-01-01 from the clock
    reading, the run ends in [OverflowError] before any row is drawn,
    whatever the row count: from [timedelta] beyond 999999999 days, from
    the subtraction otherwise. *)
Theorem pipeline_window_before_calendar (n days_ now : Z) (g : G) :
  0 <= now < MAX_ORDINAL * US_PER_DAY ->
  now < days_ * US_PER_DAY ->
  pipeline float_sum n days_ now g = Raise OverflowError.
Proof.
  intros Hnow Hdays. unfold pipeline. unfold timedelta.
  replace ((((days_ * 24 + 0) * 60 + 0) * 60 + 0) * US_PER_SECOND
           / US_PER_DAY) with days_
    by (unfold US_PER_DAY, US_PER_SECOND; div_lia).
  cbv zeta.
  destruct ((-999999999 <=? days_) && (days_ <=? 999999999)) eqn:E.
  - rewrite (bind_ok _ _ g (days_ * US_PER_DAY) g).
    2: { unfold lift. f_equal. f_equal.
         unfold US_PER_DAY, US_PER_SECOND. lia. }
    apply bind_raise. unfold lift, datetime_sub, valid_datetime.
    replace (0 <=? now - days_ * US_PER_DAY) with false
      by (symmetry; apply Z.leb_gt; lia).
    reflexivity.
  - apply bind_raise. reflexivity.
Qed.
End WindowOverflow.

(* ===================================================================== *)
(** * Further runs of the model *)
(* ===================================================================== *)

Lemma random_timestamp_reversed_window_witness :
  sample_start - sample_now <= - US_PER_SECOND
  /\ random_timestamp sample_now sample_start (Some (8, 17)) (replay [])
     = Raise ValueError.
Proof.
  assert (sample_start - sample_now <= - US_PER_SECOND) as Hfar
    by calendar_bounds.
  split; [exact Hfar |].
  exact (random_timestamp_reversed_window sample_now sample_start
           (Some (8, 17)) (replay []) Hfar).
Defined.

Lemma random_timestamp_keeps_date_witness :
  window_fits sample_start sample_now
  /\ (sample_now - sample_start) mod US_PER_SECOND = 0
  /\ exists ts g' base,
       random_timestamp sample_start sample_now (Some (8, 17)) (replay [])
       = Ok (ts, g')
       /\ sample_start <= base <= sample_now
       /\ ts / US_PER_DAY = base / US_PER_DAY.
Proof.
  assert (window_fits sample_start sample_now) as Hfit by calendar_bounds.
  assert ((sample_now - sample_start) mod US_PER_SECOND = 0) as Hwhole
    by (vm_compute; reflexivity).
  assert (forall h_start h_end : Z,
            Some (8, 17) = Some (h_start, h_end) ->
            0 <= h_start <= h_end /\ h_end <= 23) as Hhours
    by (intros h_start h_end E; injection E as <- <-; lia).
  split; [exact Hfit |]. split; [exact Hwhole |].
  destruct (random_timestamp_keeps_date sample_start sample_now (Some (8, 17))
              (replay []) Hfit Hwhole Hhours)
    as (ts & g' & base & Hrun & Hbase & Hdate & _).
  exists ts, g', base. split; [exact Hrun |]. split; [exact Hbase | exact Hdate].
Defined.

Lemma pipeline_negative_days_witness :
  1 <= 1 /\ -1 < 0 /\ 0 <= sample_now
  /\ sample_now - -1 * US_PER_DAY < MAX_ORDINAL * US_PER_DAY
  /\ pipeline naive_sum 1 (-1) sample_now (replay []) = Raise ValueError.
Proof.
  assert (1 <= 1) as Hn by lia.
  assert (-1 < 0) as Hdays by lia.
  assert (0 <= sample_now) as Hnow by calendar_bounds.
  assert (sample_now - -1 * US_PER_DAY < MAX_ORDINAL * US_PER_DAY) as Hmax
    by calendar_bounds.
  repeat (split; [assumption |]).
  exact (pipeline_negative_days naive_sum 1 (-1) sample_now (replay [])
           Hn Hdays Hnow Hmax).
Defined.

Lemma pipeline_no_rows_witness :
  0 <= 0
  /\ 0 <= sample_now < MAX_ORDINAL * US_PER_DAY
  /\ anomalies_fit (sample_now - 7 * US_PER_DAY)
  /\ exists combined g',
       pipeline naive_sum 0 7 sample_now (replay []) = Ok (combined, g')
       /\ length combined = 19%nat
       /\ flagged "true" combined = 19
       /\ flagged "false" combined = 0.
Proof.
  assert (0 <= 0) as Hn by lia.
  assert (0 <= sample_now < MAX_ORDINAL * US_PER_DAY) as Hnow
    by calendar_bounds.
  assert (anomalies_fit (sample_now - 7 * US_PER_DAY)) as Hfit
    by calendar_bounds.
  split; [exact Hn |]. split; [exact Hnow |]. split; [exact Hfit |].
  destruct (pipeline_no_rows naive_sum 0 7 sample_now (replay []) Hn)
    as [Htotal Hcounts].
  destruct (Htotal Hnow Hfit) as (combined & g' & Hrun).
  exists combined, g'. split; [exact Hrun |].
  exact (Hcounts combined g' Hrun).
Defined.

Lemma injected_instants_witness :
  anomalies_fit sample_start
  /\ exists anomalies g',
       build_anomalies sample_start (replay []) = Ok (anomalies, g')
       /\ length anomalies = 19%nat
       /\ Forall (fun e => exists t,
                    stamped e t
                    /\ sample_start + hours 10 <= t
                       <= sample_start + hours 90 + minutes 13)
                 anomalies.
Proof.
  assert (anomalies_fit sample_start) as Hfit by calendar_bounds.
  split; [exact Hfit |].
  exact (injected_instants sample_start (replay []) Hfit).
Defined.

Lemma write_csv_lossless_witness :
  Forall has_fieldnames sample_rows
  /\ write_csv sample_rows = write_csv sample_rows
  /\ sample_rows = sample_rows.
Proof.
  assert (Forall has_fieldnames sample_rows) as Hrows
    by (apply Forall_cons_2;
        [apply tagged_fieldnames
        | apply Forall_cons_2; [apply tagged_fieldnames | apply Forall_nil_2]]).
  assert (write_csv sample_rows = write_csv sample_rows) as Htable
    by reflexivity.
  split; [exact Hrows |]. split; [exact Htable |].
  exact (write_csv_lossless sample_rows sample_rows Hrows Hrows Htable).
Defined.

Lemma dataset_rows_have_fieldnames_witness :
  exists combined g',
    pipeline naive_sum 2 7 sample_now (replay []) = Ok (combined, g')
    /\ Forall has_fieldnames combined.
Proof.
  assert (returns (pipeline naive_sum 2 7 sample_now (replay [])) = true)
    as Hok by (vm_compute; reflexivity).
  destruct (pipeline naive_sum 2 7 sample_now (replay []))
    as [[combined g']|e] eqn:Hrun; [| discriminate Hok].
  exists combined, g'. split; [reflexivity |].
  exact (dataset_rows_have_fieldnames naive_sum 2 7 sample_now (replay [])
           combined g' Hrun).
Defined.

Lemma normal_rows_follow_profile_witness :
  exists combined g',
    pipeline naive_sum 2 7 sample_now (replay []) = Ok (combined, g')
    /\ forall e, e ∈ combined ->
         e !! "is_injected_anomaly" = Some "false" ->
         exists u, u ∈ build_user_profiles
                   /\ e !! "username" = Some (username u).
Proof.
  assert (returns (pipeline naive_sum 2 7 sample_now (replay [])) = true)
    as Hok by (vm_compute; reflexivity).
  destruct (pipeline naive_sum 2 7 sample_now (replay []))
    as [[combined g']|e] eqn:Hrun; [| discriminate Hok].
  exists combined, g'. split; [reflexivity |].
  intros e He Hflag.
  destruct (normal_rows_follow_profile naive_sum 2 7 sample_now (replay [])
              combined g' Hrun e He Hflag)
    as (u & block & Hu & _ & Hname & _).
  exists u. split; [exact Hu | exact Hname].
Defined.

Lemma random_ip_any_v4_block_witness :
  ip_network "10.10.10.77/24" = Ok (IpNet V4 168430080 24)
  /\ is_v4 (IpNet V4 168430080 24) = true
  /\ exists a g',
       random_ip_from_cidr "10.10.10.77/24" (replay []) = Ok (ipv4_text a, g')
       /\ 168430080 < a < 168430080 + 255.
Proof.
  assert (ip_network "10.10.10.77/24" = Ok (IpNet V4 168430080 24)) as Hnet
    by (vm_compute; reflexivity).
  assert (is_v4 (IpNet V4 168430080 24) = true) as Hv4 by reflexivity.
  split; [exact Hnet |]. split; [exact Hv4 |].
  destruct (random_ip_any_v4_block "10.10.10.77/24" (IpNet V4 168430080 24)
              (replay []) Hnet Hv4)
    as (_ & _ & _ & _ & a & g' & Hrun & _ & Hstrict & _).
  exists a, g'. split; [exact Hrun |].
  apply Hstrict. simpl. lia.
Defined.

Lemma injected_addresses_unknown_witness :
  exists combined g',
    pipeline naive_sum 2 7 sample_now (replay []) = Ok (combined, g')
    /\ forall e, e ∈ combined ->
         e !! "is_injected_anomaly" = Some "true" ->
         ~ known_address (field "source_ip" e).
Proof.
  assert (returns (pipeline naive_sum 2 7 sample_now (replay [])) = true)
    as Hok by (vm_compute; reflexivity).
  destruct (pipeline naive_sum 2 7 sample_now (replay []))
    as [[combined g']|e] eqn:Hrun; [| discriminate Hok].
  exists combined, g'. split; [reflexivity |].
  intros e He Hflag.
  exact (proj2 (injected_addresses_unknown naive_sum 2 7 sample_now
                  (replay []) combined g' Hrun e He Hflag)).
Defined.

Lemma pipeline_window_before_calendar_witness :
  0 <= sample_now < MAX_ORDINAL * US_PER_DAY
  /\ sample_now < 800000 * US_PER_DAY
  /\ pipeline naive_sum 5 800000 sample_now (replay [])
     = Raise OverflowError.
Proof.
  assert (0 <= sample_now < MAX_ORDINAL * US_PER_DAY) as Hnow
    by calendar_bounds.
  assert (sample_now < 800000 * US_PER_DAY) as Hdays by calendar_bounds.
  split; [exact Hnow |]. split; [exact Hdays |].
  exact (pipeline_window_before_calendar naive_sum 5 800000 sample_now
           (replay []) Hnow Hdays).
Defined.

(* ===================================================================== *)
(** * The injected rows, read field by field *)
(* ===================================================================== *)

Lemma v4_block_bounds cidr lo hi :
  v4_block cidr = Some (lo, hi) -> 0 <= lo /\ lo <= hi /\ hi <= all_ones V4.
Proof.
  unfold v4_block. intros Hblock.
  destruct (ip_network cidr) as [net|]; [| discriminate].
  destruct (is_v4 net && _ && _ && _) eqn:Echecks; [| discriminate].
  injection Hblock as Hrange.
  repeat (apply andb_true_iff in Echecks as [Echecks ?]).
  repeat match goal with
         | E : (_ <=? _) = true |- _ => apply Z.leb_le in E
         end.
  pose proof (sampling_range_inhabited net ltac:(assumption)) as Hne.
  pose proof (sampling_range_inside net ltac:(assumption)) as [Hlo Hhi].
  rewrite Hrange in Hne, Hlo, Hhi. simpl in Hne, Hlo, Hhi. lia.
Qed.

Lemma addressed_new_event cidr ts user src auth ip country result_ reason :
  in_block cidr ip ->
  exists a,
    addressed (new_event ts user src auth ip country result_ reason) cidr a.
Proof.
  intros (lo & hi & a & Hblock & Ha & ->).
  destruct (v4_block_bounds _ _ _ Hblock) as (H0 & _ & Hmax).
  exists a, lo, hi, (ipv4_text a).
  split; [exact Hblock |]. split; [exact Ha |]. split; [reflexivity |].
  apply ipv4_text_parsed. lia.
Qed.

Lemma addressed_tag value e cidr a :
  addressed e cidr a -> addressed (tag value e) cidr a.
Proof.
  intros (lo & hi & ip & Hblock & Ha & Hip & Hparse).
  exists lo, hi, ip. repeat split; try assumption; try lia.
  unfold tag. rewrite lookup_insert_ne by discriminate. exact Hip.
Qed.

Lemma stamped_parsed e t :
  stamped e t -> parsed_instant e = Some (whole_second t).
Proof.
  intros [Hts Hparse]. unfold parsed_instant, field. rewrite Hts. exact Hparse.
Qed.

Lemma whole_second_after t m :
  whole_second (t + minutes m) - whole_second t = minutes m.
Proof.
  unfold whole_second, minutes, US_PER_SECOND. div_lia.
Qed.

Lemma hour_of_whole_second t :
  fst (fst (hms (whole_second t))) = fst (fst (hms t)).
Proof.
  unfold hms, whole_second, US_PER_DAY, US_PER_SECOND. simpl fst.
  assert ((t - t mod 1000000) mod (86400 * 1000000) / 1000000
          = t mod (86400 * 1000000) / 1000000) as -> by div_lia.
  reflexivity.
Qed.

Section FieldsRead.
Context {G : Type} `{RandomSource G}.
Variable float_sum : list float -> float.

(** C6: for each user of alice and bob the injected rows hold exactly
    two ["SUCCESS"] rows with that username.  Read from the rows: the
    first is stamped [t1 = start + h] hours, [10 <= h <= 40], with
    country "US" and an address of 203.0.113.0/24; the second is
    stamped [t2 = t1 + m] minutes, [5 <= m <= 35], with country "JP"
    and an address of 198.51.100.0/24; both over vpn-gateway with a
    password; and the two timestamps parse to instants [m] minutes
    apart, so within 40 minutes of each other. *)
Theorem impossible_travel_rows (start : Z) (g : G) :
  anomalies_fit start ->
  exists anomalies g',
    build_anomalies start g = Ok (anomalies, g')
    /\ forall user, user ∈ ["alice"; "bob"] ->
         exists h m e1 e2 a1 a2 p1 p2,
           10 <= h <= 40 /\ 5 <= m <= 35
           /\ successes_of user anomalies = [e1; e2]
           /\ stamped e1 (start + hours h)
           /\ stamped e2 (start + hours h + minutes m)
           /\ reads e1 user "vpn-gateway" "password" "US" "SUCCESS" ""
           /\ reads e2 user "vpn-gateway" "password" "JP" "SUCCESS" ""
           /\ addressed e1 "203.0.113.0/24" a1
           /\ addressed e2 "198.51.100.0/24" a2
           /\ parsed_instant e1 = Some p1
           /\ parsed_instant e2 = Some p2
           /\ p2 - p1 = minutes m
           /\ 0 < p2 - p1 <= minutes 40.
Proof.
  intros Hfit.
  destruct (post_total _ _ g
              (post_build_anomalies False start g (or_introl Hfit)))
    as (anomalies & g' & Hrun & Hspec).
  exists anomalies, g'. split; [exact Hrun |].
  destruct Hspec as (alice_rows & bob_rows & brute_rows & off & svc
                     & Halice & Hbob & Hbrute & Hoff & Hsvc & ->).
  destruct Halice as (ha & ma & ipa1 & ipa2 & Hha & Hma & Hipa1 & Hipa2 & ->).
  destruct Hbob as (hb & mb & ipb1 & ipb2 & Hhb & Hmb & Hipb1 & Hipb2 & ->).
  destruct Hbrute as (? & ? & fails & ? & _ & _ & _ & _ & _ & ->).
  destruct Hoff as (? & ? & _ & _ & ->).
  destruct Hsvc as (? & ? & _ & _ & ->).
  assert (forall user l k, successes_of user (l ++ k)
                           = successes_of user l ++ successes_of user k)
    as Happ by (intros; apply filter_app).
  assert (forall user h m ip1 ip2,
            10 <= h <= 40 -> 5 <= m <= 35 ->
            in_block "203.0.113.0/24" ip1 ->
            in_block "198.51.100.0/24" ip2 ->
            exists e1 e2 a1 a2 p1 p2,
              travel_rows start user h m ip1 ip2 = [e1; e2]
              /\ stamped e1 (start + hours h)
              /\ stamped e2 (start + hours h + minutes m)
              /\ reads e1 user "vpn-gateway" "password" "US" "SUCCESS" ""
              /\ reads e2 user "vpn-gateway" "password" "JP" "SUCCESS" ""
              /\ addressed e1 "203.0.113.0/24" a1
              /\ addressed e2 "198.51.100.0/24" a2
              /\ parsed_instant e1 = Some p1
              /\ parsed_instant e2 = Some p2
              /\ p2 - p1 = minutes m
              /\ 0 < p2 - p1 <= minutes 40) as Hpair.
  { intros user h m ip1 ip2 Hh Hm Hip1 Hip2. unfold travel_rows.
    assert (stamped
              (new_event (isoformat_seconds (start + hours h)) user
                 "vpn-gateway" "password" ip1 "US" "SUCCESS" "")
              (start + hours h)) as Hs1.
    { apply stamped_new_event, valid_datetime_iff. revert Hfit Hh.
      unfold anomalies_fit, hours, MAX_ORDINAL, US_PER_DAY, US_PER_SECOND.
      lia. }
    assert (stamped
              (new_event (isoformat_seconds (start + hours h + minutes m))
                 user "vpn-gateway" "password" ip2 "JP" "SUCCESS" "")
              (start + hours h + minutes m)) as Hs2.
    { apply stamped_new_event, valid_datetime_iff. revert Hfit Hh Hm.
      unfold anomalies_fit, hours, minutes, MAX_ORDINAL, US_PER_DAY,
        US_PER_SECOND. lia. }
    destruct (addressed_new_event "203.0.113.0/24"
                (isoformat_seconds (start + hours h)) user "vpn-gateway"
                "password" ip1 "US" "SUCCESS" "" Hip1) as [a1 Ha1].
    destruct (addressed_new_event "198.51.100.0/24"
                (isoformat_seconds (start + hours h + minutes m)) user
                "vpn-gateway" "password" ip2 "JP" "SUCCESS" "" Hip2)
      as [a2 Ha2].
    eexists _, _, a1, a2, _, _. split; [reflexivity |].
    split; [exact Hs1 |]. split; [exact Hs2 |].
    split; [repeat split |]. split; [repeat split |].
    split; [exact Ha1 |]. split; [exact Ha2 |].
    split; [exact (stamped_parsed _ _ Hs1) |].
    split; [exact (stamped_parsed _ _ Hs2) |].
    rewrite whole_second_after. split; [reflexivity |].
    unfold minutes, US_PER_SECOND. lia. }
  intros user Huser.
  apply elem_of_cons in Huser as [-> | Huser];
    [| apply elem_of_cons in Huser as [-> | Huser]; [| inversion Huser]].
  - destruct (Hpair "alice" ha ma ipa1 ipa2 Hha Hma Hipa1 Hipa2)
      as (e1 & e2 & a1 & a2 & p1 & p2 & Erows & Hrest).
    exists ha, ma, e1, e2, a1, a2, p1, p2.
    split; [exact Hha |]. split; [exact Hma |]. split; [| exact Hrest].
    rewrite <- Erows.
    unfold travel_rows, brute_success_row, off_hours_row,
      service_account_row.
    rewrite !Happ, successes_of_failures.
    rewrite !successes_of_own.
    rewrite !successes_of_other by discriminate. reflexivity.
  - destruct (Hpair "bob" hb mb ipb1 ipb2 Hhb Hmb Hipb1 Hipb2)
      as (e1 & e2 & a1 & a2 & p1 & p2 & Erows & Hrest).
    exists hb, mb, e1, e2, a1, a2, p1, p2.
    split; [exact Hhb |]. split; [exact Hmb |]. split; [| exact Hrest].
    rewrite <- Erows.
    unfold travel_rows, brute_success_row, off_hours_row,
      service_account_row.
    rewrite !Happ, successes_of_failures.
    rewrite !successes_of_other by discriminate.
    rewrite !successes_of_own.
    rewrite !successes_of_other by discriminate. reflexivity.
Qed.

(** X5: [inject_anomalies] keeps every row it is given and adds 19: the
    result holds each given row once, flagged ["false"] whatever flag it
    carried before, and 19 rows flagged ["true"]; and the result is the
    same whatever is passed as [end_]. *)
Theorem inject_anomalies_keeps_rows (events : list event) (start : Z)
    (g : G) :
  anomalies_fit start ->
  exists combined anomalies g',
    (forall end_, inject_anomalies events start end_ g = Ok (combined, g'))
    /\ combined ≡ₚ map (tag "false") events ++ map (tag "true") anomalies
    /\ length anomalies = 19%nat
    /\ Z.of_nat (length combined) = Z.of_nat (length events) + 19
    /\ flagged "true" combined = 19
    /\ flagged "false" combined = Z.of_nat (length events)
    /\ (forall e, e ∈ events -> tag "false" e ∈ combined).
Proof.
  intros Hfit.
  destruct (post_total _ _ g
              (post_inject_anomalies False events start start g
                 (or_introl Hfit)))
    as (combined & g' & Hrun & anomalies & Hspec & Hperm).
  exists combined, anomalies, g'. split; [intros end_; exact Hrun |].
  split; [exact Hperm |].
  pose proof (anomalies_length _ _ Hspec) as Hlen.
  split; [exact Hlen |].
  rewrite !(flagged_permutation _ _ _ Hperm), !flagged_app, !flagged_tagged.
  rewrite Hperm, length_app, !length_map, Hlen. simpl.
  repeat split; try lia.
  intros e He. rewrite Hperm. apply elem_of_app. left.
  apply list_elem_of_fmap. exists e. auto.
Qed.

(** X6: the off-hours scenario appends exactly one row.  Read from the
    row: username dave, windows-ad, mfa_push, country "AU", a
    ["SUCCESS"] with empty failure reason, an address that parses into
    the sampling range of 198.18.0.0/15, and a timestamp that is the
    text of [start] plus 2 days, 3 hours and a drawn 0 to 59 minutes and
    parses back to it; once flagged, the row holds the nine field names
    and no other key. *)
Theorem off_hours_row_appended (start : Z) (anomalies : list event) (g : G) :
  anomalies_fit start ->
  exists e m a g',
    off_hours start anomalies g = Ok (anomalies ++ [e], g')
    /\ 0 <= m <= 59
    /\ stamped e (start + span 2 3 m 0)
    /\ start + hours 51 <= start + span 2 3 m 0 < start + hours 52
    /\ reads e "dave" "windows-ad" "mfa_push" "AU" "SUCCESS" ""
    /\ addressed e "198.18.0.0/15" a
    /\ has_fieldnames (tag "true" e).
Proof.
  intros Hfit.
  destruct (post_total _ _ g
              (post_off_hours False start anomalies g (or_introl Hfit)))
    as (out & g' & Hrun & e & (m & ip & Hm & Hip & ->) & ->).
  unfold off_hours_row in *.
  destruct (addressed_new_event "198.18.0.0/15"
              (isoformat_seconds (start + span 2 3 m 0)) "dave" "windows-ad"
              "mfa_push" ip "AU" "SUCCESS" "" Hip) as [a Ha].
  eexists _, m, a, g'. split; [exact Hrun |]. split; [exact Hm |].
  split.
  { apply stamped_new_event, valid_datetime_iff. revert Hfit Hm.
    unfold anomalies_fit, span, hours, minutes, seconds, MAX_ORDINAL,
      US_PER_DAY, US_PER_SECOND. lia. }
  split.
  { unfold span, hours, minutes, seconds, US_PER_DAY, US_PER_SECOND. lia. }
  split; [repeat split |]. split; [exact Ha |].
  apply tagged_fieldnames.
Qed.

(** X7: the off-hours row is timed from [start], not from midnight: when
    the time of day of [start] is from 03:00:00 up to 12:00:00, the
    timestamp read from the row of dave parses to an instant whose hour
    is from 6 to 15, within the usual hours of dave. *)
Theorem off_hours_row_in_usual_hours (start : Z) (anomalies : list event)
    (g : G) :
  anomalies_fit start ->
  3 * 3600 <= start mod US_PER_DAY / US_PER_SECOND < 12 * 3600 ->
  exists e p g',
    off_hours start anomalies g = Ok (anomalies ++ [e], g')
    /\ e !! "username" = Some "dave"
    /\ parsed_instant e = Some p
    /\ forall u, u ∈ build_user_profiles -> username u = "dave" ->
         fst (usual_hours u) <= fst (fst (hms p)) <= snd (usual_hours u).
Proof.
  intros Hfit Htod.
  destruct (post_total _ _ g
              (post_off_hours False start anomalies g (or_introl Hfit)))
    as (out & g' & Hrun & e & (m & ip & Hm & Hip & ->) & ->).
  unfold off_hours_row in *.
  eexists _, (whole_second (start + span 2 3 m 0)), g'.
  split; [exact Hrun |]. split; [reflexivity |]. split.
  { apply stamped_parsed, stamped_new_event, valid_datetime_iff.
    revert Hfit Hm.
    unfold anomalies_fit, span, hours, minutes, seconds, MAX_ORDINAL,
      US_PER_DAY, US_PER_SECOND. lia. }
  rewrite hour_of_whole_second.
  pose proof (hour_after_three_hours start m Hm Htod) as Hhour.
  intros u Hu Hname.
  assert (usual_hours u = (6, 15)) as ->.
  { unfold build_user_profiles in Hu.
    repeat (apply elem_of_cons in Hu as [-> | Hu];
            [first [reflexivity | discriminate Hname] |]).
    inversion Hu. }
  exact Hhour.
Qed.

(** X8: the service-account scenario appends exactly one row.  Read
    from the row: username svc_backup, linux-sshd, ssh_key, country
    "US", a ["SUCCESS"] with empty failure reason, an address that
    parses into the sampling range of 172.31.0.0/16, and a timestamp
    that is the text of [start] plus 1 day, 12 hours and a drawn 0 to 59
    minutes and parses back to it; once flagged, the row holds the nine
    field names and no other key. *)
Theorem service_account_row_appended (start : Z) (anomalies : list event)
    (g : G) :
  anomalies_fit start ->
  exists e m a g',
    service_account start anomalies g = Ok (anomalies ++ [e], g')
    /\ 0 <= m <= 59
    /\ stamped e (start + span 1 12 m 0)
    /\ start + hours 36 <= start + span 1 12 m 0 < start + hours 37
    /\ reads e "svc_backup" "linux-sshd" "ssh_key" "US" "SUCCESS" ""
    /\ addressed e "172.31.0.0/16" a
    /\ has_fieldnames (tag "true" e).
Proof.
  intros Hfit.
  destruct (post_total _ _ g
              (post_service_account False start anomalies g (or_introl Hfit)))
    as (out & g' & Hrun & e & (m & ip & Hm & Hip & ->) & ->).
  unfold service_account_row in *.
  destruct (addressed_new_event "172.31.0.0/16"
              (isoformat_seconds (start + span 1 12 m 0)) "svc_backup"
              "linux-sshd" "ssh_key" ip "US" "SUCCESS" "" Hip) as [a Ha].
  eexists _, m, a, g'. split; [exact Hrun |]. split; [exact Hm |].
  split.
  { apply stamped_new_event, valid_datetime_iff. revert Hfit Hm.
    unfold anomalies_fit, span, hours, minutes, seconds, MAX_ORDINAL,
      US_PER_DAY, US_PER_SECOND. lia. }
  split.
  { unfold span, hours, minutes, seconds, US_PER_DAY, US_PER_SECOND. lia. }
  split; [repeat split |]. split; [exact Ha |].
  apply tagged_fieldnames.
Qed.

(** X14: a row of the dataset whose username is none of the five
    profile names is an injected brute-force failure under the name
    "unknown_user".  Read from the row: flagged ["true"], username
    "unknown_user", linux-sshd, password, a ["FAILURE"] for
    "bad_password", one of the four brute-force countries, and an
    address that parses into the sampling range of 45.33.0.0/16. *)
Theorem unprofiled_rows_are_brute_force (n days_ now : Z) (g : G)
    (combined : list event) (g' : G) :
  pipeline float_sum n days_ now g = Ok (combined, g') ->
  forall e, e ∈ combined ->
    ~ profiled (field "username" e) ->
    exists country a,
      e !! "is_injected_anomaly" = Some "true"
      /\ reads e "unknown_user" "linux-sshd" "password" country "FAILURE"
           "bad_password"
      /\ country ∈ brute_countries
      /\ addressed e "45.33.0.0/16" a.
Proof.
  intros Hrun e He Hname.
  pose proof (post_partial _ _ g
                (post_pipeline float_sum True n days_ now g (or_intror I))
                combined g' Hrun) as Hspec.
  destruct Hspec as (normal & anomalies & _ & Hrows & Hspec & Hperm).
  assert (forall v ts user src auth ip country result_ reason,
            user ∈ ["alice"; "bob"; "carol"; "dave"; "svc_backup"] ->
            ~ ~ profiled
                  (field "username"
                     (tag v (new_event ts user src auth ip country result_
                               reason)))) as Hknown.
  { intros v ts user src auth ip country result_ reason Huser Hno.
    apply Hno, profiled_iff. exact Huser. }
  rewrite Hperm in He. apply elem_of_app in He as [He | He];
    apply list_elem_of_fmap in He as (r & -> & Hr).
  - exfalso. rewrite Forall_forall in Hrows.
    destruct (Hrows r Hr)
      as (u & ts & src & auth & ip & country & result_ & reason
          & Hu & _ & _ & _ & _ & _ & _ & ->).
    apply Hname. exists u. split; [exact Hu | reflexivity].
  - destruct Hspec as (alice_rows & bob_rows & brute_rows & off & svc
                       & Halice & Hbob & Hbrute & Hoff & Hsvc & ->).
    destruct Halice as (? & ? & ? & ? & _ & _ & _ & _ & ->).
    destruct Hbob as (? & ? & ? & ? & _ & _ & _ & _ & ->).
    destruct Hbrute as (h & brute_ip & fails & ? & _ & Hip & _ & Hdrawn
                        & _ & ->).
    destruct Hoff as (? & ? & _ & _ & ->).
    destruct Hsvc as (? & ? & _ & _ & ->).
    unfold travel_rows, brute_success_row, off_hours_row,
      service_account_row in Hr.
    rewrite !elem_of_app, !elem_of_cons, !elem_of_nil in Hr.
    destruct Hr as [[-> | [-> | []]] | [[-> | [-> | []]]
                   | [[Hr | [-> | []]] | [-> | [-> | []]]]]];
      try (exfalso; apply (Hknown _ _ _ _ _ _ _ _ _) in Hname;
           [exact Hname | rewrite !elem_of_cons; tauto]).
    apply elem_of_lookup_zip_with in Hr as (k & i & f & -> & _ & Hf).
    rewrite Forall_forall in Hdrawn.
    destruct (Hdrawn f (list_elem_of_lookup_2 _ _ _ Hf))
      as [[gu Huser] [gc Hcountry]].
    apply list_elem_of_lookup_2 in Hcountry.
    unfold brute_failure_row in Hname |- *.
    assert (fst f ∈ "carol" :: brute_usernames) as Hfst.
    { unfold brute_username_at in Huser.
      destruct (PrimFloat.ltb _ _).
      - injection Huser as <-. apply elem_of_cons. left. reflexivity.
      - apply elem_of_cons. right.
        eapply list_elem_of_lookup_2, Huser. }
    unfold brute_usernames in Hfst. rewrite !elem_of_cons, elem_of_nil in Hfst.
    destruct Hfst as [E | [E | [E | [E | [E | []]]]]]; rewrite E in Hname |- *;
      try (exfalso; apply (Hknown _ _ _ _ _ _ _ _ _) in Hname;
           [exact Hname | rewrite !elem_of_cons; tauto]).
    match goal with
    | |- context [new_event ?ts _ _ _ _ _ _ _] =>
        destruct (addressed_new_event "45.33.0.0/16" ts "unknown_user"
                    "linux-sshd" "password" brute_ip (snd f) "FAILURE"
                    "bad_password" Hip) as [a Ha]
    end.
    exists (snd f), a. split; [reflexivity |].
    split; [repeat split |]. split; [exact Hcountry |].
    apply addressed_tag. exact Ha.
Qed.
End FieldsRead.

(* ===================================================================== *)
(** * The brute-force scenario, draw by draw *)
(* ===================================================================== *)

Section DrawByDraw.
Context {G : Type} `{RandomSource G}.

Lemma post_known {A} R (m : M G A) (P Q : A -> G -> Prop) g :
  post R m P g ->
  (forall a g', m g = Ok (a, g') -> P a g' -> Q a g') ->
  post R m Q g.
Proof.
  unfold post. intros HP HQ.
  destruct (m g) as [[a g']|e]; [apply HQ; [reflexivity | exact HP] | exact HP].
Qed.

(** The loop rule with an invariant that sees the state of the source. *)
Lemma post_for_each_state {A S} R (body : A -> S -> M G S)
    (I : list A -> S -> G -> Prop) (xs : list A) :
  forall (done : list A) (s : S) g,
    I done s g ->
    (forall done' x s' g', x ∈ xs -> I done' s' g' ->
       post R (body x s') (fun s'' g'' => I (done' ++ [x]) s'' g'') g') ->
    post R (for_each xs body s) (fun s' g' => I (done ++ xs) s' g') g.
Proof.
  induction xs as [|x xs IH]; intros done s g HI Hbody; simpl.
  - apply post_ret. rewrite app_nil_r. exact HI.
  - apply post_bind.
    eapply post_mono; [| apply (Hbody done x s g); [left | exact HI]].
    intros s' g' HI'. simpl.
    replace (done ++ x :: xs) with ((done ++ [x]) ++ xs)
      by (rewrite <- app_assoc; reflexivity).
    apply IH; [assumption |].
    intros done' x' s'' g'' Hin. apply Hbody. right. exact Hin.
Qed.

Lemma brute_username_listed (g : G) user :
  brute_username_at g = Some user -> user ∈ "carol" :: brute_usernames.
Proof.
  unfold brute_username_at. destruct (PrimFloat.ltb _ _).
  - intros E. injection E as <-. apply elem_of_cons. left. reflexivity.
  - intros E. apply elem_of_cons. right. eapply list_elem_of_lookup_2, E.
Qed.

(** One pass of the loop of the scenario, from the state [g]. *)
Lemma post_brute_failure_reads base a i anomalies g :
  0 <= i <= 11 ->
  0 <= base /\ base + minutes 13 < MAX_ORDINAL * US_PER_DAY ->
  757137409 <= a <= 757202942 ->
  post False (brute_force_failure "carol" base (ipv4_text a) i anomalies)
    (fun out g' =>
       exists e, out = anomalies ++ [e]
                 /\ failure_reads e base a i g
                 /\ e !! "source_ip" = Some (ipv4_text a)
                 /\ g' = after_failure g) g.
Proof.
  intros Hi Hbase Ha.
  assert ((0 <= base /\ base + minutes 13 < MAX_ORDINAL * US_PER_DAY)
          \/ False) as Hfit by (left; exact Hbase).
  unfold brute_force_failure.
  step_timedelta. step_datetime_add Hfit.
  apply post_bind, post_random.
  assert (forall user,
            brute_username_at g = Some user ->
            post False
              (let* country := choice brute_countries in
               ret (anomalies
                    ++ [new_event (isoformat_seconds (base + minutes i))
                          user "linux-sshd" "password" (ipv4_text a) country
                          "FAILURE" "bad_password"]))
              (fun out g' =>
                 exists e, out = anomalies ++ [e]
                           /\ failure_reads e base a i g
                           /\ e !! "source_ip" = Some (ipv4_text a)
                           /\ g' = after_failure g)
              (after_username g)) as Hrest.
  { intros user Huser. apply post_bind, post_choice; [discriminate |].
    intros country Hcountry Hin. apply post_ret.
    eexists. split; [reflexivity |]. split; [| split; reflexivity].
    exists user, country. split; [exact Huser |].
    split; [exact Hcountry |]. split; [exact Hin |]. split.
    { apply stamped_new_event, valid_datetime_iff. revert Hbase Hi.
      unfold minutes, MAX_ORDINAL, US_PER_DAY, US_PER_SECOND. lia. }
    split; [| repeat split].
    exists 757137409, 757202942, (ipv4_text a).
    split; [exact v4_block_brute |]. split; [exact Ha |].
    split; [reflexivity |]. apply ipv4_text_parsed.
    unfold all_ones. simpl. lia. }
  unfold brute_username_at, after_username in Hrest.
  destruct (PrimFloat.ltb (fst (rng_random g)) 0.7%float).
  - apply post_bind, post_ret. apply Hrest. reflexivity.
  - apply post_bind, post_choice; [discriminate |].
    intros user Huser _. apply Hrest. exact Huser.
Qed.

(** C5: the brute-force scenario draws an hour offset [h] of 60 to 90,
    then one address of 45.33.0.0/16, once, and appends exactly 13 rows
    that all carry the text of that address.  Read from the rows: row
    [i] of the first twelve is stamped [base + i] minutes, where [base]
    is [start + h] hours, is a ["FAILURE"] for "bad_password" over
    linux-sshd with a password, and its username is "carol" when the
    [random()] draw of its pass is below 0.7 and else the choice among
    alice, bob, dave and unknown_user, the passes drawing one after the
    other from the state left by the address; the thirteenth row is
    stamped [base + 13] minutes and is a ["SUCCESS"] of "carol". *)
Theorem brute_force_rows (start : Z) (anomalies : list event) (g : G) :
  anomalies_fit start ->
  exists h g1 ip a g2 rows_ g',
    let base := start + hours h in
    randint 60 90 g = Ok (h, g1)
    /\ 60 <= h <= 90
    /\ random_ip_from_cidr "45.33.0.0/16" g1 = Ok (ip, g2)
    /\ ipv4_of_string ip = Some a
    /\ brute_force start anomalies g = Ok (anomalies ++ rows_, g')
    /\ length rows_ = 13%nat
    /\ Forall (fun e => e !! "source_ip" = Some ip) rows_
    /\ (forall i : nat, (i < 12)%nat ->
          exists e, rows_ !! i = Some e
                    /\ failure_reads e base a (Z.of_nat i)
                         (Nat.iter i after_failure g2))
    /\ (exists e country,
          rows_ !! 12%nat = Some e
          /\ stamped e (base + minutes 13)
          /\ addressed e "45.33.0.0/16" a
          /\ reads e "carol" "linux-sshd" "password" country "SUCCESS" ""
          /\ choice_at brute_countries (Nat.iter 12 after_failure g2)
             = Some country
          /\ country ∈ brute_countries)
    /\ g' = snd (rng_randbelow (Z.of_nat (length brute_countries))
                   (Nat.iter 12 after_failure g2)).
Proof.
  intros Hfit0.
  assert (anomalies_fit start \/ False) as Hfit by (left; exact Hfit0).
  cut (post False (brute_force start anomalies)
         (fun out g' =>
            exists h g1 ip a g2 rows_,
              randint 60 90 g = Ok (h, g1)
              /\ 60 <= h <= 90
              /\ random_ip_from_cidr "45.33.0.0/16" g1 = Ok (ip, g2)
              /\ ipv4_of_string ip = Some a
              /\ out = anomalies ++ rows_
              /\ length rows_ = 13%nat
              /\ Forall (fun e => e !! "source_ip" = Some ip) rows_
              /\ (forall i : nat, (i < 12)%nat ->
                    exists e, rows_ !! i = Some e
                              /\ failure_reads e (start + hours h) a
                                   (Z.of_nat i)
                                   (Nat.iter i after_failure g2))
              /\ (exists e country,
                    rows_ !! 12%nat = Some e
                    /\ stamped e (start + hours h + minutes 13)
                    /\ addressed e "45.33.0.0/16" a
                    /\ reads e "carol" "linux-sshd" "password" country
                         "SUCCESS" ""
                    /\ choice_at brute_countries
                         (Nat.iter 12 after_failure g2) = Some country
                    /\ country ∈ brute_countries)
              /\ g' = snd (rng_randbelow (Z.of_nat (length brute_countries))
                             (Nat.iter 12 after_failure g2))) g).
  { intros Hpost. apply post_total in Hpost
      as (out & g' & Hrun & h & g1 & ip & a & g2 & rows_ & Hh_run & Hh
          & Hip_run & Hparse & -> & Hrest).
    exists h, g1, ip, a, g2, rows_, g'. cbv zeta.
    split; [exact Hh_run |]. split; [exact Hh |]. split; [exact Hip_run |].
    split; [exact Hparse |]. split; [exact Hrun | exact Hrest]. }
  unfold brute_force.
  apply post_bind.
  eapply post_known;
    [apply (post_randint False 60 90 (fun x _ => 60 <= x <= 90));
     [intros; lia | auto] |].
  intros h g1 Hh_run Hh.
  step_timedelta. step_datetime_add Hfit.
  apply post_bind.
  eapply post_known;
    [apply (post_random_ip False "45.33.0.0/16" _ _
              (fun ip _ => exists a, ip = ipv4_text a
                                     /\ 757137409 <= a <= 757202942)
              g1 v4_block_brute);
     intros a ? Ha; exists a; auto |].
  intros ip g2 Hip_run (a & -> & Ha).
  set (base := start + hours h).
  assert (0 <= base /\ base + minutes 13 < MAX_ORDINAL * US_PER_DAY) as Hbase
    by (subst base; span_bounds).
  assert (ipv4_of_string (ipv4_text a) = Some a) as Hparse
    by (apply ipv4_text_parsed; unfold all_ones; simpl; lia).
  apply post_bind.
  pose (I := fun (done : list Z) (out : list event) (gi : G) =>
               gi = Nat.iter (length done) after_failure g2
               /\ exists rows_,
                    out = anomalies ++ rows_
                    /\ length rows_ = length done
                    /\ Forall (fun e => e !! "source_ip"
                                        = Some (ipv4_text a)) rows_
                    /\ forall (k : nat) i, done !! k = Some i ->
                         exists e, rows_ !! k = Some e
                                   /\ failure_reads e base a i
                                        (Nat.iter k after_failure g2)).
  eapply post_mono;
    [| apply (post_for_each_state False _ I (range 12) [] anomalies g2)].
  - intros out gl HI. destruct HI as (-> & rows_ & -> & Hlen & Hips & Hrows).
    change (length ([] ++ range 12)) with 12%nat in *.
    assert ((0 <= base /\ base + minutes 13 < MAX_ORDINAL * US_PER_DAY)
            \/ False) as Hbase' by (left; exact Hbase).
    step_timedelta. step_datetime_add Hbase'.
    apply post_bind, post_choice; [discriminate |].
    intros country Hcountry Hin. apply post_ret.
    exists h, g1, (ipv4_text a), a, g2,
      (rows_ ++ [new_event (isoformat_seconds (base + minutes 13)) "carol"
                   "linux-sshd" "password" (ipv4_text a) country "SUCCESS"
                   ""]).
    split; [exact Hh_run |]. split; [exact Hh |]. split; [exact Hip_run |].
    split; [exact Hparse |].
    split; [rewrite <- app_assoc; reflexivity |].
    split; [rewrite length_app, Hlen; reflexivity |].
    split.
    { apply Forall_app. split; [exact Hips |].
      apply Forall_cons_2; [reflexivity | apply Forall_nil_2]. }
    split.
    { intros i Hi.
      destruct (Hrows i (Z.of_nat i)) as (e & He & Hreads).
      { change ([] ++ range 12) with (range 12). unfold range.
        rewrite list_lookup_fmap, lookup_seq_lt by (simpl; lia).
        reflexivity. }
      exists e. split; [| exact Hreads].
      rewrite lookup_app_l by lia. exact He. }
    split; [| reflexivity].
    eexists _, country. split.
    { rewrite lookup_app_r by lia. rewrite Hlen, Nat.sub_diag. reflexivity. }
    split.
    { apply stamped_new_event, valid_datetime_iff. revert Hbase.
      unfold minutes, MAX_ORDINAL, US_PER_DAY, US_PER_SECOND. lia. }
    split.
    { exists 757137409, 757202942, (ipv4_text a).
      split; [exact v4_block_brute |]. split; [exact Ha |].
      split; [reflexivity | exact Hparse]. }
    split; [repeat split |]. split; [exact Hcountry | exact Hin].
  - split; [reflexivity |]. exists [].
    split; [rewrite app_nil_r; reflexivity |]. split; [reflexivity |].
    split; [apply Forall_nil_2 |].
    intros k i Hk. rewrite lookup_nil in Hk. discriminate Hk.
  - intros done x out gi Hx HI.
    destruct HI as (-> & rows_ & -> & Hlen & Hips & Hrows).
    assert (0 <= x <= 11) as Hx'.
    { unfold range in Hx. apply list_elem_of_fmap in Hx as (k & -> & Hk).
      apply elem_of_seq in Hk. simpl in Hk. lia. }
    eapply post_mono;
      [| apply (post_brute_failure_reads base a x _ _ Hx' Hbase Ha)].
    intros out g' (e & -> & Hreads & Hip & ->).
    split.
    { rewrite length_app. simpl. rewrite Nat.add_1_r. reflexivity. }
    exists (rows_ ++ [e]).
    split; [rewrite <- app_assoc; reflexivity |].
    split; [rewrite !length_app, Hlen; reflexivity |].
    split.
    { apply Forall_app. split; [exact Hips |].
      apply Forall_cons_2; [exact Hip | apply Forall_nil_2]. }
    intros k i Hk.
    destruct (decide (k < length done)%nat) as [Hlt | Hge].
    + rewrite lookup_app_l in Hk by exact Hlt.
      destruct (Hrows k i Hk) as (e' & He' & Hreads').
      exists e'. split; [| exact Hreads'].
      rewrite lookup_app_l by lia. exact He'.
    + rewrite lookup_app_r in Hk by lia.
      destruct (k - length done)%nat as [|j] eqn:Ej; [| discriminate Hk].
      injection Hk as <-.
      assert (k = length done) as -> by lia.
      exists e. split; [| exact Hreads].
      rewrite lookup_app_r by lia. rewrite Hlen, Nat.sub_diag. reflexivity.
Qed.
End DrawByDraw.

(* ===================================================================== *)
(** * The entry point: what a run reads from the world and gives back *)
(* ===================================================================== *)

Section EntryPoint.
Context {G : Type} `{RandomSource G} {W : Type} `{World W}.
Variable float_sum : list float -> float.

Lemma dataset_spec (args : Args) (now : Z) :
  (run_fits (days args) now ->
   exists combined, dataset float_sum args now = Ok combined)
  /\ (forall combined,
        dataset float_sum args now = Ok combined ->
        combined_spec (G := G) (rows args) (now - days args * US_PER_DAY) now
          combined).
Proof.
  unfold dataset. split.
  - intros Hfit.
    destruct (post_total _ _ (rng_seed (seed args))
                (post_pipeline float_sum False (rows args) (days args) now
                   (rng_seed (seed args)) (or_introl Hfit)))
      as (combined & g' & Hrun & _).
    rewrite Hrun. eauto.
  - intros combined Hdata.
    destruct (pipeline float_sum (rows args) (days args) now
                (rng_seed (seed args))) as [[c g']|e] eqn:Hrun;
      [| discriminate Hdata].
    injection Hdata as <-.
    exact (post_partial _ _ _
             (post_pipeline float_sum True (rows args) (days args) now
                (rng_seed (seed args)) (or_intror I)) c g' Hrun).
Qed.

(** A run that returns has read the clock once, generated the dataset
    for that reading and had its table accepted under [args.out]. *)
Lemma main_returned (args : Args) (w : W) o w' :
  main float_sum args w = Ok (o, w') ->
  exists combined w1,
    dataset float_sum args (fst (world_now w)) = Ok combined
    /\ world_write (out args) (write_csv combined) (snd (world_now w))
       = Ok (tt, w1)
    /\ o = mkOutput (world_posix (out args)) (write_csv combined)
                    (Z.of_nat (length combined)).
Proof.
  unfold main, bind, lift, ret.
  destruct (world_now w) as [now w0]. cbn [fst snd].
  destruct (dataset float_sum args now) as [combined|] eqn:Hdata;
    [| discriminate].
  destruct (world_write (out args) (write_csv combined) w0)
    as [[[] w1]|] eqn:Hwrite; [| discriminate].
  destruct (world_print _ w1) as [[[] w2]|]; [| discriminate].
  destruct (world_print _ w2) as [[[] w3]|]; [| discriminate].
  intros Hret. injection Hret as <- <-.
  exists combined, w1. auto.
Qed.

(** C8: two runs whose arguments agree on [seed], [rows >= 0] and
    [days] and whose worlds give the same first reading of the clock,
    whatever else the two worlds hold and whatever their later readings,
    generate the same combined dataset, and do generate one, of
    [rows + 19] rows, whenever the window and the injected rows fit the
    calendar; when both runs return, they have written the same table
    and report the same row count.  The output path has no part in the
    dataset. *)
Theorem main_deterministic (args1 args2 : Args) (w1 w2 : W) :
  seed args1 = seed args2 ->
  rows args1 = rows args2 ->
  days args1 = days args2 ->
  fst (world_now w1) = fst (world_now w2) ->
  0 <= rows args1 ->
  dataset float_sum args1 (fst (world_now w1))
  = dataset float_sum args2 (fst (world_now w2))
  /\ (run_fits (days args1) (fst (world_now w1)) ->
      exists combined,
        dataset float_sum args1 (fst (world_now w1)) = Ok combined
        /\ dataset float_sum args2 (fst (world_now w2)) = Ok combined
        /\ Z.of_nat (length combined) = rows args1 + 19)
  /\ (forall o1 w1' o2 w2',
        main float_sum args1 w1 = Ok (o1, w1') ->
        main float_sum args2 w2 = Ok (o2, w2') ->
        exists combined,
          dataset float_sum args1 (fst (world_now w1)) = Ok combined
          /\ dataset float_sum args2 (fst (world_now w2)) = Ok combined
          /\ out_table o1 = write_csv combined
          /\ out_table o2 = write_csv combined
          /\ out_count o1 = out_count o2).
Proof.
  intros Hseed Hrows Hdays Hnow Hn.
  assert (dataset float_sum args1 (fst (world_now w1))
          = dataset float_sum args2 (fst (world_now w2))) as Hsame.
  { unfold dataset. rewrite Hseed, Hrows, Hdays, Hnow. reflexivity. }
  split; [exact Hsame |]. split.
  - intros Hfit.
    destruct (dataset_spec args1 (fst (world_now w1))) as [Htotal Hspec].
    destruct (Htotal Hfit) as [combined Hdata].
    exists combined. split; [exact Hdata |].
    split; [rewrite <- Hsame; exact Hdata |].
    exact (proj1 (combined_counts _ _ _ _ Hn (Hspec combined Hdata))).
  - intros o1 w1' o2 w2' Hrun1 Hrun2.
    destruct (main_returned _ _ _ _ Hrun1) as (c1 & ? & Hd1 & _ & ->).
    destruct (main_returned _ _ _ _ Hrun2) as (c2 & ? & Hd2 & _ & ->).
    rewrite Hsame, Hd2 in Hd1. injection Hd1 as <-.
    exists c2. rewrite Hsame. auto.
Qed.

(** X12: for [rows >= 0], a run of [main] that returns has had the
    world accept, under [args.out], a table of the header followed by
    [rows + 19] lines of nine cells, 19 of them with the anomaly cell
    ["true"] and [rows] with ["false"], and reports [rows + 19] rows
    and the POSIX text of the path; the run does return whenever the
    window and the injected rows fit the calendar and the world accepts
    the write and the prints; and when the world refuses the write, the
    run ends in the exception of the world. *)
Theorem main_writes_table (args : Args) (w : W) :
  0 <= rows args ->
  (forall o w',
     main float_sum args w = Ok (o, w') ->
     out_path o = world_posix (out args)
     /\ out_count o = rows args + 19
     /\ Z.of_nat (length (out_table o)) = out_count o + 1
     /\ head (out_table o) = Some fieldnames
     /\ Forall (fun line => length line = 9%nat) (out_table o)
     /\ flagged_lines "true" (out_table o) = 19
     /\ flagged_lines "false" (out_table o) = rows args
     /\ exists w1, world_write (out args) (out_table o) (snd (world_now w))
                   = Ok (tt, w1))
  /\ (run_fits (days args) (fst (world_now w)) ->
      (forall table,
         returns (world_write (out args) table (snd (world_now w))) = true) ->
      (forall line w1, returns (world_print line w1) = true) ->
      exists o w', main float_sum args w = Ok (o, w'))
  /\ (run_fits (days args) (fst (world_now w)) ->
      forall e,
        (forall table,
           world_write (out args) table (snd (world_now w)) = Raise e) ->
        main float_sum args w = Raise e).
Proof.
  intros Hn. split; [| split].
  - intros o w' Hrun.
    destruct (main_returned _ _ _ _ Hrun) as (combined & w1 & Hdata & Hw & ->).
    cbn [out_path out_table out_count].
    pose proof (proj2 (dataset_spec args (fst (world_now w))) combined Hdata)
      as Hspec.
    pose proof (combined_fieldnames _ _ _ _ Hspec) as Hkeys.
    destruct (combined_counts _ _ _ _ Hn Hspec) as (Hlen & Htrue & Hfalse).
    destruct (written_line_count combined) as (Hlines & Hhead & Hcells).
    split; [reflexivity |]. split; [exact Hlen |].
    split; [rewrite Hlines; lia |].
    split; [exact Hhead |]. split; [exact Hcells |].
    rewrite !flagged_lines_written by (discriminate || exact Hkeys).
    split; [exact Htrue |]. split; [exact Hfalse |].
    exists w1. exact Hw.
  - intros Hfit Hwrite Hprint.
    destruct (proj1 (dataset_spec args (fst (world_now w))) Hfit)
      as [combined Hdata].
    unfold main, bind, lift, ret.
    destruct (world_now w) as [now w0]. cbn [fst snd] in *.
    rewrite Hdata.
    specialize (Hwrite (write_csv combined)).
    destruct (world_write (out args) (write_csv combined) w0)
      as [[[] w1]|]; [| discriminate Hwrite].
    match goal with
    | |- context [world_print ?line w1] =>
        pose proof (Hprint line w1) as Hp1;
        destruct (world_print line w1) as [[[] w2]|]; [| discriminate Hp1]
    end.
    match goal with
    | |- context [world_print ?line w2] =>
        pose proof (Hprint line w2) as Hp2;
        destruct (world_print line w2) as [[[] w3]|]; [| discriminate Hp2]
    end.
    eauto.
  - intros Hfit e Hwrite.
    destruct (proj1 (dataset_spec args (fst (world_now w))) Hfit)
      as [combined Hdata].
    unfold main, bind, lift, ret.
    destruct (world_now w) as [now w0]. cbn [fst snd] in *.
    rewrite Hdata, Hwrite. reflexivity.
Qed.
End EntryPoint.

(* ===================================================================== *)
(** * Runs of the scenarios and of the entry point *)
(* ===================================================================== *)

Lemma brute_force_rows_witness :
  anomalies_fit sample_start
  /\ exists h a rows_ g',
       brute_force sample_start [] (replay []) = Ok (rows_, g')
       /\ 60 <= h <= 90
       /\ length rows_ = 13%nat
       /\ (exists e, rows_ !! 0%nat = Some e
                     /\ stamped e (sample_start + hours h + minutes 0)
                     /\ addressed e "45.33.0.0/16" a
                     /\ e !! "result" = Some "FAILURE")
       /\ (exists e, rows_ !! 12%nat = Some e
                     /\ stamped e (sample_start + hours h + minutes 13)
                     /\ addressed e "45.33.0.0/16" a
                     /\ e !! "username" = Some "carol"
                     /\ e !! "result" = Some "SUCCESS").
Proof.
  assert (anomalies_fit sample_start) as Hfit by calendar_bounds.
  split; [exact Hfit |].
  destruct (brute_force_rows sample_start [] (replay []) Hfit)
    as (h & g1 & ip & a & g2 & rows_ & g' & _ & Hh & _ & _ & Hrun & Hlen & _
        & Hfails & Hlast & _).
  exists h, a, rows_, g'. split; [exact Hrun |]. split; [exact Hh |].
  split; [exact Hlen |]. split.
  - destruct (Hfails 0%nat ltac:(lia))
      as (e & He & user & country & _ & _ & _ & Hstamp & Haddr & Hreads).
    exists e. split; [exact He |]. split; [exact Hstamp |].
    split; [exact Haddr |]. apply Hreads.
  - destruct Hlast as (e & country & He & Hstamp & Haddr & Hreads & _).
    exists e. split; [exact He |]. split; [exact Hstamp |].
    split; [exact Haddr |]. split; apply Hreads.
Defined.

Lemma impossible_travel_rows_witness :
  anomalies_fit sample_start
  /\ exists anomalies g',
       build_anomalies sample_start (replay []) = Ok (anomalies, g')
       /\ exists e1 e2 p1 p2,
            successes_of "alice" anomalies = [e1; e2]
            /\ e1 !! "country" = Some "US"
            /\ e2 !! "country" = Some "JP"
            /\ parsed_instant e1 = Some p1
            /\ parsed_instant e2 = Some p2
            /\ 0 < p2 - p1 <= minutes 40.
Proof.
  assert (anomalies_fit sample_start) as Hfit by calendar_bounds.
  split; [exact Hfit |].
  destruct (impossible_travel_rows sample_start (replay []) Hfit)
    as (anomalies & g' & Hrun & Husers).
  exists anomalies, g'. split; [exact Hrun |].
  destruct (Husers "alice")
    as (h & m & e1 & e2 & a1 & a2 & p1 & p2 & _ & _ & Hrows & _ & _ & Hr1
        & Hr2 & _ & _ & Hp1 & Hp2 & _ & Hclose);
    [apply elem_of_cons; left; reflexivity |].
  exists e1, e2, p1, p2. split; [exact Hrows |].
  split; [apply Hr1 |]. split; [apply Hr2 |].
  split; [exact Hp1 |]. split; [exact Hp2 | exact Hclose].
Defined.

Lemma main_deterministic_witness :
  seed sample_args = seed other_args
  /\ rows sample_args = rows other_args
  /\ days sample_args = days other_args
  /\ fst (world_now sample_host) = fst (world_now other_host)
  /\ 0 <= rows sample_args
  /\ run_fits (days sample_args) (fst (world_now sample_host))
  /\ exists combined o1 h1 o2 h2,
       dataset (G := Scripted) naive_sum sample_args sample_now = Ok combined
       /\ Z.of_nat (length combined) = 21
       /\ main (G := Scripted) naive_sum sample_args sample_host = Ok (o1, h1)
       /\ main (G := Scripted) naive_sum other_args other_host = Ok (o2, h2)
       /\ out_table o1 = out_table o2
       /\ out_path o1 <> out_path o2.
Proof.
  assert (seed sample_args = seed other_args) as Hseed by reflexivity.
  assert (rows sample_args = rows other_args) as Hrows by reflexivity.
  assert (days sample_args = days other_args) as Hdays by reflexivity.
  assert (fst (world_now sample_host) = fst (world_now other_host)) as Hnow
    by reflexivity.
  assert (0 <= rows sample_args) as Hn by (simpl; lia).
  assert (run_fits (days sample_args) (fst (world_now sample_host))) as Hfit
    by (simpl; calendar_bounds).
  repeat (split; [assumption |]).
  destruct (main_deterministic (G := Scripted) naive_sum sample_args
              other_args sample_host other_host Hseed Hrows Hdays Hnow Hn)
    as (_ & Htotal & Htables).
  destruct (Htotal Hfit) as (combined & Hdata & _ & Hlen).
  assert (returns (main (G := Scripted) naive_sum sample_args sample_host)
          = true) as Hok1 by (vm_compute; reflexivity).
  assert (returns (main (G := Scripted) naive_sum other_args other_host)
          = true) as Hok2 by (vm_compute; reflexivity).
  destruct (main (G := Scripted) naive_sum sample_args sample_host)
    as [[o1 h1]|] eqn:Hrun1; [| discriminate Hok1].
  destruct (main (G := Scripted) naive_sum other_args other_host)
    as [[o2 h2]|] eqn:Hrun2; [| discriminate Hok2].
  destruct (Htables o1 h1 o2 h2 eq_refl eq_refl)
    as (c & _ & _ & Ht1 & Ht2 & _).
  exists combined, o1, h1, o2, h2. split; [exact Hdata |].
  split; [exact Hlen |]. split; [reflexivity |]. split; [reflexivity |].
  split; [rewrite Ht1, Ht2; reflexivity |].
  intros Hpath.
  assert (match main (G := Scripted) naive_sum sample_args sample_host,
                main (G := Scripted) naive_sum other_args other_host with
          | Ok (a, _), Ok (b, _) => String.eqb (out_path a) (out_path b)
          | _, _ => true
          end = false) as Hdiff by (vm_compute; reflexivity).
  rewrite Hrun1, Hrun2, Hpath, String.eqb_refl in Hdiff. discriminate Hdiff.
Defined.

Lemma inject_anomalies_keeps_rows_witness :
  anomalies_fit sample_start
  /\ exists combined g',
       inject_anomalies sample_rows sample_start sample_now (replay [])
       = Ok (combined, g')
       /\ inject_anomalies sample_rows sample_start 0 (replay [])
          = Ok (combined, g')
       /\ Z.of_nat (length combined) = 2 + 19
       /\ flagged "false" combined = 2.
Proof.
  assert (anomalies_fit sample_start) as Hfit by calendar_bounds.
  split; [exact Hfit |].
  destruct (inject_anomalies_keeps_rows sample_rows sample_start
              (replay []) Hfit)
    as (combined & anomalies & g' & Hrun & _ & _ & Hlen & _ & Hfalse & _).
  exists combined, g'. split; [exact (Hrun sample_now) |].
  split; [exact (Hrun 0) |].
  split; [exact Hlen | exact Hfalse].
Defined.

Lemma off_hours_row_appended_witness :
  anomalies_fit sample_start
  /\ exists e m a g',
       off_hours sample_start [] (replay []) = Ok ([e], g')
       /\ stamped e (sample_start + span 2 3 m 0)
       /\ e !! "username" = Some "dave"
       /\ addressed e "198.18.0.0/15" a.
Proof.
  assert (anomalies_fit sample_start) as Hfit by calendar_bounds.
  split; [exact Hfit |].
  destruct (off_hours_row_appended sample_start [] (replay []) Hfit)
    as (e & m & a & g' & Hrun & _ & Hstamp & _ & Hreads & Haddr & _).
  exists e, m, a, g'. split; [exact Hrun |]. split; [exact Hstamp |].
  split; [apply Hreads | exact Haddr].
Defined.

Lemma off_hours_row_in_usual_hours_witness :
  anomalies_fit sample_start
  /\ 3 * 3600 <= sample_start mod US_PER_DAY / US_PER_SECOND < 12 * 3600
  /\ exists e p g',
       off_hours sample_start [] (replay []) = Ok ([e], g')
       /\ parsed_instant e = Some p
       /\ 6 <= fst (fst (hms p)) <= 15.
Proof.
  assert (anomalies_fit sample_start) as Hfit by calendar_bounds.
  assert (3 * 3600 <= sample_start mod US_PER_DAY / US_PER_SECOND
          < 12 * 3600) as Htod
    by (vm_compute; split; [discriminate | reflexivity]).
  split; [exact Hfit |]. split; [exact Htod |].
  destruct (off_hours_row_in_usual_hours sample_start [] (replay [])
              Hfit Htod) as (e & p & g' & Hrun & _ & Hp & Hhour).
  exists e, p, g'. split; [exact Hrun |]. split; [exact Hp |].
  apply (Hhour (mkUserProfile "dave" "GB" (6, 15) 0.95%float
                  ["10.10.40.0/24"; "192.168.40.0/24"])); [| reflexivity].
  unfold build_user_profiles. rewrite !elem_of_cons. tauto.
Defined.

Lemma service_account_row_appended_witness :
  anomalies_fit sample_start
  /\ exists e m a g',
       service_account sample_start [] (replay []) = Ok ([e], g')
       /\ stamped e (sample_start + span 1 12 m 0)
       /\ e !! "username" = Some "svc_backup"
       /\ addressed e "172.31.0.0/16" a.
Proof.
  assert (anomalies_fit sample_start) as Hfit by calendar_bounds.
  split; [exact Hfit |].
  destruct (service_account_row_appended sample_start [] (replay []) Hfit)
    as (e & m & a & g' & Hrun & _ & Hstamp & _ & Hreads & Haddr & _).
  exists e, m, a, g'. split; [exact Hrun |]. split; [exact Hstamp |].
  split; [apply Hreads | exact Haddr].
Defined.

Lemma main_writes_table_witness :
  0 <= rows sample_args
  /\ run_fits (days sample_args) (fst (world_now sample_host))
  /\ exists o h,
       main (G := Scripted) naive_sum sample_args sample_host = Ok (o, h)
       /\ out_path o = "out/sample_auth_logs.csv"
       /\ out_count o = 21
       /\ Z.of_nat (length (out_table o)) = 22
       /\ flagged_lines "true" (out_table o) = 19.
Proof.
  assert (0 <= rows sample_args) as Hn by (simpl; lia).
  assert (run_fits (days sample_args) (fst (world_now sample_host))) as Hfit
    by (simpl; calendar_bounds).
  assert (forall table,
            returns (world_write (out sample_args) table
                       (snd (world_now sample_host))) = true) as Hwrite
    by (intros table; reflexivity).
  assert (forall line (h : Host), returns (world_print line h) = true)
    as Hprint by (intros line h; reflexivity).
  split; [exact Hn |]. split; [exact Hfit |].
  destruct (main_writes_table (G := Scripted) naive_sum sample_args
              sample_host Hn) as (Htable & Htotal & _).
  destruct (Htotal Hfit Hwrite Hprint) as (o & h & Hrun).
  destruct (Htable o h Hrun) as (Hpath & Hcount & Hlines & _ & _ & Htrue & _).
  exists o, h. split; [exact Hrun |]. split; [exact Hpath |].
  split; [exact Hcount |]. split; [| exact Htrue].
  rewrite Hlines, Hcount. reflexivity.
Defined.

Lemma unprofiled_rows_are_brute_force_witness :
  exists combined g',
    pipeline naive_sum 2 7 sample_now (replay []) = Ok (combined, g')
    /\ forall e, e ∈ combined ->
         ~ profiled (field "username" e) ->
         e !! "is_injected_anomaly" = Some "true"
         /\ e !! "username" = Some "unknown_user"
         /\ e !! "failure_reason" = Some "bad_password".
Proof.
  assert (returns (pipeline naive_sum 2 7 sample_now (replay [])) = true)
    as Hok by (vm_compute; reflexivity).
  destruct (pipeline naive_sum 2 7 sample_now (replay []))
    as [[combined g']|e] eqn:Hrun; [| discriminate Hok].
  exists combined, g'. split; [reflexivity |].
  intros e He Hname.
  destruct (unprofiled_rows_are_brute_force naive_sum 2 7 sample_now
              (replay []) combined g' Hrun e He Hname)
    as (country & a & Hflag & Hreads & _).
  split; [exact Hflag |]. split; apply Hreads.
Defined.
